(** * AI Study Buddy: a shallow embedding of the tutoring application's core

    The development follows the TypeScript sources of the front end:

    - [GeminiClient]    lib/gemini-client.ts (dual API key completion client)
    - [Signup]          app/api/auth/signup/route.ts
    - [SignupRoute]     the same route, with operations that can reject
    - [Login]           app/api/auth/login/route.ts
    - [GoogleSignIn]    lib/auth.ts (the sign-in callback)
    - [AuthMiddleware]  lib/auth-middleware.ts
    - [RequestHeaders]  the header list of a request sent by [fetch]
    - [LearningStats]   hooks/use-learning-stats.ts
    - [ChatHistory]     hooks/use-chat-history.ts

    The definitions come first; the modules whose names end in [Facts] state
    and prove the properties.

    JavaScript numbers that hold counters and millisecond clocks are modelled
    as [Z] (they stay far below 2^53), strings as [string], [null] and
    [undefined] as [None].  Module-level variables, the console and the
    outbound network traffic are threaded through an explicit state. *)

From Stdlib Require Import ZArith String Ascii List Lia Bool.
From Stdlib Require Import PrimFloat FloatOps SpecFloat Uint63.
From Stdlib Require Import DecimalString DecimalZ.
From stdpp Require Import base list strings gmap.

Import ListNotations.
Local Open Scope Z_scope.
Local Open Scope string_scope.
Local Open Scope list_scope.

(** ** JavaScript truthiness of the values the code tests *)

Module JS.

(** [!s] for a string: only the empty string is falsy. *)
Definition truthy_str (s : string) : bool :=
  match s with
  | EmptyString => false
  | String _ _ => true
  end.

(** [!v] for a [string | undefined] such as an environment variable or a
    field of a parsed request body. *)
Definition truthy (v : option string) : bool :=
  match v with
  | Some s => truthy_str s
  | None => false
  end.

(** [a || b] on [string | undefined]. *)
Definition or_else (v : option string) (d : string) : string :=
  match v with
  | Some s => if truthy_str s then s else d
  | None => d
  end.

(** [!o] for an object reference that may be [null]: every object is
    truthy. *)
Definition truthy_obj {A} (o : option A) : bool :=
  match o with
  | Some _ => true
  | None => false
  end.

(** [hay.includes(needle)]. *)
Definition includes (hay needle : string) : bool :=
  match String.index 0 needle hay with
  | Some _ => true
  | None => false
  end.

(** [(n).toString()] for an integer-valued number: its decimal digits. *)
Definition number_toString (n : Z) : string :=
  NilZero.string_of_int (Z.to_int n).

(** The double that holds an integer counter (exact below 2^53). *)
Definition number (n : Z) : float :=
  if (n <? 0)%Z
  then PrimFloat.opp (PrimFloat.of_uint63 (Uint63.of_Z (- n)))
  else PrimFloat.of_uint63 (Uint63.of_Z n).

(** [Math.round(x)] for a finite [x]: the nearest integer, ties towards
    plus infinity, computed exactly from the mantissa and exponent of the
    double.  The callers only round finite values; infinities and NaN, which
    [Math.round] returns unchanged, are outside [Z] and mapped to 0. *)
Definition Math_round (x : float) : Z :=
  match Prim2SF x with
  | S754_finite s m e =>
      let v := if s then Z.neg m else Z.pos m in
      match e with
      | Z.neg k => (2 * v + 2 ^ Z.pos k) / 2 ^ (Z.pos k + 1)
      | _ => v * 2 ^ e
      end
  | _ => 0
  end.

End JS.

(** ** [process.env], as far as the code reads it *)

Module Process.

Record Env := {
  GEMINI_API_KEY_1 : option string;
  GEMINI_API_KEY_2 : option string;
  JWT_SECRET : option string
}.

End Process.

(** ** lib/gemini-client.ts *)

Module GeminiClient.

(** [new GoogleGenerativeAI(apiKey)]: the SDK object only remembers its key. *)
Record GoogleGenerativeAI := { apiKey : string }.

Record GenerativeModel := {
  model_client : GoogleGenerativeAI;
  model_name : string
}.

Record GenerationConfig := {
  maxOutputTokens : Z;
  temperature_tenths : Z
}.

(** One outbound completion request, as the provider sees it. *)
Record Call := {
  call_key : string;
  call_model : string;
  call_history : list string;
  call_config : GenerationConfig;
  call_message : string
}.

(** The hosted API.  Given the requests issued so far and the current one
    it either yields the text of the response ([inr]) or fails with an
    error message ([inl]): network error, non-2xx status, or a response
    whose [text()] throws. *)
Definition Provider := list Call -> Call -> string + string.

(** The module variables [client1] and [client2], the requests sent and
    the console output. *)
Record State := {
  client1 : option GoogleGenerativeAI;
  client2 : option GoogleGenerativeAI;
  calls : list Call;
  console : list string
}.

Definition initial : State :=
  {| client1 := None; client2 := None; calls := []; console := [] |}.

Definition set_client1 (c : GoogleGenerativeAI) (st : State) : State :=
  {| client1 := Some c; client2 := client2 st;
     calls := calls st; console := console st |}.

Definition set_client2 (c : GoogleGenerativeAI) (st : State) : State :=
  {| client1 := client1 st; client2 := Some c;
     calls := calls st; console := console st |}.

Definition add_call (c : Call) (st : State) : State :=
  {| client1 := client1 st; client2 := client2 st;
     calls := calls st ++ [c]; console := console st |}.

Definition add_console (line : string) (st : State) : State :=
  {| client1 := client1 st; client2 := client2 st;
     calls := calls st; console := console st ++ [line] |}.

(** *** A state and exception monad

    A computation runs on a [State] and either throws an [Error] (kept as
    its [message]) or returns a value; the state survives a throw, as the
    module variables do in JavaScript. *)

Definition Error := string.

Definition M (A : Type) : Type := State -> (Error + A) * State.

Definition ret {A} (a : A) : M A := fun st => (inr a, st).

Definition throw {A} (e : Error) : M A := fun st => (inl e, st).

Definition bind {A B} (m : M A) (k : A -> M B) : M B :=
  fun st =>
    match m st with
    | (inr a, st') => k a st'
    | (inl e, st') => (inl e, st')
    end.

(** [try { m } catch (error) { ... }] with the outcome reified. *)
Definition attempt {A} (m : M A) : M (Error + A) :=
  fun st => let '(r, st') := m st in (inr r, st').

Definition gets {A} (f : State -> A) : M A := fun st => (inr (f st), st).

Definition modify (f : State -> State) : M unit := fun st => (inr tt, f st).

Definition when (b : bool) (m : M unit) : M unit := if b then m else ret tt.

Declare Scope js_scope.
Delimit Scope js_scope with js.
Notation "x <- c1 ;; c2" := (bind c1 (fun x => c2))
  (at level 100, c1 at next level, right associativity) : js_scope.
Notation "c1 ;; c2" := (bind c1 (fun _ => c2))
  (at level 100, right associativity) : js_scope.
Local Open Scope js_scope.

Definition console_log (line : string) : M unit := modify (add_console line).

Section WithEnvironment.

Variable env : Process.Env.
Variable provider : Provider.

(** Lines 6-21. *)
Definition initializeClients : M unit :=
  let apiKey1 := Process.GEMINI_API_KEY_1 env in
  let apiKey2 := Process.GEMINI_API_KEY_2 env in
  match apiKey1 with
  | Some k => when (JS.truthy_str k) (modify (set_client1 {| apiKey := k |}))
  | None => ret tt
  end ;;
  match apiKey2 with
  | Some k => when (JS.truthy_str k) (modify (set_client2 {| apiKey := k |}))
  | None => ret tt
  end ;;
  if negb (JS.truthy apiKey1) && negb (JS.truthy apiKey2)
  then throw "No Gemini API keys configured"
  else ret tt.

(** Lines 23-34.  [client1 || client2] is [client1] when it is set. *)
Definition getGeminiClient (useSecondary : bool)
  : M (option GoogleGenerativeAI) :=
  c1 <- gets client1 ;;
  c2 <- gets client2 ;;
  when (negb (JS.truthy_obj c1) && negb (JS.truthy_obj c2))
    initializeClients ;;
  c1 <- gets client1 ;;
  c2 <- gets client2 ;;
  if useSecondary && JS.truthy_obj c2
  then ret c2
  else ret (match c1 with Some c => Some c | None => c2 end).

(** Lines 36-43. *)
Definition getGeminiModel (useSecondary : bool) : M GenerativeModel :=
  client <- getGeminiClient useSecondary ;;
  match client with
  | None => throw "Gemini client not initialized"
  | Some c => ret {| model_client := c; model_name := "gemini-1.5-flash" |}
  end.

(** [model.startChat({history: [], generationConfig})] followed by
    [chat.sendMessage(message)] and [result.response.text()]: one
    request to the provider, logged in [calls] whatever its outcome. *)
Definition generationConfig : GenerationConfig :=
  {| maxOutputTokens := 1000; temperature_tenths := 7 |}.

Definition sendChat (model : GenerativeModel) (message : string)
  : M string :=
  fun st =>
    let c := {| call_key := apiKey (model_client model);
                call_model := model_name model;
                call_history := [];
                call_config := generationConfig;
                call_message := message |} in
    (provider (calls st) c, add_call c st).

(** The body of the first [try] block, lines 50-61. *)
Definition primaryAttempt (message : string) : M string :=
  console_log "[v0] Attempting with primary Gemini API key" ;;
  model <- getGeminiModel false ;;
  sendChat model message.

(** The body of the second [try] block, lines 69-84.  A model object is
    always truthy, so the [!model] guard never fires. *)
Definition secondaryAttempt (message : string) : M string :=
  model <- getGeminiModel true ;;
  when (negb (JS.truthy_obj (Some model)))
    (throw "No secondary API key available") ;;
  console_log "[v0] Attempting with secondary Gemini API key" ;;
  sendChat model message.

(** Lines 45-91.  [lastError] holds the error caught last; the message
    of the error thrown at the end is built from it alone. *)
Definition sendMessageWithFallback (message : string) : M string :=
  let lastError : option Error := None in
  r1 <- attempt (primaryAttempt message) ;;
  match r1 with
  | inr text => ret text
  | inl error =>
      console_log ("[v0] Primary API key failed, trying secondary "
                     +:+ error) ;;
      let lastError := Some error in
      r2 <- attempt (secondaryAttempt message) ;;
      match r2 with
      | inr text => ret text
      | inl error =>
          console_log ("[v0] Both API keys failed " +:+ error) ;;
          let lastError := Some error in
          throw ("Failed with both Gemini API keys: "
                   +:+ default "undefined" lastError)
      end
  end.

End WithEnvironment.

End GeminiClient.

(** ** HTTP responses and the document store *)

Module Http.

#[local] Set Warnings "-register-all".

(** The JSON values the route handlers put in a response body. *)
Inductive JSON :=
| JBool (b : bool)
| JStr (s : string)
| JObj (fields : list (string * JSON)).

Fixpoint assoc (k : string) (fields : list (string * JSON)) : option JSON :=
  match fields with
  | [] => None
  | (k', v) :: rest => if String.eqb k k' then Some v else assoc k rest
  end.

(** [body.k], [None] standing for [undefined]. *)
Definition json_get (k : string) (body : JSON) : option JSON :=
  match body with
  | JObj fields => assoc k fields
  | _ => None
  end.

Record Response := { status : Z; body : JSON }.

(** [Response.json(data)] and [Response.json(data, { status })]. *)
Definition json (data : JSON) : Response := {| status := 200; body := data |}.
Definition json_status (data : JSON) (st : Z) : Response :=
  {| status := st; body := data |}.

(** [error.message || fallback]. *)
Definition message_or (message fallback : string) : string :=
  if JS.truthy_str message then message else fallback.

End Http.

Module Store.

(** A document of the [users] collection.  Accounts created by the
    credentials signup carry a password hash, accounts created by the
    Google sign-in callback do not. *)
Record UserDoc := {
  user_id : string;
  user_name : string;
  user_email : string;
  user_password : option string;
  user_role : string;
  user_provider : string;
  user_createdAt : Z;
  user_updatedAt : Z
}.

Record UserStatsDoc := {
  stats_userId : string;
  stats_questionsAsked : Z;
  stats_topicsLearned : list string;
  stats_totalAccuracy : Z;
  stats_accuracyCount : Z;
  stats_lastActiveDate : Z;
  stats_streak : Z;
  stats_coursesEnrolled : list string;
  stats_createdAt : Z;
  stats_updatedAt : Z
}.

(** The database: two collections in insertion order and the number of
    ids the driver has generated. *)
Record Db := {
  users : list UserDoc;
  userStats : list UserStatsDoc;
  generated : nat
}.

Definition empty : Db := {| users := []; userStats := []; generated := 0 |}.

(** [db.collection("users").findOne({ email })]: the first document whose
    [email] equals the given string. *)
Definition findOne_user (db : Db) (email : string) : option UserDoc :=
  List.find (fun u => String.eqb (user_email u) email) (users db).

Section Driver.

(** The [n]-th [ObjectId] the driver generates, as its [toString()]. *)
Variable objectId : nat -> string.

(** [insertOne] on [users]: the driver assigns [_id] and returns it as
    [insertedId]. *)
Definition insertOne_user (mk : string -> UserDoc) (db : Db)
  : string * Db :=
  let id := objectId (generated db) in
  (id, {| users := users db ++ [mk id];
          userStats := userStats db;
          generated := S (generated db) |}).

Definition insertOne_userStats (doc : UserStatsDoc) (db : Db) : Db :=
  {| users := users db;
     userStats := userStats db ++ [doc];
     generated := S (generated db) |}.

End Driver.

End Store.

(** ** app/api/auth/signup/route.ts *)

Module Signup.

Import Http Store.

(** The fields the handler destructures from [await req.json()];
    [None] is a missing field. *)
Record Body := {
  name : option string;
  email : option string;
  password : option string
}.

Section Handler.

Variable objectId : nat -> string.
(** [bcrypt.hash(password, rounds)]; the salt it draws is part of the
    function. *)
Variable bcrypt_hash : string -> Z -> string.

(** Lines 4-59.  [req] is the outcome of [req.json()], an error message
    when it throws; [connectDB] is [Some error] when the connection
    throws; [clock k] is the instant of the [k]-th [new Date()] of the
    call.  This is the handler on a store that, once connected, answers
    every operation; [SignupRoute.POST] below lets each awaited operation
    reject. *)
Definition POST (req : string + Body) (connectDB : option string)
    (clock : nat -> Z) (db : Db) : Response * Db :=
  match req with
  | inl error =>
      (json_status (JObj [("error", JStr (message_or error "Signup failed"))])
         500, db)
  | inr b =>
      if negb (JS.truthy (name b)) || negb (JS.truthy (email b))
         || negb (JS.truthy (password b))
      then (json_status (JObj [("error", JStr "Missing required fields")]) 400,
            db)
      else
        let name := default "" (name b) in
        let email := default "" (email b) in
        let password := default "" (password b) in
        match connectDB with
        | Some error =>
            (json_status
               (JObj [("error", JStr (message_or error "Signup failed"))])
               500, db)
        | None =>
            match findOne_user db email with
            | Some existingUser =>
                (json_status (JObj [("error", JStr "User already exists")])
                   400, db)
            | None =>
                let hashedPassword := bcrypt_hash password 10 in
                let '(insertedId, db1) :=
                  insertOne_user objectId
                    (fun id =>
                       {| user_id := id;
                          user_name := name;
                          user_email := email;
                          user_password := Some hashedPassword;
                          user_role := "user";
                          user_provider := "credentials";
                          user_createdAt := clock 0%nat;
                          user_updatedAt := clock 1%nat |}) db in
                let db2 :=
                  insertOne_userStats
                    {| stats_userId := insertedId;
                       stats_questionsAsked := 0;
                       stats_topicsLearned := [];
                       stats_totalAccuracy := 0;
                       stats_accuracyCount := 0;
                       stats_lastActiveDate := clock 2%nat;
                       stats_streak := 0;
                       stats_coursesEnrolled := [];
                       stats_createdAt := clock 3%nat;
                       stats_updatedAt := clock 4%nat |} db1 in
                let user :=
                  JObj [("id", JStr insertedId);
                        ("name", JStr name);
                        ("email", JStr email)] in
                (json (JObj [("success", JBool true);
                             ("user", user);
                             ("message", JStr "Account created successfully")]),
                 db2)
            end
        end
  end.

End Handler.

End Signup.

(** ** The signup route with operations that can reject *)

Module SignupRoute.

Import Http Store.

(** How the awaited operations of one call settle, in the order the
    handler reaches them: [Some error] is a rejection with that message,
    [None] a result. *)
Record Awaits := {
  connectDB : option string;
  findOne : option string;
  hash : option string;
  insertUser : option string;
  insertStats : option string
}.

Definition all_resolve : Awaits :=
  {| connectDB := None; findOne := None; hash := None;
     insertUser := None; insertStats := None |}.

(** The [catch] block, lines 55-58. *)
Definition caught (error : string) (db : Db) : Response * Db :=
  (json_status (JObj [("error", JStr (message_or error "Signup failed"))]) 500,
   db).

(** An [insertOne] that rejects: the driver has drawn the [_id], and the
    document is not written. *)
Definition rejected_insert (db : Db) : Db :=
  {| users := users db;
     userStats := userStats db;
     generated := S (generated db) |}.

Section Handler.

Variable objectId : nat -> string.
Variable bcrypt_hash : string -> Z -> string.

(** Lines 4-59.  Nothing undoes the first insert when the second one
    rejects. *)
Definition POST (req : string + Signup.Body) (awaits : Awaits)
    (clock : nat -> Z) (db : Db) : Response * Db :=
  match req with
  | inl error => caught error db
  | inr b =>
      if negb (JS.truthy (Signup.name b)) || negb (JS.truthy (Signup.email b))
         || negb (JS.truthy (Signup.password b))
      then (json_status (JObj [("error", JStr "Missing required fields")]) 400,
            db)
      else
        let name := default "" (Signup.name b) in
        let email := default "" (Signup.email b) in
        let password := default "" (Signup.password b) in
        match connectDB awaits with
        | Some error => caught error db
        | None =>
        match findOne awaits with
        | Some error => caught error db
        | None =>
        match findOne_user db email with
        | Some existingUser =>
            (json_status (JObj [("error", JStr "User already exists")]) 400,
             db)
        | None =>
        match hash awaits with
        | Some error => caught error db
        | None =>
        let hashedPassword := bcrypt_hash password 10 in
        match insertUser awaits with
        | Some error => caught error (rejected_insert db)
        | None =>
        let '(insertedId, db1) :=
          insertOne_user objectId
            (fun id =>
               {| user_id := id;
                  user_name := name;
                  user_email := email;
                  user_password := Some hashedPassword;
                  user_role := "user";
                  user_provider := "credentials";
                  user_createdAt := clock 0%nat;
                  user_updatedAt := clock 1%nat |}) db in
        match insertStats awaits with
        | Some error => caught error (rejected_insert db1)
        | None =>
        let db2 :=
          insertOne_userStats
            {| stats_userId := insertedId;
               stats_questionsAsked := 0;
               stats_topicsLearned := [];
               stats_totalAccuracy := 0;
               stats_accuracyCount := 0;
               stats_lastActiveDate := clock 2%nat;
               stats_streak := 0;
               stats_coursesEnrolled := [];
               stats_createdAt := clock 3%nat;
               stats_updatedAt := clock 4%nat |} db1 in
        let user :=
          JObj [("id", JStr insertedId);
                ("name", JStr name);
                ("email", JStr email)] in
        (json (JObj [("success", JBool true);
                     ("user", user);
                     ("message", JStr "Account created successfully")]),
         db2)
        end end end end end end
  end.

End Handler.

End SignupRoute.

(** ** jsonwebtoken, as the login route and the middleware use it *)

Module Jwt.

(** The payload the login route signs. *)
Record AuthUser := {
  id : string;
  name : string;
  email : string
}.

(** What [jwt.verify] hands back: the payload with the [iat] and [exp]
    claims (in seconds) the library added when signing. *)
Record Decoded := {
  user : AuthUser;
  iat : Z;
  exp : Z
}.

(** ["30d"] in seconds. *)
Definition thirty_days : Z := 30 * 24 * 60 * 60.

(** The library as a pair of functions: [sign payload secret now] with
    [expiresIn: "30d"], and [verify token secret now], [None] when it
    throws.  [now] is the clock in milliseconds. *)
Record Library := {
  sign : AuthUser -> string -> Z -> string;
  verify : string -> string -> Z -> option Decoded
}.

(** The library accepts, until it expires, a token it signed with the same
    secret, and returns the payload it signed. *)
Definition sound (L : Library) : Prop :=
  forall payload secret issued now,
    now / 1000 < issued / 1000 + thirty_days ->
    verify L (sign L payload secret issued) secret now
    = Some {| user := payload;
              iat := issued / 1000;
              exp := issued / 1000 + thirty_days |}.

End Jwt.

(** ** app/api/auth/login/route.ts *)

Module Login.

Import Http Store.

Record Body := {
  email : option string;
  password : option string
}.

(** Line 5. *)
Definition JWT_SECRET (env : Process.Env) : string :=
  JS.or_else (Process.JWT_SECRET env) "your-secret-key-change-in-production".

Section Handler.

Variable env : Process.Env.
Variable jwt : Jwt.Library.
(** [bcrypt.compare(data, hash)]: an error message when it rejects (for
    instance on a document without a hash), else whether they match. *)
Variable bcrypt_compare : string -> option string -> string + bool.

(** Lines 7-46.  The handler only reads the store. *)
Definition POST (req : string + Body) (connectDB : option string)
    (now : Z) (db : Db) : Response :=
  match req with
  | inl error =>
      json_status (JObj [("error", JStr (message_or error "Login failed"))]) 500
  | inr b =>
      if negb (JS.truthy (email b)) || negb (JS.truthy (password b))
      then json_status (JObj [("error", JStr "Email and password required")]) 400
      else
        let email := default "" (email b) in
        let password := default "" (password b) in
        match connectDB with
        | Some error =>
            json_status
              (JObj [("error", JStr (message_or error "Login failed"))]) 500
        | None =>
            match findOne_user db email with
            | None =>
                json_status
                  (JObj [("error", JStr "Invalid email or password")]) 401
            | Some user =>
                match bcrypt_compare password (user_password user) with
                | inl error =>
                    json_status
                      (JObj [("error", JStr (message_or error "Login failed"))])
                      500
                | inr false =>
                    json_status
                      (JObj [("error", JStr "Invalid email or password")]) 401
                | inr true =>
                    let userData :=
                      {| Jwt.id := user_id user;
                         Jwt.name := user_name user;
                         Jwt.email := user_email user |} in
                    let token := Jwt.sign jwt userData (JWT_SECRET env) now in
                    json (JObj [("success", JBool true);
                                ("user",
                                 JObj [("id", JStr (Jwt.id userData));
                                       ("name", JStr (Jwt.name userData));
                                       ("email", JStr (Jwt.email userData))]);
                                ("token", JStr token)])
                end
            end
        end
  end.

End Handler.

End Login.

(** ** lib/auth.ts: the Google sign-in callback *)

Module GoogleSignIn.

Import Store.

(** [updateOne({ email }, { $set })]: the first document with that email
    is updated, the others are left alone. *)
Fixpoint updateOne_user (email : string) (set : UserDoc -> UserDoc)
    (l : list UserDoc) : list UserDoc :=
  match l with
  | [] => []
  | u :: rest =>
      if String.eqb (user_email u) email
      then set u :: rest
      else u :: updateOne_user email set rest
  end.

Section Callback.

Variable objectId : nat -> string.

(** The [signIn] callback for [account.provider === "google"], with a
    store that can be reached: a first sign-in inserts a user document,
    which has no [password] field; a later one refreshes the name and the
    update time.  [clock k] is the instant of the [k]-th [new Date()]. *)
Definition signIn (name email : string) (clock : nat -> Z) (db : Db) : Db :=
  match findOne_user db email with
  | None =>
      snd (insertOne_user objectId
             (fun id =>
                {| user_id := id;
                   user_name := name;
                   user_email := email;
                   user_password := None;
                   user_role := "user";
                   user_provider := "google";
                   user_createdAt := clock 0%nat;
                   user_updatedAt := clock 1%nat |}) db)
  | Some existingUser =>
      {| users :=
           updateOne_user email
             (fun u =>
                {| user_id := user_id u;
                   user_name := name;
                   user_email := user_email u;
                   user_password := user_password u;
                   user_role := user_role u;
                   user_provider := user_provider u;
                   user_createdAt := user_createdAt u;
                   user_updatedAt := clock 0%nat |}) (users db);
         userStats := userStats db;
         generated := generated db |}
  end.

End Callback.

End GoogleSignIn.

(** ** lib/auth-middleware.ts *)

Module AuthMiddleware.

(** Line 3. *)
Definition JWT_SECRET (env : Process.Env) : string :=
  JS.or_else (Process.JWT_SECRET env) "your-secret-key-change-in-production".

Section Middleware.

Variable env : Process.Env.
Variable jwt : Jwt.Library.

(** Lines 11-18: [null] when [jwt.verify] throws. *)
Definition verifyToken (token : string) (now : Z) : option Jwt.Decoded :=
  match Jwt.verify jwt token (JWT_SECRET env) now with
  | Some decoded => Some decoded
  | None => None
  end.

End Middleware.

End AuthMiddleware.

(** ** hooks/use-learning-stats.ts *)

Module LearningStats.

Record DailyEntry := {
  day : string;
  accuracy : Z;
  date : string
}.

Record LearningStats := {
  questionsAsked : Z;
  topicsLearned : list string;
  totalCorrect : Z;
  totalAttempts : Z;
  streakDays : Z;
  lastActiveDate : string;
  dailyProgress : list DailyEntry
}.

(** Lines 35-43. *)
Definition getDefaultStats : LearningStats :=
  {| questionsAsked := 0;
     topicsLearned := [];
     totalCorrect := 0;
     totalAttempts := 0;
     streakDays := 0;
     lastActiveDate := "";
     dailyProgress := [] |}.

(** [Math.round((correct / attempts) * 100)] in double arithmetic. *)
Definition percent (correct attempts : Z) : Z :=
  JS.Math_round
    (PrimFloat.mul (PrimFloat.div (JS.number correct) (JS.number attempts))
       (JS.number 100)).

(** [l.findIndex(p)], [None] standing for -1. *)
Fixpoint findIndex {A} (p : A -> bool) (l : list A) : option nat :=
  match l with
  | [] => None
  | x :: rest => if p x then Some O else option_map S (findIndex p rest)
  end.

(** [l.slice(-n)]: the last [n] elements, all of [l] when it is shorter. *)
Definition slice_last {A} (n : nat) (l : list A) : list A :=
  drop (length l - n) l.

Definition includes (l : list string) (x : string) : bool :=
  existsb (String.eqb x) l.

(** One day in milliseconds. *)
Definition DAY_MS : Z := 86400000.

Section Clock.

(** [new Date(ms).toISOString().split("T")[0]]: the UTC calendar date
    of an instant. *)
Variable isoDate : Z -> string.
(** [new Date(ms).toLocaleDateString("en-US", { weekday: "short" })]. *)
Variable weekday : Z -> string.

(** Lines 80-102.  [t_new] is the instant read by [new Date()] and
    [t_now] the one read by [Date.now()]. *)
Definition updateStreak (t_new t_now : Z) (currentStats : LearningStats)
  : LearningStats :=
  let today := isoDate t_new in
  let yesterday := isoDate (t_now - DAY_MS) in
  if String.eqb (lastActiveDate currentStats) today
  then currentStats
  else if String.eqb (lastActiveDate currentStats) yesterday
  then {| questionsAsked := questionsAsked currentStats;
          topicsLearned := topicsLearned currentStats;
          totalCorrect := totalCorrect currentStats;
          totalAttempts := totalAttempts currentStats;
          streakDays := streakDays currentStats + 1;
          lastActiveDate := today;
          dailyProgress := dailyProgress currentStats |}
  else {| questionsAsked := questionsAsked currentStats;
          topicsLearned := topicsLearned currentStats;
          totalCorrect := totalCorrect currentStats;
          totalAttempts := totalAttempts currentStats;
          streakDays :=
            (if JS.truthy_str (lastActiveDate currentStats) then 1 else 1);
          lastActiveDate := today;
          dailyProgress := dailyProgress currentStats |}.

(** Lines 105-113, the state updater passed to [setStats]. *)
Definition incrementQuestions (t_new t_now : Z) (prev : LearningStats)
  : LearningStats :=
  let updated := updateStreak t_new t_now prev in
  {| questionsAsked := questionsAsked updated + 1;
     topicsLearned := topicsLearned updated;
     totalCorrect := totalCorrect updated;
     totalAttempts := totalAttempts updated;
     streakDays := streakDays updated;
     lastActiveDate := lastActiveDate updated;
     dailyProgress := dailyProgress updated |}.

(** Lines 116-125. *)
Definition addTopic (t_new t_now : Z) (topic : string)
    (prev : LearningStats) : LearningStats :=
  if includes (topicsLearned prev) topic then prev
  else
    let updated := updateStreak t_new t_now prev in
    {| questionsAsked := questionsAsked updated;
       topicsLearned := slice_last 20 (topicsLearned updated ++ [topic]);
       totalCorrect := totalCorrect updated;
       totalAttempts := totalAttempts updated;
       streakDays := streakDays updated;
       lastActiveDate := lastActiveDate updated;
       dailyProgress := dailyProgress updated |}.

(** Lines 128-157.  After the two clock reads of [updateStreak], the
    updater reads [new Date()] twice more: [t_date] for [today] and
    [t_day] for [dayName]. *)
Definition recordAnswer (t_new t_now t_date t_day : Z) (isCorrect : bool)
    (prev : LearningStats) : LearningStats :=
  let updated := updateStreak t_new t_now prev in
  let newTotalCorrect := totalCorrect updated + (if isCorrect then 1 else 0) in
  let newTotalAttempts := totalAttempts updated + 1 in
  let today := isoDate t_date in
  let dayName := weekday t_day in
  let todayAccuracy :=
    if (newTotalAttempts >? 0)%Z
    then percent newTotalCorrect newTotalAttempts
    else 0 in
  let dailyProgress0 := dailyProgress updated in
  let todayIndex :=
    findIndex (fun d => String.eqb (date d) today) dailyProgress0 in
  let entry := {| day := dayName; accuracy := todayAccuracy; date := today |} in
  let dailyProgress1 :=
    match todayIndex with
    | Some i => <[i := entry]> dailyProgress0
    | None => slice_last 7 (dailyProgress0 ++ [entry])
    end in
  {| questionsAsked := questionsAsked updated;
     topicsLearned := topicsLearned updated;
     totalCorrect := newTotalCorrect;
     totalAttempts := newTotalAttempts;
     streakDays := streakDays updated;
     lastActiveDate := lastActiveDate updated;
     dailyProgress := dailyProgress1 |}.

(** Lines 160-162. *)
Definition avgAccuracy (stats : LearningStats) : Z :=
  if (totalAttempts stats >? 0)%Z
  then percent (totalCorrect stats) (totalAttempts stats)
  else 0.

(** Lines 165-169. *)
Definition resetStats (prev : LearningStats) : LearningStats :=
  getDefaultStats.

(** The mutations the hook exports, each with the clock reads it makes,
    and the states they reach from the default. *)
Inductive Action :=
| IncrementQuestions (t_new t_now : Z)
| AddTopic (t_new t_now : Z) (topic : string)
| RecordAnswer (t_new t_now t_date t_day : Z) (isCorrect : bool)
| ResetStats.

Definition step (stats : LearningStats) (a : Action) : LearningStats :=
  match a with
  | IncrementQuestions t_new t_now => incrementQuestions t_new t_now stats
  | AddTopic t_new t_now topic => addTopic t_new t_now topic stats
  | RecordAnswer t_new t_now t_date t_day isCorrect =>
      recordAnswer t_new t_now t_date t_day isCorrect stats
  | ResetStats => resetStats stats
  end.

Definition run (actions : list Action) (stats : LearningStats)
  : LearningStats :=
  fold_left step actions stats.

End Clock.

End LearningStats.

(** ** hooks/use-chat-history.ts *)

Module ChatHistory.

Inductive Role := user | assistant.

Record ChatMessage := {
  message_id : string;
  role : Role;
  content : string;
  timestamp : string
}.

Record ChatSession := {
  id : string;
  title : string;
  messages : list ChatMessage;
  createdAt : string;
  updatedAt : string
}.

Definition MAX_SESSIONS : nat := 50.

(** The two pieces of React state the hook owns. *)
Record State := {
  sessions : list ChatSession;
  currentSessionId : option string
}.

Definition initial : State := {| sessions := []; currentSessionId := None |}.

(** Lines 47-62: the state after the load effect, [stored] being the parsed
    item under the storage key and [None] its absence. *)
Definition mounted (stored : option (list ChatSession)) : State :=
  {| sessions := default [] stored; currentSessionId := None |}.

(** Lines 65-76: the list the save effect writes under the storage key. *)
Definition saved (st : State) : list ChatSession :=
  filter (fun s => (0 < length (messages s))%nat) (sessions st).

Section Clock.

(** [new Date(ms).toISOString()]. *)
Variable toISOString : Z -> string.

(** The object literal of lines 80-86: [t_id] is read by [Date.now()],
    [t_created] and [t_updated] by the two [new Date()]. *)
Definition newSession (t_id t_created t_updated : Z) : ChatSession :=
  {| id := JS.number_toString t_id;
     title := "New Chat";
     messages := [];
     createdAt := toISOString t_created;
     updatedAt := toISOString t_updated |}.

(** Lines 79-95: the new state and the returned id. *)
Definition createSession (t_id t_created t_updated : Z) (st : State)
  : string * State :=
  let newSession := newSession t_id t_created t_updated in
  let updated := take MAX_SESSIONS (newSession :: sessions st) in
  (id newSession,
   {| sessions := updated; currentSessionId := Some (id newSession) |}).

(** [content.slice(0, 50) + (content.length > 50 ? "..." : "")]. *)
Definition titleOf (content : string) : string :=
  String.substring 0 50 content
  +:+ (if (50 <? String.length content)%nat then "..." else "").

(** Lines 98-126.  [t_updated] is the instant of the [new Date()] inside
    the [map] callback, taken to be the same for every session that
    matches. *)
Definition addMessage (t_id t_stamp t_updated : Z) (sessionId : string)
    (r : Role) (text : string) (st : State) : ChatMessage * State :=
  let newMessage :=
    {| message_id := JS.number_toString t_id;
       role := r;
       content := text;
       timestamp := toISOString t_stamp |} in
  (newMessage,
   {| sessions :=
        map (fun session =>
               if String.eqb (id session) sessionId
               then
                 let updatedMessages := (messages session ++ [newMessage])%list in
                 let title :=
                   match messages session, r with
                   | [], user => titleOf text
                   | _, _ => title session
                   end in
                 {| id := id session;
                    title := title;
                    messages := updatedMessages;
                    createdAt := createdAt session;
                    updatedAt := toISOString t_updated |}
               else session)
            (sessions st);
      currentSessionId := currentSessionId st |}).

(** Lines 140-145. *)
Definition deleteSession (sessionId : string) (st : State) : State :=
  {| sessions :=
       filter (fun s => id s <> sessionId) (sessions st);
     currentSessionId :=
       match currentSessionId st with
       | Some c => if String.eqb c sessionId then None else Some c
       | None => None
       end |}.

(** Lines 148-153. *)
Definition clearAllSessions (st : State) : State :=
  {| sessions := []; currentSessionId := None |}.

(** Lines 156-158. *)
Definition loadSession (sessionId : string) (st : State) : State :=
  {| sessions := sessions st; currentSessionId := Some sessionId |}.

(** Line 161: what the hook exposes as [sessions]. *)
Definition sessionsWithMessages (st : State) : list ChatSession :=
  filter (fun s => (0 < length (messages s))%nat) (sessions st).

(** The mutations of the hook, with their clock reads, and [Remount]: the
    page is loaded again and the hook starts from what it saved. *)
Inductive Action :=
| CreateSession (t_id t_created t_updated : Z)
| AddMessage (t_id t_stamp t_updated : Z) (sessionId : string)
    (r : Role) (text : string)
| DeleteSession (sessionId : string)
| ClearAllSessions
| LoadSession (sessionId : string)
| Remount.

Definition step (st : State) (a : Action) : State :=
  match a with
  | CreateSession t_id t_created t_updated =>
      snd (createSession t_id t_created t_updated st)
  | AddMessage t_id t_stamp t_updated sessionId r text =>
      snd (addMessage t_id t_stamp t_updated sessionId r text st)
  | DeleteSession sessionId => deleteSession sessionId st
  | ClearAllSessions => clearAllSessions st
  | LoadSession sessionId => loadSession sessionId st
  | Remount => mounted (Some (saved st))
  end.

Definition run (actions : list Action) (st : State) : State :=
  fold_left step actions st.

End Clock.

End ChatHistory.

(** ** app/api/chat/route.ts *)

Module ChatRoute.

Import Http.

(** The fields the handler destructures from [await req.json()]. *)
Record Body := {
  message : option string;
  userId : option string
}.

(** A document of the [chatHistory] collection. *)
Record ChatDoc := {
  chat_id : string;
  chat_userId : string;
  chat_userMessage : string;
  chat_assistantResponse : string;
  chat_createdAt : Z;
  chat_tokens_input : Z;
  chat_tokens_output : Z
}.

Record ChatDb := {
  chatHistory : list ChatDoc;
  generated : nat
}.

Definition empty : ChatDb := {| chatHistory := []; generated := 0 |}.

(** [Math.ceil(n / 4)] for a string length [n]: dividing by 4 is exact in
    double arithmetic, so this is the integer ceiling. *)
Definition ceil_quarter (n : Z) : Z := - ((- n) / 4).

(** [s.length], counting the characters of the model's strings. *)
Definition length_of (s : string) : Z := Z.of_nat (String.length s).

Section Handler.

Variable env : Process.Env.
Variable provider : GeminiClient.Provider.
(** The [n]-th [ObjectId] the driver generates. *)
Variable objectId : nat -> string.
(** [new ObjectId(userId)]: [None] when the constructor throws on a string
    that is not an id. *)
Variable parseObjectId : string -> option string.

(** Lines 17-32, the inner [try]: connect, build the document, insert it.
    Any throw is caught and only logged, so the store is left as it was. *)
Definition saveHistory (connectDB : option string) (now : Z)
    (userId message responseText : string) (db : ChatDb) : ChatDb :=
  match connectDB with
  | Some dbError => db
  | None =>
      match parseObjectId userId with
      | None => db
      | Some uid =>
          {| chatHistory :=
               chatHistory db
               ++ [{| chat_id := objectId (generated db);
                      chat_userId := uid;
                      chat_userMessage := message;
                      chat_assistantResponse := responseText;
                      chat_createdAt := now;
                      chat_tokens_input := ceil_quarter (length_of message);
                      chat_tokens_output :=
                        ceil_quarter (length_of responseText) |}];
             generated := S (generated db) |}
      end
  end.

(** Lines 5-40.  [req] is the outcome of [req.json()], [connectDB] is
    [Some error] when the connection throws, [now] the instant of
    [new Date()].  The handler returns its response, the store and the state
    of the completion client. *)
Definition POST (req : string + Body) (connectDB : option string) (now : Z)
    (db : ChatDb) (client : GeminiClient.State)
  : Response * ChatDb * GeminiClient.State :=
  match req with
  | inl error =>
      (json_status
         (JObj [("error",
                 JStr (message_or error "Failed to process chat request"))])
         500, db, client)
  | inr b =>
      if negb (JS.truthy (message b))
      then (json_status (JObj [("error", JStr "Message is required")]) 400,
            db, client)
      else
        let message := default "" (message b) in
        match GeminiClient.sendMessageWithFallback env provider message client
        with
        | (inl error, client') =>
            (json_status
               (JObj [("error",
                       JStr (message_or error
                               "Failed to process chat request"))])
               500, db, client')
        | (inr responseText, client') =>
            let db' :=
              match userId b with
              | Some uid =>
                  if JS.truthy_str uid
                  then saveHistory connectDB now uid message responseText db
                  else db
              | None => db
              end in
            (json (JObj [("response", JStr responseText)]), db', client')
        end
  end.

End Handler.

End ChatRoute.

(** ** lib/auth-middleware.ts, the request side *)

Module AuthGate.

Import Http.

(** The header list of a request.  [Headers.get] compares names without
    regard to case and joins the values of repeated headers with [", "].
    It returns the values the list holds; [RequestHeaders.of_init] below
    builds the list a client sends, with the values stripped of the
    whitespace around them. *)
Definition lower (c : ascii) : ascii :=
  let n := nat_of_ascii c in
  if (65 <=? n)%nat && (n <=? 90)%nat then ascii_of_nat (n + 32) else c.

Fixpoint lowercase (s : string) : string :=
  match s with
  | EmptyString => EmptyString
  | String c r => String (lower c) (lowercase r)
  end.

Fixpoint headers_get (name : string) (headers : list (string * string))
  : option string :=
  match headers with
  | [] => None
  | (n, v) :: rest =>
      if String.eqb (lowercase n) (lowercase name)
      then match headers_get name rest with
           | Some more => Some (v +:+ ", " +:+ more)
           | None => Some v
           end
      else headers_get name rest
  end.

(** [s.substring(n)]. *)
Definition substring_from (n : nat) (s : string) : string :=
  String.substring n (String.length s - n) s.

(** Lines 20-26. *)
Definition getTokenFromRequest (headers : list (string * string))
  : option string :=
  match headers_get "authorization" headers with
  | None => None
  | Some authHeader =>
      if negb (JS.truthy_str authHeader)
         || negb (String.prefix "Bearer " authHeader)
      then None
      else Some (substring_from 7 authHeader)
  end.

Section Gate.

Variable env : Process.Env.
Variable jwt : Jwt.Library.

(** Lines 28-42: [inr] is [{ user }], [inl] is [{ error }]. *)
Definition requireAuth (headers : list (string * string)) (now : Z)
  : Response + Jwt.Decoded :=
  let token := getTokenFromRequest headers in
  if negb (JS.truthy token)
  then inl (json_status (JObj [("error", JStr "Unauthorized")]) 401)
  else
    match AuthMiddleware.verifyToken env jwt (default "" token) now with
    | None => inl (json_status (JObj [("error", JStr "Invalid token")]) 401)
    | Some user => inr user
    end.

End Gate.

End AuthGate.

(** ** The header list a request is sent with *)

Module RequestHeaders.

(** HTTP whitespace: tab, line feed, carriage return and space. *)
Definition is_http_whitespace (c : ascii) : bool :=
  let n := nat_of_ascii c in
  (n =? 9)%nat || (n =? 10)%nat || (n =? 13)%nat || (n =? 32)%nat.

Fixpoint strip_leading (s : string) : string :=
  match s with
  | EmptyString => EmptyString
  | String c r => if is_http_whitespace c then strip_leading r else s
  end.

Fixpoint strip_trailing (s : string) : string :=
  match s with
  | EmptyString => EmptyString
  | String c r =>
      match strip_trailing r with
      | EmptyString =>
          if is_http_whitespace c then EmptyString else String c EmptyString
      | r' => String c r'
      end
  end.

(** A header value is stored with its leading and trailing whitespace
    removed. *)
Definition normalize (value : string) : string :=
  strip_trailing (strip_leading value).

(** A stored value holds no NUL, line feed or carriage return. *)
Fixpoint valid_value (value : string) : bool :=
  match value with
  | EmptyString => true
  | String c r =>
      let n := nat_of_ascii c in
      negb ((n =? 0)%nat || (n =? 10)%nat || (n =? 13)%nat) && valid_value r
  end.

(** A header name is a non-empty token. *)
Definition is_token_char (c : ascii) : bool :=
  let n := nat_of_ascii c in
  ((48 <=? n)%nat && (n <=? 57)%nat) || ((65 <=? n)%nat && (n <=? 90)%nat)
  || ((97 <=? n)%nat && (n <=? 122)%nat)
  || existsb (Nat.eqb n)
       [33; 35; 36; 37; 38; 39; 42; 43; 45; 46; 94; 95; 96; 124; 126]%nat.

Fixpoint all_token_chars (name : string) : bool :=
  match name with
  | EmptyString => true
  | String c r => is_token_char c && all_token_chars r
  end.

Definition valid_name (name : string) : bool :=
  negb (String.eqb name "") && all_token_chars name.

(** [fetch(url, { headers: init })]: the header list of the request is
    filled from the entries of [init], each value normalized; an entry
    with an invalid name or value makes the call throw a [TypeError]
    ([None]).  [req.headers] on the server reads the list so built. *)
Definition of_init (init : list (string * string))
  : option (list (string * string)) :=
  let filled := map (fun nv => (fst nv, normalize (snd nv))) init in
  if forallb (fun nv => valid_name (fst nv) && valid_value (snd nv)) filled
  then Some filled
  else None.

End RequestHeaders.

(** ** The browser: [localStorage] and JSON values *)

Module Browser.

(** What [JSON.parse] can return. *)
#[local] Set Warnings "-register-all".

Inductive Value :=
| VNull
| VBool (b : bool)
| VNum (n : Z)
| VStr (s : string)
| VObj (fields : list (string * Value)).

(** [!!v]. *)
Definition truthy (v : Value) : bool :=
  match v with
  | VNull => false
  | VBool b => b
  | VNum n => negb (n =? 0)%Z
  | VStr s => JS.truthy_str s
  | VObj _ => true
  end.

(** [`${v}`], for an integer-valued number. *)
Definition to_string (v : Value) : string :=
  match v with
  | VNull => "null"
  | VBool true => "true"
  | VBool false => "false"
  | VNum n => JS.number_toString n
  | VStr s => s
  | VObj _ => "[object Object]"
  end.

Fixpoint assoc (k : string) (fields : list (string * Value)) : option Value :=
  match fields with
  | [] => None
  | (k', v) :: rest => if String.eqb k k' then Some v else assoc k rest
  end.

(** [v.k] for a [v] that is not [null]; [None] stands for [undefined]. *)
Definition field (k : string) (v : Value) : option Value :=
  match v with
  | VObj fields => assoc k fields
  | _ => None
  end.

(** [a || b] on values that may be [undefined]. *)
Definition or_value (a b : option Value) : option Value :=
  match a with
  | Some v => if truthy v then Some v else b
  | None => b
  end.

(** The [{ id, name, email }] object the auth endpoints return. *)
Record User := {
  id : string;
  name : string;
  email : string
}.

Definition user_value (u : User) : Value :=
  VObj [("id", VStr (id u)); ("name", VStr (name u)); ("email", VStr (email u))].

Section Json.

(** [JSON.parse], [None] when it throws. *)
Variable parse : string -> option Value.

(** [getUserId] of hooks/use-learning-stats.ts, lines 17-28, which
    hooks/use-chat-history.ts repeats on its lines 23-34.  Reading a
    property of [null] throws and is caught like a parse error; a falsy
    result of [user._id || user.id] becomes [null]. *)
Definition getUserId (localStorage : gmap string string) : option Value :=
  match localStorage !! "user" with
  | Some userStr =>
      if JS.truthy_str userStr
      then match parse userStr with
           | Some VNull => None
           | Some user =>
               match or_value (field "_id" user) (field "id" user) with
               | Some v => if truthy v then Some v else None
               | None => None
               end
           | None => None
           end
      else None
  | None => None
  end.

(** [userId ? `${prefix}${userId}` : `${prefix}guest`]. *)
Definition storageKey (prefix : string) (localStorage : gmap string string)
  : string :=
  match getUserId localStorage with
  | Some userId => prefix +:+ to_string userId
  | None => prefix +:+ "guest"
  end.

End Json.

End Browser.

(** ** lib/auth-utils.ts, in the browser *)

Module AuthUtils.

(** Lines 2-5. *)
Definition getAuthToken (localStorage : gmap string string) : option string :=
  localStorage !! "auth_token".

(** Lines 13-15. *)
Definition isAuthenticated (localStorage : gmap string string) : bool :=
  JS.truthy (getAuthToken localStorage).

(** Lines 17-21. *)
Definition logout (localStorage : gmap string string) : gmap string string :=
  delete "user" (delete "auth_token" localStorage).

(** Lines 24-30: the spread adds [Authorization] only for a truthy token. *)
Definition getAuthHeaders (localStorage : gmap string string)
  : list (string * string) :=
  let token := getAuthToken localStorage in
  ("Content-Type", "application/json")
  :: (if JS.truthy token
      then [("Authorization", "Bearer " +:+ default "" token)]
      else []).

End AuthUtils.

(** ** components/auth-provider.tsx *)

Module AuthProvider.

Import Browser.

(** The component state; [user] holds whatever object was parsed or
    passed in. *)
Record State := {
  user : option Value;
  token : option string;
  isLoading : bool
}.

Definition initial : State :=
  {| user := None; token := None; isLoading := true |}.

Section Json.

Variable parse : string -> option Value.
(** [JSON.stringify]. *)
Variable stringify : Value -> string.

(** The mount effect: both items must be present and non-empty for the
    session to be restored.  [JSON.parse] is not guarded here, so a throw
    ([None]) leaves the effect unfinished. *)
Definition mount (localStorage : gmap string string) (st : State)
  : option State :=
  let storedToken := localStorage !! "auth_token" in
  let storedUser := localStorage !! "user" in
  if JS.truthy storedToken && JS.truthy storedUser
  then match parse (default "" storedUser) with
       | Some parsed =>
           Some {| user := (match parsed with VNull => None | v => Some v end);
                   token := storedToken;
                   isLoading := false |}
       | None => None
       end
  else Some {| user := user st; token := token st; isLoading := false |}.

(** [login(newToken, newUser)]. *)
Definition login (newToken : string) (newUser : User)
    (localStorage : gmap string string) (st : State)
  : gmap string string * State :=
  (<["user" := stringify (user_value newUser)]>
     (<["auth_token" := newToken]> localStorage),
   {| user := Some (user_value newUser);
      token := Some newToken;
      isLoading := isLoading st |}).

(** [logout()]: the third component is the route pushed on the router. *)
Definition logout (localStorage : gmap string string) (st : State)
  : gmap string string * State * string :=
  (delete "user" (delete "auth_token" localStorage),
   {| user := None; token := None; isLoading := isLoading st |},
   "/login").

(** [!!token && !!user]. *)
Definition isAuthenticated (st : State) : bool :=
  JS.truthy (token st)
  && match user st with Some v => truthy v | None => false end.

End Json.

End AuthProvider.

(** ** Persistence of the two hooks *)

Module StatsStorage.

Import Browser.

(** hooks/use-learning-stats.ts, line 15. *)
Definition STORAGE_KEY_PREFIX : string := "learning_stats_".

Section Json.

Variable parse : string -> option Value.
(** [JSON.stringify] and [JSON.parse] on the stats object. *)
Variable encode : LearningStats.LearningStats -> string.
Variable decode : string -> option LearningStats.LearningStats.

(** Lines 30-33. *)
Definition getStorageKey (localStorage : gmap string string) : string :=
  storageKey parse STORAGE_KEY_PREFIX localStorage.

(** Lines 50-65, the load effect: the stats the hook holds afterwards.  A
    throwing [JSON.parse] is caught and leaves the initial default. *)
Definition load (localStorage : gmap string string)
  : LearningStats.LearningStats :=
  match localStorage !! getStorageKey localStorage with
  | Some stored =>
      if JS.truthy_str stored
      then match decode stored with
           | Some parsedStats => parsedStats
           | None => LearningStats.getDefaultStats
           end
      else LearningStats.getDefaultStats
  | None => LearningStats.getDefaultStats
  end.

(** Lines 68-77, the save effect once the hook is loaded. *)
Definition save (stats : LearningStats.LearningStats)
    (localStorage : gmap string string) : gmap string string :=
  <[getStorageKey localStorage := encode stats]> localStorage.

(** Lines 165-169 with the save effect that follows the state change. *)
Definition resetStats (localStorage : gmap string string)
  : LearningStats.LearningStats * gmap string string :=
  (LearningStats.getDefaultStats,
   save LearningStats.getDefaultStats
     (delete (getStorageKey localStorage) localStorage)).

End Json.

End StatsStorage.

Module ChatStorage.

Import Browser.

(** hooks/use-chat-history.ts, line 20. *)
Definition STORAGE_KEY_PREFIX : string := "chat_history_".

Section Json.

Variable parse : string -> option Value.
Variable encode : list ChatHistory.ChatSession -> string.
Variable decode : string -> option (list ChatHistory.ChatSession).

(** Lines 36-39. *)
Definition getStorageKey (localStorage : gmap string string) : string :=
  storageKey parse STORAGE_KEY_PREFIX localStorage.

(** Lines 47-62: the session list after the load effect. *)
Definition load (localStorage : gmap string string)
  : list ChatHistory.ChatSession :=
  match localStorage !! getStorageKey localStorage with
  | Some stored =>
      if JS.truthy_str stored
      then match decode stored with
           | Some parsedSessions => parsedSessions
           | None => []
           end
      else []
  | None => []
  end.

(** Lines 65-76: only the sessions with a message are written. *)
Definition save (st : ChatHistory.State) (localStorage : gmap string string)
  : gmap string string :=
  <[getStorageKey localStorage := encode (ChatHistory.saved st)]> localStorage.

End Json.

End ChatStorage.

(** ** hooks/use-chat-history.ts, the lookups *)

Module ChatQueries.

Import ChatHistory.

(** Lines 135-137. *)
Definition getSession (sessionId : string) (st : State) : option ChatSession :=
  List.find (fun s => String.eqb (id s) sessionId) (sessions st).

(** Lines 129-132. *)
Definition getCurrentSession (st : State) : option ChatSession :=
  match currentSessionId st with
  | Some current =>
      if JS.truthy_str current then getSession current st else None
  | None => None
  end.

End ChatQueries.

(** * Properties of the completion client *)

Module GeminiClientFacts.

Import GeminiClient.

(** Scenario data: a provider that is down, one that recovers on the
    second request, and one that rejects each key with its own message. *)
Definition only_primary : Process.Env :=
  {| Process.GEMINI_API_KEY_1 := Some "key-one";
     Process.GEMINI_API_KEY_2 := None;
     Process.JWT_SECRET := None |}.

Definition both_keys : Process.Env :=
  {| Process.GEMINI_API_KEY_1 := Some "key-one";
     Process.GEMINI_API_KEY_2 := Some "key-two";
     Process.JWT_SECRET := None |}.

Definition no_keys : Process.Env :=
  {| Process.GEMINI_API_KEY_1 := None;
     Process.GEMINI_API_KEY_2 := Some "";
     Process.JWT_SECRET := None |}.

Definition down : Provider := fun _ _ => inl "503 Service Unavailable".

Definition recovers : Provider :=
  fun sent _ =>
    match sent with
    | [] => inl "fetch failed"
    | _ => inr "Hello!"
    end.

Definition rejects_each : Provider :=
  fun _ c =>
    if String.eqb (call_key c) "key-one"
    then inl "quota exceeded"
    else inl "API key not valid".

Definition request (key message : string) : Call :=
  {| call_key := key;
     call_model := "gemini-1.5-flash";
     call_history := [];
     call_config := {| maxOutputTokens := 1000; temperature_tenths := 7 |};
     call_message := message |}.

(** A module state in which no client has been constructed yet. *)
Definition fresh (st : State) : Prop :=
  client1 st = None /\ client2 st = None.

Ltac run_client :=
  unfold sendMessageWithFallback, primaryAttempt, secondaryAttempt, attempt,
    getGeminiModel, getGeminiClient, initializeClients, sendChat,
    console_log, when, bind, gets, modify, ret, throw, add_console,
    add_call, set_client1, set_client2, request, generationConfig;
  cbn [client1 client2 calls console Process.GEMINI_API_KEY_1
       Process.GEMINI_API_KEY_2 JS.truthy JS.truthy_str JS.truthy_obj
       negb andb fst snd apiKey model_client model_name default].

(** X4.  With a primary key configured, a successful first request is
    returned and nothing else is sent. *)
Lemma primary_success_returned env provider message st k text :
  fresh st ->
  Process.GEMINI_API_KEY_1 env = Some k ->
  JS.truthy_str k = true ->
  provider (calls st) (request k message) = inr text ->
  fst (sendMessageWithFallback env provider message st) = inr text /\
  calls (snd (sendMessageWithFallback env provider message st))
  = calls st ++ [request k message].
Proof.
  intros [H1 H2] Hk Ht Hp. destruct env as [k1 k2 j]. cbn in Hk. subst k1.
  destruct st as [c1 c2 cs co]. cbn in H1, H2, Hp. subst c1 c2.
  destruct k as [|a k]; [discriminate|].
  destruct k2 as [[|b k2]|]; run_client; unfold request in Hp;
    rewrite Hp; cbn; auto.
Qed.

(** With only the primary key configured, a failed first request is
    followed by a second request that carries the primary key again. *)
Lemma retry_uses_primary_key env provider message st k e :
  fresh st ->
  Process.GEMINI_API_KEY_1 env = Some k ->
  JS.truthy_str k = true ->
  JS.truthy (Process.GEMINI_API_KEY_2 env) = false ->
  provider (calls st) (request k message) = inl e ->
  calls (snd (sendMessageWithFallback env provider message st))
  = calls st ++ [request k message; request k message].
Proof.
  intros [H1 H2] Hk Ht H2nd Hp. destruct env as [k1 k2 j]. cbn in Hk, H2nd.
  subst k1. destruct st as [c1 c2 cs co]. cbn in H1, H2, Hp. subst c1 c2.
  destruct k as [|a k]; [discriminate|].
  destruct k2 as [[|b k2]|]; try discriminate; run_client;
    unfold request in Hp; rewrite Hp; cbn;
    match goal with
    | |- context [provider ?l ?c] => destruct (provider l c)
    end; cbn; rewrite <- app_assoc; reflexivity.
Qed.

(** X5.  With both keys configured, a failed first request is followed by
    exactly one request with the secondary key, whose text is returned
    when it succeeds. *)
Lemma secondary_success_returned env provider message st k1 k2 e text :
  fresh st ->
  Process.GEMINI_API_KEY_1 env = Some k1 ->
  JS.truthy_str k1 = true ->
  Process.GEMINI_API_KEY_2 env = Some k2 ->
  JS.truthy_str k2 = true ->
  provider (calls st) (request k1 message) = inl e ->
  provider (calls st ++ [request k1 message]) (request k2 message)
  = inr text ->
  fst (sendMessageWithFallback env provider message st) = inr text /\
  calls (snd (sendMessageWithFallback env provider message st))
  = calls st ++ [request k1 message; request k2 message].
Proof.
  intros [H1 H2] Hk1 Ht1 Hk2 Ht2 Hp1 Hp2. destruct env as [x1 x2 j].
  cbn in Hk1, Hk2. subst x1 x2. destruct st as [c1 c2 cs co].
  cbn in H1, H2, Hp1, Hp2. subst c1 c2.
  destruct k1 as [|a k1]; [discriminate|].
  destruct k2 as [|b k2]; [discriminate|].
  run_client. unfold request in Hp1, Hp2. rewrite Hp1. cbn.
  rewrite Hp2. cbn. rewrite <- app_assoc. auto.
Qed.

(** With both keys configured and both requests failing, the error thrown
    carries the message of the second request's failure. *)
Lemma both_fail_message env provider message st k1 k2 e1 e2 :
  fresh st ->
  Process.GEMINI_API_KEY_1 env = Some k1 ->
  JS.truthy_str k1 = true ->
  Process.GEMINI_API_KEY_2 env = Some k2 ->
  JS.truthy_str k2 = true ->
  provider (calls st) (request k1 message) = inl e1 ->
  provider (calls st ++ [request k1 message]) (request k2 message) = inl e2 ->
  fst (sendMessageWithFallback env provider message st)
  = inl ("Failed with both Gemini API keys: " +:+ e2).
Proof.
  intros [H1 H2] Hk1 Ht1 Hk2 Ht2 Hp1 Hp2. destruct env as [x1 x2 j].
  cbn in Hk1, Hk2. subst x1 x2. destruct st as [c1 c2 cs co].
  cbn in H1, H2, Hp1, Hp2. subst c1 c2.
  destruct k1 as [|a k1]; [discriminate|].
  destruct k2 as [|b k2]; [discriminate|].
  run_client. unfold request in Hp1, Hp2. rewrite Hp1. cbn.
  rewrite Hp2. reflexivity.
Qed.

(** C1 (the code departs from the claim).  With the primary key as the only
    credential and a failing first request, [sendMessageWithFallback]
    issues a second completion request, again with the primary key: when
    the provider is down both requests carry ["key-one"] before the call
    fails, and when the provider recovers the second request's text is
    returned instead of a failure. *)
Theorem C1_second_attempt_reuses_primary_key :
  fst (sendMessageWithFallback only_primary down "hi" initial)
  = inl "Failed with both Gemini API keys: 503 Service Unavailable" /\
  calls (snd (sendMessageWithFallback only_primary down "hi" initial))
  = [request "key-one" "hi"; request "key-one" "hi"] /\
  fst (sendMessageWithFallback only_primary recovers "hi" initial)
  = inr "Hello!" /\
  calls (snd (sendMessageWithFallback only_primary recovers "hi" initial))
  = [request "key-one" "hi"; request "key-one" "hi"].
Proof. vm_compute. repeat split. Qed.

(** The reading of "the error names both underlying failures": whenever
    the two [try] blocks fail with [e1] and [e2], the message of the error
    thrown contains both. *)
Definition names_both_failures (env : Process.Env) (provider : Provider)
    (message : string) (st : State) : Prop :=
  forall e1 st1 e2 st2 m st',
    primaryAttempt env provider message st = (inl e1, st1) ->
    secondaryAttempt env provider message
      (add_console ("[v0] Primary API key failed, trying secondary " +:+ e1)
         st1)
    = (inl e2, st2) ->
    sendMessageWithFallback env provider message st = (inl m, st') ->
    JS.includes m e1 = true /\ JS.includes m e2 = true.

(** C2 (as stated, refuted).  With both keys configured and each rejected
    with its own message, the error thrown mentions the second failure
    only. *)
Lemma C2_first_failure_not_named :
  ~ names_both_failures both_keys rejects_each "hi" initial.
Proof.
  intros H.
  destruct (H "quota exceeded"
              (snd (primaryAttempt both_keys rejects_each "hi" initial))
              "API key not valid"
              (snd (secondaryAttempt both_keys rejects_each "hi"
                      (add_console
                         ("[v0] Primary API key failed, trying secondary "
                            +:+ "quota exceeded")
                         (snd (primaryAttempt both_keys rejects_each "hi"
                                 initial)))))
              "Failed with both Gemini API keys: API key not valid"
              (snd (sendMessageWithFallback both_keys rejects_each "hi"
                      initial)))
    as [Hfirst _]; try (vm_compute; reflexivity).
  vm_compute in Hfirst. discriminate.
Qed.

(** C2 (amended).  When both [try] blocks of [sendMessageWithFallback]
    fail, with [e1] and then [e2], the call fails with one error, whose
    message is the fixed prefix followed by [e2] alone, and a failure of
    the call arises in no other way.  With both keys configured and both
    requests refused by the provider, this is the refusal of the second
    request; the refusal of the first is written to the console, between
    the two attempts, and is not part of the error. *)
Theorem C2_error_names_last_failure env provider message st :
  (forall e1 st1 e2 st2,
      primaryAttempt env provider message st = (inl e1, st1) ->
      secondaryAttempt env provider message
        (add_console ("[v0] Primary API key failed, trying secondary " +:+ e1)
           st1)
      = (inl e2, st2) ->
      sendMessageWithFallback env provider message st
      = (inl ("Failed with both Gemini API keys: " +:+ e2),
         add_console ("[v0] Both API keys failed " +:+ e2) st2)) /\
  (forall m st',
      sendMessageWithFallback env provider message st = (inl m, st') ->
      exists e1 st1 e2 st2,
        primaryAttempt env provider message st = (inl e1, st1) /\
        secondaryAttempt env provider message
          (add_console
             ("[v0] Primary API key failed, trying secondary " +:+ e1) st1)
        = (inl e2, st2) /\
        m = "Failed with both Gemini API keys: " +:+ e2 /\
        st' = add_console ("[v0] Both API keys failed " +:+ e2) st2) /\
  (forall k1 k2 e1 e2,
      fresh st ->
      Process.GEMINI_API_KEY_1 env = Some k1 -> JS.truthy_str k1 = true ->
      Process.GEMINI_API_KEY_2 env = Some k2 -> JS.truthy_str k2 = true ->
      provider (calls st) (request k1 message) = inl e1 ->
      provider (calls st ++ [request k1 message]) (request k2 message)
      = inl e2 ->
      fst (sendMessageWithFallback env provider message st)
      = inl ("Failed with both Gemini API keys: " +:+ e2) /\
      console (snd (sendMessageWithFallback env provider message st))
      = console st
        ++ ["[v0] Attempting with primary Gemini API key";
            "[v0] Primary API key failed, trying secondary " +:+ e1;
            "[v0] Attempting with secondary Gemini API key";
            "[v0] Both API keys failed " +:+ e2]).
Proof.
  split; [|split].
  - intros e1 st1 e2 st2 H1 H2.
    unfold sendMessageWithFallback, attempt, bind. rewrite H1. cbn.
    rewrite H2. reflexivity.
  - intros m st'. unfold sendMessageWithFallback, attempt, bind.
    destruct (primaryAttempt env provider message st) as [[e1|text] st1];
      cbn; [|discriminate].
    destruct (secondaryAttempt env provider message _)
      as [[e2|text] st2] eqn:E2; cbn; [|discriminate].
    intros H. inversion H; subst. exists e1, st1, e2, st2. auto.
  - intros k1 k2 e1 e2 Hfresh Hk1 Ht1 Hk2 Ht2 Hp1 Hp2.
    split; [now apply (both_fail_message env provider message st k1 k2 e1)|].
    destruct Hfresh as [H1 H2]. destruct env as [x1 x2 j].
    cbn in Hk1, Hk2. subst x1 x2. destruct st as [c1 c2 cs co].
    cbn in H1, H2, Hp1, Hp2. subst c1 c2.
    destruct k1 as [|a k1]; [discriminate|].
    destruct k2 as [|b k2]; [discriminate|].
    run_client. unfold request in Hp1, Hp2. rewrite Hp1. cbn.
    rewrite Hp2. cbn. now rewrite <- !app_assoc.
Qed.

Lemma C2_error_names_last_failure_witness :
  fst (sendMessageWithFallback both_keys rejects_each "hi" initial)
  = inl ("Failed with both Gemini API keys: " +:+ "API key not valid") /\
  console (snd (sendMessageWithFallback both_keys rejects_each "hi" initial))
  = console initial
    ++ ["[v0] Attempting with primary Gemini API key";
        "[v0] Primary API key failed, trying secondary " +:+ "quota exceeded";
        "[v0] Attempting with secondary Gemini API key";
        "[v0] Both API keys failed " +:+ "API key not valid"].
Proof.
  apply (proj2 (proj2 (C2_error_names_last_failure both_keys rejects_each
                         "hi" initial))
           "key-one" "key-two" "quota exceeded" "API key not valid");
    try reflexivity.
  split; reflexivity.
Defined.

(** C6.  With no usable key in the environment, constructing the clients
    throws the configuration error at once and leaves the module state as
    it was; so does every request for a client or a model, and
    [sendMessageWithFallback] fails without having sent any completion
    request. *)
Theorem C6_no_keys_fails_before_any_attempt env provider st :
  JS.truthy (Process.GEMINI_API_KEY_1 env) = false ->
  JS.truthy (Process.GEMINI_API_KEY_2 env) = false ->
  fresh st ->
  initializeClients env st = (inl "No Gemini API keys configured", st) /\
  (forall useSecondary,
      getGeminiClient env useSecondary st
      = (inl "No Gemini API keys configured", st)) /\
  (forall useSecondary,
      getGeminiModel env useSecondary st
      = (inl "No Gemini API keys configured", st)) /\
  (forall message,
      fst (sendMessageWithFallback env provider message st)
      = inl "Failed with both Gemini API keys: No Gemini API keys configured"
      /\ calls (snd (sendMessageWithFallback env provider message st))
         = calls st
      /\ fresh (snd (sendMessageWithFallback env provider message st))).
Proof.
  intros Hk1 Hk2 [H1 H2]. destruct env as [k1 k2 j]. cbn in Hk1, Hk2.
  destruct st as [c1 c2 cs co]. cbn in H1, H2. subst c1 c2.
  destruct k1 as [[|a k1]|]; try discriminate;
    destruct k2 as [[|b k2]|]; try discriminate;
    unfold fresh; repeat split; intros; try destruct useSecondary;
    reflexivity.
Qed.

Lemma C6_no_keys_fails_before_any_attempt_witness :
  initializeClients no_keys initial
  = (inl "No Gemini API keys configured", initial) /\
  (forall useSecondary,
      getGeminiClient no_keys useSecondary initial
      = (inl "No Gemini API keys configured", initial)) /\
  (forall useSecondary,
      getGeminiModel no_keys useSecondary initial
      = (inl "No Gemini API keys configured", initial)) /\
  (forall message,
      fst (sendMessageWithFallback no_keys down message initial)
      = inl "Failed with both Gemini API keys: No Gemini API keys configured"
      /\ calls (snd (sendMessageWithFallback no_keys down message initial))
         = calls initial
      /\ fresh (snd (sendMessageWithFallback no_keys down message initial))).
Proof.
  apply (C6_no_keys_fails_before_any_attempt no_keys down initial);
    [reflexivity | reflexivity | split; reflexivity].
Defined.

End GeminiClientFacts.

(** * Facts about the JavaScript helpers *)

Module JSFacts.

(** Decimal printing of integers can be read back. *)
Lemma number_toString_parse (z : Z) :
  option_map Z.of_int (NilZero.int_of_string (JS.number_toString z)) = Some z.
Proof.
  unfold JS.number_toString.
  rewrite NilZero.isi.
  - cbn. now rewrite DecimalZ.of_to.
  - destruct z; cbn; try discriminate.
    intros H. injection H as H. now apply DecimalPos.Unsigned.to_uint_nonnil in H.
  - destruct z; cbn; try discriminate.
    intros H. injection H as H. now apply DecimalPos.Unsigned.to_uint_nonnil in H.
Qed.

Lemma number_toString_inj (a b : Z) :
  JS.number_toString a = JS.number_toString b -> a = b.
Proof.
  intros H.
  pose proof (number_toString_parse a) as Ha.
  pose proof (number_toString_parse b) as Hb.
  rewrite H in Ha. congruence.
Qed.

End JSFacts.

(** * A reference implementation of the token library

    Tokens are self-delimiting encodings of the secret, the payload and the
    time of issue; it only serves to show that [Jwt.sound] can be met. *)

Module PlainJwt.

(** [enc s k]: every character of [s] behind a ["+"], then ["."], then [k]. *)
Fixpoint enc (s : string) (k : string) : string :=
  match s with
  | EmptyString => String "." k
  | String c r => String "+" (String c (enc r k))
  end.

Fixpoint dec (t : string) : option (string * string) :=
  match t with
  | String m r =>
      if Ascii.eqb m "."
      then Some (EmptyString, r)
      else if Ascii.eqb m "+"
      then match r with
           | String c r' =>
               match dec r' with
               | Some (s, k) => Some (String c s, k)
               | None => None
               end
           | EmptyString => None
           end
      else None
  | EmptyString => None
  end.

Definition sign (payload : Jwt.AuthUser) (secret : string) (now : Z) : string :=
  enc secret
    (enc (Jwt.id payload)
       (enc (Jwt.name payload)
          (enc (Jwt.email payload)
             (JS.number_toString (now / 1000))))).

Definition verify (token secret : string) (now : Z) : option Jwt.Decoded :=
  match dec token with
  | Some (k, t1) =>
      match dec t1 with
      | Some (i, t2) =>
          match dec t2 with
          | Some (n, t3) =>
              match dec t3 with
              | Some (e, t4) =>
                  match option_map Z.of_int (NilZero.int_of_string t4) with
                  | Some issued =>
                      if String.eqb k secret
                         && (now / 1000 <? issued + Jwt.thirty_days)%Z
                      then Some {| Jwt.user :=
                                     {| Jwt.id := i; Jwt.name := n;
                                        Jwt.email := e |};
                                   Jwt.iat := issued;
                                   Jwt.exp := issued + Jwt.thirty_days |}
                      else None
                  | None => None
                  end
              | None => None
              end
          | None => None
          end
      | None => None
      end
  | None => None
  end.

Definition library : Jwt.Library := {| Jwt.sign := sign; Jwt.verify := verify |}.

Lemma dec_enc (s k : string) : dec (enc s k) = Some (s, k).
Proof.
  induction s as [|c r IH]; cbn; [reflexivity|].
  now rewrite IH.
Qed.

Lemma library_sound : Jwt.sound library.
Proof.
  intros [i n e] secret issued now Hfresh. cbn. unfold verify, sign. cbn.
  rewrite !dec_enc, JSFacts.number_toString_parse, String.eqb_refl.
  apply Z.ltb_lt in Hfresh. now rewrite Hfresh.
Qed.

End PlainJwt.

(** * Properties of signup, login and token verification *)

Module AuthFacts.

Import Http Store.

(** Scenario data: a driver that numbers its ids, a transparent stand-in
    for bcrypt, and the account of the specification's scenario. *)
Definition objectId (n : nat) : string :=
  "oid-" +:+ JS.number_toString (Z.of_nat n).

Definition bcrypt_hash (password : string) (rounds : Z) : string :=
  "$2b$" +:+ JS.number_toString rounds +:+ "$" +:+ password.

Definition bcrypt_compare (password : string) (hash : option string)
  : string + bool :=
  match hash with
  | Some h => inr (String.eqb h (bcrypt_hash password 10))
  | None => inl "data and hash arguments required"
  end.

Definition ana : Signup.Body :=
  {| Signup.name := Some "Ana";
     Signup.email := Some "ana@x.com";
     Signup.password := Some "secret1" |}.

Definition unset : Process.Env :=
  {| Process.GEMINI_API_KEY_1 := None;
     Process.GEMINI_API_KEY_2 := None;
     Process.JWT_SECRET := None |}.

(** A clock whose [k]-th read is the instant [k]. *)
Definition tick (k : nat) : Z := Z.of_nat k.

(** The store after Ana has signed up, and her document in it. *)
Definition with_ana : Db :=
  snd (Signup.POST objectId bcrypt_hash (inr ana) None tick empty).

Definition ana_doc : UserDoc :=
  {| user_id := objectId 0;
     user_name := "Ana";
     user_email := "ana@x.com";
     user_password := Some (bcrypt_hash "secret1" 10);
     user_role := "user";
     user_provider := "credentials";
     user_createdAt := 0;
     user_updatedAt := 1 |}.

(** The store after Gina has then signed in with Google, and her document
    in it: it has no password hash. *)
Definition with_gina : Db :=
  GoogleSignIn.signIn objectId "Gina" "gina@x.com" tick with_ana.

Definition gina_doc : UserDoc :=
  {| user_id := objectId 2;
     user_name := "Gina";
     user_email := "gina@x.com";
     user_password := None;
     user_role := "user";
     user_provider := "google";
     user_createdAt := 0;
     user_updatedAt := 1 |}.

(** The reading of "the response contains the user's public fields and a
    token". *)
Definition has_user_and_token (r : Response) : Prop :=
  json_get "user" (body r) <> None /\ json_get "token" (body r) <> None.

Lemma find_app_None {A} (p : A -> bool) (l : list A) (x : A) :
  List.find p l = None -> p x = true -> List.find p (l ++ [x]) = Some x.
Proof.
  induction l as [|y l IH]; cbn; intros Hl Hx.
  - now rewrite Hx.
  - destruct (p y); [discriminate | auto].
Qed.

(** C3 (as stated, refuted).  Ana's signup against the empty store succeeds
    with status 200, and its response has no [token]. *)
Lemma C3_signup_response_has_no_token :
  status (fst (Signup.POST objectId bcrypt_hash (inr ana) None tick empty)) = 200
  /\ ~ has_user_and_token
       (fst (Signup.POST objectId bcrypt_hash (inr ana) None tick empty)).
Proof.
  split; [reflexivity|].
  intros [_ H]. apply H. reflexivity.
Qed.

(** C3 (amended).  A signup request whose three fields are present, for an
    email no user document carries, against a store that can be reached,
    succeeds: status 200, [success: true], the created user's [id], [name]
    and [email], the message, and no token; the user is stored with the
    hash of the password, and can be found by email afterwards. *)
Theorem C3_signup_returns_user_without_token
    (objectId : nat -> string) (bcrypt_hash : string -> Z -> string)
    (n e p : string) (clock : nat -> Z) (db : Db) :
  JS.truthy_str n = true ->
  JS.truthy_str e = true ->
  JS.truthy_str p = true ->
  findOne_user db e = None ->
  let request := {| Signup.name := Some n; Signup.email := Some e;
                    Signup.password := Some p |} in
  let response :=
    fst (Signup.POST objectId bcrypt_hash (inr request) None clock db) in
  let db' :=
    snd (Signup.POST objectId bcrypt_hash (inr request) None clock db) in
  status response = 200 /\
  body response
  = JObj [("success", JBool true);
          ("user", JObj [("id", JStr (objectId (generated db)));
                         ("name", JStr n);
                         ("email", JStr e)]);
          ("message", JStr "Account created successfully")] /\
  json_get "token" (body response) = None /\
  findOne_user db' e
  = Some {| user_id := objectId (generated db);
            user_name := n;
            user_email := e;
            user_password := Some (bcrypt_hash p 10);
            user_role := "user";
            user_provider := "credentials";
            user_createdAt := clock 0%nat;
            user_updatedAt := clock 1%nat |}.
Proof.
  intros Hn He Hp Hfree. cbn zeta. unfold Signup.POST.
  cbn [Signup.name Signup.email Signup.password JS.truthy from_option id].
  rewrite Hn, He, Hp. cbn [negb orb]. rewrite Hfree.
  cbn. repeat split.
  unfold findOne_user in *. cbn. apply find_app_None; [assumption|].
  cbn. apply String.eqb_refl.
Qed.

Lemma C3_signup_returns_user_without_token_witness :
  let response := fst (Signup.POST objectId bcrypt_hash (inr ana) None tick empty) in
  status response = 200 /\
  body response
  = JObj [("success", JBool true);
          ("user", JObj [("id", JStr (objectId 0));
                         ("name", JStr "Ana");
                         ("email", JStr "ana@x.com")]);
          ("message", JStr "Account created successfully")] /\
  json_get "token" (body response) = None /\
  findOne_user with_ana "ana@x.com" = Some ana_doc.
Proof.
  apply (C3_signup_returns_user_without_token objectId bcrypt_hash
           "Ana" "ana@x.com" "secret1" tick empty); reflexivity.
Defined.

(** Where [bcrypt.compare] resolves to [false] (the account has a hash and
    the password does not match it), a login for an email without a user
    document and a login for the existing email get the same response:
    status 401 with the body [{ error: "Invalid email or password" }]. *)
Theorem wrong_password_looks_like_unknown_email
    (env : Process.Env) (jwt : Jwt.Library)
    (bcrypt_compare : string -> option string -> string + bool)
    (db : Db) (e1 p1 e2 p2 : string) (now1 now2 : Z) (u : UserDoc) :
  JS.truthy_str e1 = true -> JS.truthy_str p1 = true ->
  JS.truthy_str e2 = true -> JS.truthy_str p2 = true ->
  findOne_user db e1 = None ->
  findOne_user db e2 = Some u ->
  bcrypt_compare p2 (user_password u) = inr false ->
  let unknown_email :=
    Login.POST env jwt bcrypt_compare
      (inr {| Login.email := Some e1; Login.password := Some p1 |})
      None now1 db in
  let wrong_password :=
    Login.POST env jwt bcrypt_compare
      (inr {| Login.email := Some e2; Login.password := Some p2 |})
      None now2 db in
  unknown_email = wrong_password /\
  status unknown_email = 401 /\
  body unknown_email = JObj [("error", JStr "Invalid email or password")].
Proof.
  intros He1 Hp1 He2 Hp2 Hnone Hsome Hcmp. cbn zeta. unfold Login.POST.
  cbn [Login.email Login.password JS.truthy from_option id].
  rewrite He1, Hp1, He2, Hp2. cbn [negb orb].
  rewrite Hnone, Hsome, Hcmp. repeat split.
Qed.

Lemma wrong_password_looks_like_unknown_email_witness :
  let unknown_email :=
    Login.POST unset PlainJwt.library bcrypt_compare
      (inr {| Login.email := Some "bob@x.com";
              Login.password := Some "secret1" |})
      None 1000 with_ana in
  let wrong_password :=
    Login.POST unset PlainJwt.library bcrypt_compare
      (inr {| Login.email := Some "ana@x.com";
              Login.password := Some "wrong" |})
      None 2000 with_ana in
  unknown_email = wrong_password /\
  status unknown_email = 401 /\
  body unknown_email = JObj [("error", JStr "Invalid email or password")].
Proof.
  apply (wrong_password_looks_like_unknown_email unset PlainJwt.library
           bcrypt_compare with_ana "bob@x.com" "secret1" "ana@x.com" "wrong"
           1000 2000 ana_doc);
    reflexivity.
Defined.

(** C5 (the code departs from the claim).  The user documents the Google
    sign-in callback inserts have no password hash.  For such an account
    [bcrypt.compare] rejects, whatever the password, and the login route
    answers 500 with the library's message, while a login for an email
    without a user document is answered 401: on a store that holds such an
    account the two causes are told apart. *)
Theorem C5_login_reveals_account_without_hash
    (env : Process.Env) (jwt : Jwt.Library)
    (bcrypt_compare : string -> option string -> string + bool)
    (db : Db) (e1 p1 e2 p2 : string) (now1 now2 : Z) (u : UserDoc)
    (error : string) :
  JS.truthy_str e1 = true -> JS.truthy_str p1 = true ->
  JS.truthy_str e2 = true -> JS.truthy_str p2 = true ->
  findOne_user db e1 = None ->
  findOne_user db e2 = Some u ->
  user_password u = None ->
  bcrypt_compare p2 None = inl error ->
  let unknown_email :=
    Login.POST env jwt bcrypt_compare
      (inr {| Login.email := Some e1; Login.password := Some p1 |})
      None now1 db in
  let existing_email :=
    Login.POST env jwt bcrypt_compare
      (inr {| Login.email := Some e2; Login.password := Some p2 |})
      None now2 db in
  unknown_email
  = json_status (JObj [("error", JStr "Invalid email or password")]) 401 /\
  existing_email
  = json_status (JObj [("error", JStr (message_or error "Login failed"))])
      500 /\
  status unknown_email <> status existing_email.
Proof.
  intros He1 Hp1 He2 Hp2 Hnone Hsome Hhash Hcmp. cbn zeta.
  unfold Login.POST.
  cbn [Login.email Login.password JS.truthy from_option id].
  rewrite He1, Hp1, He2, Hp2. cbn [negb orb].
  rewrite Hnone, Hsome, Hhash, Hcmp. repeat split. cbn. lia.
Qed.

(** On the store where Ana has signed up with a password and Gina has
    signed in with Google: a login for Bob, who has no account, is answered
    401, one for Gina 500. *)
Lemma C5_login_reveals_account_without_hash_witness :
  let unknown_email :=
    Login.POST unset PlainJwt.library bcrypt_compare
      (inr {| Login.email := Some "bob@x.com";
              Login.password := Some "secret1" |})
      None 1000 with_gina in
  let existing_email :=
    Login.POST unset PlainJwt.library bcrypt_compare
      (inr {| Login.email := Some "gina@x.com";
              Login.password := Some "secret1" |})
      None 2000 with_gina in
  unknown_email
  = json_status (JObj [("error", JStr "Invalid email or password")]) 401 /\
  existing_email
  = json_status
      (JObj [("error",
              JStr (message_or "data and hash arguments required"
                      "Login failed"))])
      500 /\
  status unknown_email <> status existing_email.
Proof.
  apply (C5_login_reveals_account_without_hash unset PlainJwt.library
           bcrypt_compare with_gina "bob@x.com" "secret1" "gina@x.com"
           "secret1" 1000 2000 gina_doc "data and hash arguments required");
    reflexivity.
Defined.

Example google_account_login :
  findOne_user with_gina "gina@x.com" = Some gina_doc /\
  Login.POST unset PlainJwt.library bcrypt_compare
    (inr {| Login.email := Some "gina@x.com";
            Login.password := Some "secret1" |})
    None 2000 with_gina
  = {| status := 500;
       body := JObj [("error", JStr "data and hash arguments required")] |}.
Proof. split; reflexivity. Qed.

(** C10.  Without a signing secret in the environment (absent or empty),
    the login route and the middleware both use the built-in default
    string.  A login with matching credentials still answers 200 with a
    token signed under that default, and, for a token library that accepts
    what it signed with the same secret, [verifyToken] under the same
    environment accepts that token until it expires. *)
Theorem C10_default_secret_shared_by_sign_and_verify
    (env : Process.Env) (jwt : Jwt.Library)
    (bcrypt_compare : string -> option string -> string + bool)
    (db : Db) (e p : string) (u : UserDoc) (now later : Z) :
  JS.truthy (Process.JWT_SECRET env) = false ->
  Jwt.sound jwt ->
  JS.truthy_str e = true -> JS.truthy_str p = true ->
  findOne_user db e = Some u ->
  bcrypt_compare p (user_password u) = inr true ->
  later / 1000 < now / 1000 + Jwt.thirty_days ->
  let secret := "your-secret-key-change-in-production" in
  let userData :=
    {| Jwt.id := user_id u; Jwt.name := user_name u;
       Jwt.email := user_email u |} in
  let token := Jwt.sign jwt userData secret now in
  Login.JWT_SECRET env = secret /\
  AuthMiddleware.JWT_SECRET env = secret /\
  Login.POST env jwt bcrypt_compare
    (inr {| Login.email := Some e; Login.password := Some p |}) None now db
  = json (JObj [("success", JBool true);
                ("user", JObj [("id", JStr (user_id u));
                               ("name", JStr (user_name u));
                               ("email", JStr (user_email u))]);
                ("token", JStr token)]) /\
  AuthMiddleware.verifyToken env jwt token later
  = Some {| Jwt.user := userData;
            Jwt.iat := now / 1000;
            Jwt.exp := now / 1000 + Jwt.thirty_days |}.
Proof.
  intros Hsecret Hsound He Hp Hfound Hcmp Hlater. cbn zeta.
  assert (Hlogin : Login.JWT_SECRET env
                   = "your-secret-key-change-in-production").
  { unfold Login.JWT_SECRET, JS.or_else.
    destruct (Process.JWT_SECRET env) as [s|]; [|reflexivity].
    cbn in Hsecret. now rewrite Hsecret. }
  assert (Hverify : AuthMiddleware.JWT_SECRET env
                    = "your-secret-key-change-in-production").
  { unfold AuthMiddleware.JWT_SECRET, JS.or_else.
    destruct (Process.JWT_SECRET env) as [s|]; [|reflexivity].
    cbn in Hsecret. now rewrite Hsecret. }
  repeat split; try assumption.
  - unfold Login.POST.
    cbn [Login.email Login.password JS.truthy from_option id].
    rewrite He, Hp. cbn [negb orb]. rewrite Hfound, Hcmp, Hlogin.
    reflexivity.
  - unfold AuthMiddleware.verifyToken. rewrite Hverify.
    now rewrite (Hsound _ _ _ _ Hlater).
Qed.

Lemma C10_default_secret_shared_by_sign_and_verify_witness :
  let secret := "your-secret-key-change-in-production" in
  let userData :=
    {| Jwt.id := objectId 0; Jwt.name := "Ana"; Jwt.email := "ana@x.com" |} in
  let token := PlainJwt.sign userData secret 5000 in
  Login.JWT_SECRET unset = secret /\
  AuthMiddleware.JWT_SECRET unset = secret /\
  Login.POST unset PlainJwt.library bcrypt_compare
    (inr {| Login.email := Some "ana@x.com";
            Login.password := Some "secret1" |}) None 5000 with_ana
  = json (JObj [("success", JBool true);
                ("user", JObj [("id", JStr (objectId 0));
                               ("name", JStr "Ana");
                               ("email", JStr "ana@x.com")]);
                ("token", JStr token)]) /\
  AuthMiddleware.verifyToken unset PlainJwt.library token 86400000
  = Some {| Jwt.user := userData;
            Jwt.iat := 5;
            Jwt.exp := 5 + Jwt.thirty_days |}.
Proof.
  apply (C10_default_secret_shared_by_sign_and_verify unset PlainJwt.library
           bcrypt_compare with_ana "ana@x.com" "secret1"
           ana_doc
           5000 86400000);
    first [ exact PlainJwt.library_sound | reflexivity ].
Defined.

End AuthFacts.

(** * Properties of the learning statistics *)

Module LearningStatsFacts.

Import LearningStats.

(** [{ ...s, streakDays: n, lastActiveDate: d }]. *)
Definition with_streak (s : LearningStats) (n : Z) (d : string) : LearningStats :=
  {| questionsAsked := questionsAsked s;
     topicsLearned := topicsLearned s;
     totalCorrect := totalCorrect s;
     totalAttempts := totalAttempts s;
     streakDays := n;
     lastActiveDate := d;
     dailyProgress := dailyProgress s |}.

(** What the code relies on from [toISOString]: two instants get the same
    date string exactly when they fall on the same UTC day. *)
Definition names_utc_days (isoDate : Z -> string) : Prop :=
  forall a b, isoDate a = isoDate b <-> a / DAY_MS = b / DAY_MS.

(** A calendar that names each UTC day by its number, and the weekday of a
    week that starts on day 0. *)
Definition dayNumber (ms : Z) : string := JS.number_toString (ms / DAY_MS).

Definition weekdayName (ms : Z) : string :=
  nth (Z.to_nat ((ms / DAY_MS) mod 7))
    ["Thu"; "Fri"; "Sat"; "Sun"; "Mon"; "Tue"; "Wed"] "".

Lemma dayNumber_names_utc_days : names_utc_days dayNumber.
Proof.
  intros a b. unfold dayNumber. split.
  - apply JSFacts.number_toString_inj.
  - now intros ->.
Qed.

Lemma day_before (t : Z) : (t - DAY_MS) / DAY_MS = t / DAY_MS - 1.
Proof.
  unfold DAY_MS.
  replace (t - 86400000) with (t + (-1) * 86400000) by lia.
  rewrite Z.div_add by lia. lia.
Qed.

Section Streak.

Variable isoDate : Z -> string.
Hypothesis isoDate_days : names_utc_days isoDate.

Lemma today_not_yesterday (t : Z) : isoDate t <> isoDate (t - DAY_MS).
Proof.
  intros H. apply isoDate_days in H. rewrite day_before in H. lia.
Qed.

Lemma yesterday_same_day (t t' : Z) :
  t / DAY_MS = t' / DAY_MS -> isoDate (t' - DAY_MS) = isoDate (t - DAY_MS).
Proof.
  intros H. apply isoDate_days. rewrite !day_before. lia.
Qed.

Lemma updateStreak_lastActiveDate (t_new t_now : Z) (s : LearningStats) :
  lastActiveDate (updateStreak isoDate t_new t_now s) = isoDate t_new.
Proof.
  unfold updateStreak.
  destruct (String.eqb_spec (lastActiveDate s) (isoDate t_new)) as [E|E];
    [assumption|].
  now destruct (String.eqb (lastActiveDate s) (isoDate (t_now - DAY_MS))).
Qed.

(** The transition of a call whose two clock reads fall on the same UTC
    day, with [today] and [yesterday] the dates of that day and of the day
    before: stats last active today are returned unchanged; stats last
    active yesterday get [streakDays + 1] and today's date; all other
    stats (an older date, or none) get [streakDays = 1] and today's date.
    A second call on the same day returns what the first call returned. *)
Theorem streak_transition_same_day (t_new t_now : Z) (s : LearningStats) :
  t_new / DAY_MS = t_now / DAY_MS ->
  let today := isoDate t_new in
  let yesterday := isoDate (t_new - DAY_MS) in
  (lastActiveDate s = today -> updateStreak isoDate t_new t_now s = s) /\
  (lastActiveDate s = yesterday ->
   updateStreak isoDate t_new t_now s
   = with_streak s (streakDays s + 1) today) /\
  (lastActiveDate s <> today -> lastActiveDate s <> yesterday ->
   updateStreak isoDate t_new t_now s = with_streak s 1 today) /\
  (forall t_new' t_now',
      t_new' / DAY_MS = t_new / DAY_MS ->
      updateStreak isoDate t_new' t_now' (updateStreak isoDate t_new t_now s)
      = updateStreak isoDate t_new t_now s).
Proof.
  intros Hday. cbn zeta.
  pose proof (yesterday_same_day _ _ Hday) as Hy.
  pose proof (today_not_yesterday t_new) as Hne.
  repeat split.
  - intros E. unfold updateStreak. rewrite E. now rewrite String.eqb_refl.
  - intros E. unfold updateStreak. rewrite Hy, E.
    destruct (String.eqb_spec (isoDate (t_new - DAY_MS)) (isoDate t_new))
      as [F|F]; [now symmetry in F|].
    now rewrite String.eqb_refl.
  - intros E1 E2. unfold updateStreak. rewrite Hy.
    destruct (String.eqb_spec (lastActiveDate s) (isoDate t_new)); [easy|].
    destruct (String.eqb_spec (lastActiveDate s) (isoDate (t_new - DAY_MS)));
      [easy|].
    unfold with_streak. now destruct (JS.truthy_str (lastActiveDate s)).
  - intros t_new' t_now' Hsame.
    unfold updateStreak at 1.
    rewrite updateStreak_lastActiveDate.
    apply isoDate_days in Hsame. rewrite Hsame.
    now rewrite String.eqb_refl.
Qed.

(** C4 (the code departs from the claim).  [updateStreak] takes [today]
    from one clock read and [yesterday] from a second one.  When midnight
    UTC falls between the two reads, [yesterday] is the very day [today]
    names; stats last active on the day before [today] then match neither
    date, and a running streak is reset to 1 where the claim has it grow
    by one.  The date stored is that of the first read, so the result is
    not what the claim asks for on the day of the second read either. *)
Theorem C4_midnight_between_reads_resets_streak
    (t_new t_now : Z) (s : LearningStats) :
  t_now / DAY_MS = t_new / DAY_MS + 1 ->
  lastActiveDate s = isoDate (t_new - DAY_MS) ->
  streakDays s <> 0 ->
  let today := isoDate t_new in
  updateStreak isoDate t_new t_now s = with_streak s 1 today /\
  updateStreak isoDate t_new t_now s
  <> with_streak s (streakDays s + 1) today /\
  lastActiveDate (updateStreak isoDate t_new t_now s) <> isoDate t_now.
Proof.
  intros Hday Hlast Hrun. cbn zeta.
  assert (Hy : isoDate (t_now - DAY_MS) = isoDate t_new).
  { apply isoDate_days. rewrite day_before. lia. }
  assert (E : updateStreak isoDate t_new t_now s
              = with_streak s 1 (isoDate t_new)).
  { unfold updateStreak. rewrite Hy, Hlast.
    destruct (String.eqb_spec (isoDate (t_new - DAY_MS)) (isoDate t_new))
      as [F|F]; [symmetry in F; now apply today_not_yesterday in F|].
    unfold with_streak. rewrite <- Hlast.
    now destruct (JS.truthy_str (lastActiveDate s)). }
  split; [exact E|]. split.
  - rewrite E. unfold with_streak. intros H.
    apply (f_equal streakDays) in H. cbn in H. lia.
  - rewrite updateStreak_lastActiveDate. intros H.
    apply isoDate_days in H. lia.
Qed.

End Streak.

(** Stats of a learner on a four-day streak, last active on day 2. *)
Definition on_a_streak : LearningStats :=
  {| questionsAsked := 12;
     topicsLearned := ["algebra"];
     totalCorrect := 3;
     totalAttempts := 4;
     streakDays := 4;
     lastActiveDate := "2";
     dailyProgress := [{| day := "Sat"; accuracy := 75; date := "2" |}] |}.

Lemma streak_transition_same_day_witness :
  let t_new := 3 * DAY_MS + 5 in
  let t_now := 3 * DAY_MS + 6 in
  let today := dayNumber t_new in
  let yesterday := dayNumber (t_new - DAY_MS) in
  (lastActiveDate on_a_streak = today ->
   updateStreak dayNumber t_new t_now on_a_streak = on_a_streak) /\
  (lastActiveDate on_a_streak = yesterday ->
   updateStreak dayNumber t_new t_now on_a_streak
   = with_streak on_a_streak (streakDays on_a_streak + 1) today) /\
  (lastActiveDate on_a_streak <> today ->
   lastActiveDate on_a_streak <> yesterday ->
   updateStreak dayNumber t_new t_now on_a_streak
   = with_streak on_a_streak 1 today) /\
  (forall t_new' t_now',
      t_new' / DAY_MS = t_new / DAY_MS ->
      updateStreak dayNumber t_new' t_now'
        (updateStreak dayNumber t_new t_now on_a_streak)
      = updateStreak dayNumber t_new t_now on_a_streak).
Proof.
  apply (streak_transition_same_day dayNumber dayNumber_names_utc_days
           (3 * DAY_MS + 5) (3 * DAY_MS + 6) on_a_streak).
  reflexivity.
Defined.

(** The learner of [on_a_streak], last active on day 2, comes back on day
    3, one millisecond before midnight: the first clock read falls on day
    3, the second on day 4, and the four-day streak restarts at 1. *)
Lemma C4_midnight_between_reads_resets_streak_witness :
  updateStreak dayNumber (4 * DAY_MS - 1) (4 * DAY_MS) on_a_streak
  = with_streak on_a_streak 1 (dayNumber (4 * DAY_MS - 1)) /\
  updateStreak dayNumber (4 * DAY_MS - 1) (4 * DAY_MS) on_a_streak
  <> with_streak on_a_streak (streakDays on_a_streak + 1)
       (dayNumber (4 * DAY_MS - 1)) /\
  lastActiveDate
    (updateStreak dayNumber (4 * DAY_MS - 1) (4 * DAY_MS) on_a_streak)
  <> dayNumber (4 * DAY_MS).
Proof.
  apply (C4_midnight_between_reads_resets_streak dayNumber
           dayNumber_names_utc_days (4 * DAY_MS - 1) (4 * DAY_MS)
           on_a_streak).
  - reflexivity.
  - reflexivity.
  - cbn. lia.
Defined.

Example streak_lost_at_midnight :
  updateStreak dayNumber (4 * DAY_MS - 1) (4 * DAY_MS) on_a_streak
  = with_streak on_a_streak 1 "3".
Proof. reflexivity. Qed.

Example streak_continues :
  updateStreak dayNumber (3 * DAY_MS + 5) (3 * DAY_MS + 6) on_a_streak
  = with_streak on_a_streak 5 "3".
Proof. reflexivity. Qed.

(** ** The daily progress list *)

(** At most seven buckets, no two for the same date. *)
Definition daily_ok (s : LearningStats) : Prop :=
  (length (dailyProgress s) <= 7)%nat /\ NoDup (date <$> dailyProgress s).

Lemma findIndex_Some {A} (p : A -> bool) (l : list A) (i : nat) :
  findIndex p l = Some i -> exists x, l !! i = Some x /\ p x = true.
Proof.
  revert i. induction l as [|y l IH]; intros i; cbn; [discriminate|].
  destruct (p y) eqn:Hy.
  - intros [= <-]. now exists y.
  - destruct (findIndex p l) as [j|]; cbn; [|discriminate].
    intros [= <-]. now apply IH.
Qed.

Lemma findIndex_None {A} (p : A -> bool) (l : list A) :
  findIndex p l = None <-> forall x, x ∈ l -> p x = false.
Proof.
  induction l as [|y l IH]; cbn.
  - split; [intros _ x Hx; inversion Hx | reflexivity].
  - destruct (p y) eqn:Hy.
    + split; [discriminate|]. intros H.
      rewrite (H y) in Hy by apply list_elem_of_here. discriminate.
    + destruct (findIndex p l) as [j|]; cbn.
      * split; [discriminate|]. intros H.
        destruct IH as [_ IH]. discriminate IH.
        intros x Hx. apply H. now apply list_elem_of_further.
      * split; [|reflexivity]. intros _ x Hx.
        apply elem_of_cons in Hx as [->|Hx]; [assumption|].
        now apply IH.
Qed.

Lemma slice_last_length {A} (n : nat) (l : list A) :
  (length (slice_last n l) <= n)%nat.
Proof. unfold slice_last. rewrite length_drop. lia. Qed.

Lemma slice_last_NoDup {A B} (f : A -> B) (n : nat) (l : list A) :
  NoDup (f <$> l) -> NoDup (f <$> slice_last n l).
Proof.
  intros H. unfold slice_last. rewrite fmap_drop.
  eapply sublist_NoDup; [exact H | apply sublist_drop].
Qed.

Lemma slice_last_keeps_last {A} (n : nat) (l : list A) (x : A) :
  (0 < n)%nat -> x ∈ slice_last n (l ++ [x]).
Proof.
  intros Hn. unfold slice_last. rewrite length_app. cbn.
  rewrite drop_app_le by lia.
  apply elem_of_app. right. apply list_elem_of_here.
Qed.

(** The percentage as the specification words it: [100 * correct /
    attempts] rounded to the nearest integer, a half going up. *)
Definition rounded_percent (correct attempts : Z) : Z :=
  (200 * correct + attempts) / (2 * attempts).

(** [100 * correct / attempts] lies halfway between two integers. *)
Definition halfway (correct attempts : Z) : bool :=
  ((200 * correct) mod (2 * attempts) =? attempts)%Z.

(** [percent] agrees with [rounded_percent], or is one below it at a
    halfway point. *)
Definition percent_ok (correct attempts : Z) : bool :=
  let p := percent correct attempts in
  (p =? rounded_percent correct attempts)%Z
  || (halfway correct attempts
      && (p =? rounded_percent correct attempts - 1)%Z).

Definition percent_ok_upto (n : nat) : bool :=
  forallb
    (fun a =>
       forallb (fun c => percent_ok (Z.of_nat c) (Z.of_nat a)) (seq 0 (S a)))
    (seq 1 n).

Lemma percent_ok_upto_spec (n : nat) (correct attempts : Z) :
  percent_ok_upto n = true ->
  0 <= correct <= attempts -> 0 < attempts <= Z.of_nat n ->
  percent_ok correct attempts = true.
Proof.
  intros H Hc Ha. unfold percent_ok_upto in H.
  rewrite forallb_forall in H.
  assert (Hin : In (Z.to_nat attempts) (seq 1 n)) by (apply in_seq; lia).
  specialize (H _ Hin). rewrite forallb_forall in H.
  assert (Hin' : In (Z.to_nat correct) (seq 0 (S (Z.to_nat attempts))))
    by (apply in_seq; lia).
  specialize (H _ Hin'). now rewrite !Z2Nat.id in H by lia.
Qed.

Lemma percent_ok_upto_500 : percent_ok_upto 500 = true.
Proof. vm_compute. reflexivity. Qed.

(** Up to 500 attempts, the double computation gives the exactly rounded
    percentage, except that at a halfway point it may give one less. *)
Lemma percent_near_rounded (correct attempts : Z) :
  0 <= correct <= attempts -> 0 < attempts <= 500 ->
  percent correct attempts = rounded_percent correct attempts \/
  (halfway correct attempts = true /\
   percent correct attempts = rounded_percent correct attempts - 1).
Proof.
  intros Hc Ha.
  assert (H : percent_ok correct attempts = true).
  { apply (percent_ok_upto_spec 500); [exact percent_ok_upto_500 | lia | lia]. }
  unfold percent_ok in H. cbv zeta in H.
  apply orb_prop in H as [H|H].
  - left. apply Z.eqb_eq. exact H.
  - right. apply andb_prop in H as [H1 H2].
    split; [exact H1 | apply Z.eqb_eq; exact H2].
Qed.

Section DailyProgress.

Variable isoDate : Z -> string.
Variable weekday : Z -> string.

Lemma updateStreak_keeps (t_new t_now : Z) (s : LearningStats) :
  dailyProgress (updateStreak isoDate t_new t_now s) = dailyProgress s /\
  totalCorrect (updateStreak isoDate t_new t_now s) = totalCorrect s /\
  totalAttempts (updateStreak isoDate t_new t_now s) = totalAttempts s.
Proof.
  unfold updateStreak.
  destruct (String.eqb _ (isoDate t_new)); [easy|].
  now destruct (String.eqb _ _).
Qed.

(** The bucket [recordAnswer] writes. *)
Definition bucket (t_date t_day : Z) (isCorrect : bool) (s : LearningStats)
  : DailyEntry :=
  let correct := totalCorrect s + (if isCorrect then 1 else 0) in
  let attempts := totalAttempts s + 1 in
  {| day := weekday t_day;
     accuracy := if (attempts >? 0)%Z then percent correct attempts else 0;
     date := isoDate t_date |}.

Lemma recordAnswer_dailyProgress (t_new t_now t_date t_day : Z)
    (isCorrect : bool) (s : LearningStats) :
  dailyProgress (recordAnswer isoDate weekday t_new t_now t_date t_day isCorrect s)
  = match findIndex (fun d => String.eqb (date d) (isoDate t_date))
            (dailyProgress s) with
    | Some i => <[i := bucket t_date t_day isCorrect s]> (dailyProgress s)
    | None => slice_last 7 (dailyProgress s ++ [bucket t_date t_day isCorrect s])
    end.
Proof.
  unfold recordAnswer, bucket. cbn.
  destruct (updateStreak_keeps t_new t_now s) as (-> & -> & ->).
  reflexivity.
Qed.

Lemma recordAnswer_daily_ok (t_new t_now t_date t_day : Z) (isCorrect : bool)
    (s : LearningStats) :
  daily_ok s ->
  daily_ok (recordAnswer isoDate weekday t_new t_now t_date t_day isCorrect s).
Proof.
  intros [Hlen Hdup]. unfold daily_ok.
  rewrite recordAnswer_dailyProgress.
  destruct (findIndex _ (dailyProgress s)) as [i|] eqn:Hfind.
  - apply findIndex_Some in Hfind as (old & Hold & Hdate).
    apply String.eqb_eq in Hdate.
    rewrite length_insert, list_fmap_insert. split; [assumption|].
    rewrite list_insert_id; [assumption|].
    rewrite list_lookup_fmap, Hold. cbn. now rewrite Hdate.
  - split; [apply slice_last_length|].
    apply slice_last_NoDup. rewrite fmap_app. cbn.
    apply NoDup_app. repeat split; [assumption | | apply NoDup_singleton].
    intros x Hx Hin. apply list_elem_of_singleton in Hin. subst x.
    apply list_elem_of_fmap in Hx as (d & Hd & Hin).
    apply (proj1 (findIndex_None _ _) Hfind) in Hin.
    apply String.eqb_neq in Hin. congruence.
Qed.

Lemma step_daily_ok (s : LearningStats) (a : Action) :
  daily_ok s -> daily_ok (step isoDate weekday s a).
Proof.
  intros H. destruct a as [t1 t2|t1 t2 topic|t1 t2 t3 t4 c|]; cbn.
  - unfold daily_ok, incrementQuestions. cbn.
    now destruct (updateStreak_keeps t1 t2 s) as (-> & _).
  - unfold addTopic. destruct (includes _ _); [assumption|].
    unfold daily_ok. cbn.
    now destruct (updateStreak_keeps t1 t2 s) as (-> & _).
  - now apply recordAnswer_daily_ok.
  - split; [cbn; lia | constructor].
Qed.

Lemma run_daily_ok (actions : list Action) (s : LearningStats) :
  daily_ok s -> daily_ok (run isoDate weekday actions s).
Proof.
  revert s. induction actions as [|a actions IH]; intros s H; cbn; [assumption|].
  apply IH, step_daily_ok, H.
Qed.

(** C8.  In every state the hook reaches from the default stats,
    [dailyProgress] has at most 7 entries and no two with the same date;
    every [recordAnswer] call preserves this.  The call replaces, in place,
    the bucket of today's date when there is one, and otherwise appends the
    new bucket and keeps the last 7 entries. *)
Theorem C8_daily_progress_bounded_and_distinct :
  (forall actions, daily_ok (run isoDate weekday actions getDefaultStats)) /\
  (forall t_new t_now t_date t_day isCorrect s,
      daily_ok s ->
      daily_ok (recordAnswer isoDate weekday t_new t_now t_date t_day
                  isCorrect s)) /\
  (forall t_new t_now t_date t_day isCorrect s,
      let s' := recordAnswer isoDate weekday t_new t_now t_date t_day
                  isCorrect s in
      let entry := bucket t_date t_day isCorrect s in
      (isoDate t_date ∈ date <$> dailyProgress s ->
       exists i old,
         dailyProgress s !! i = Some old /\ date old = isoDate t_date /\
         dailyProgress s' = <[i := entry]> (dailyProgress s)) /\
      (isoDate t_date ∉ date <$> dailyProgress s ->
       dailyProgress s'
       = drop (length (dailyProgress s ++ [entry]) - 7)
           (dailyProgress s ++ [entry]))).
Proof.
  split; [|split].
  - intros actions. apply run_daily_ok. split; [cbn; lia | constructor].
  - intros. now apply recordAnswer_daily_ok.
  - intros t_new t_now t_date t_day isCorrect s. cbn zeta.
    rewrite recordAnswer_dailyProgress.
    destruct (findIndex _ (dailyProgress s)) as [i|] eqn:Hfind.
    + split.
      * intros _. apply findIndex_Some in Hfind as (old & Hold & Hdate).
        apply String.eqb_eq in Hdate. now exists i, old.
      * intros Hnot. exfalso. apply Hnot.
        apply findIndex_Some in Hfind as (old & Hold & Hdate).
        apply String.eqb_eq in Hdate. rewrite <- Hdate.
        apply list_elem_of_fmap_2. apply list_elem_of_lookup. now exists i.
    + split; [|reflexivity].
      intros Hin. exfalso.
      apply list_elem_of_fmap in Hin as (d & Hd & Hin).
      apply (proj1 (findIndex_None _ _) Hfind) in Hin.
      apply String.eqb_neq in Hin. congruence.
Qed.

(** The reading of the claim's formula: in every state the hook reaches,
    the accuracy [recordAnswer] stores for the day is the exactly rounded
    percentage of the all-time totals. *)
Definition stores_rounded_percent : Prop :=
  forall actions t_new t_now t_date t_day isCorrect,
    let s := run isoDate weekday actions getDefaultStats in
    let s' := recordAnswer isoDate weekday t_new t_now t_date t_day
                isCorrect s in
    forall e, e ∈ dailyProgress s' -> date e = isoDate t_date ->
              accuracy e
              = rounded_percent (totalCorrect s') (totalAttempts s').

(** C9 (amended).  The accuracy [recordAnswer] stores in the bucket of the
    day is the average accuracy of the resulting stats, [Math.round] of the
    all-time [totalCorrect / totalAttempts] times 100, in double
    arithmetic, after this answer has been counted: the bucket written for
    today carries it, and, when no date occurs twice, so does every bucket
    of today.  Up to 500 attempts this is the exactly rounded percentage,
    except that it can be one less when the percentage lies halfway
    between two integers: 1 of 8 gives 13, but 23 of 40 gives 57 and 29 of
    200 gives 14.  It is not the accuracy of the day's own answers: after
    one wrong answer the day before, a correct first answer of the day is
    stored as 50, and after a correct one as 100. *)
Theorem C9_daily_accuracy_is_lifetime_accuracy
    (t_new t_now t_date t_day : Z) (isCorrect : bool) (s : LearningStats) :
  let s' := recordAnswer isoDate weekday t_new t_now t_date t_day isCorrect s in
  totalCorrect s' = totalCorrect s + (if isCorrect then 1 else 0) /\
  totalAttempts s' = totalAttempts s + 1 /\
  avgAccuracy s'
  = (if (totalAttempts s' >? 0)%Z
     then percent (totalCorrect s') (totalAttempts s')
     else 0) /\
  (exists e, e ∈ dailyProgress s' /\ date e = isoDate t_date /\
             day e = weekday t_day /\ accuracy e = avgAccuracy s') /\
  (NoDup (date <$> dailyProgress s) ->
   forall e, e ∈ dailyProgress s' -> date e = isoDate t_date ->
             accuracy e = avgAccuracy s') /\
  (0 <= totalCorrect s <= totalAttempts s -> totalAttempts s < 500 ->
   avgAccuracy s' = rounded_percent (totalCorrect s') (totalAttempts s') \/
   (halfway (totalCorrect s') (totalAttempts s') = true /\
    avgAccuracy s'
    = rounded_percent (totalCorrect s') (totalAttempts s') - 1)) /\
  (percent 2 3 = 67 /\ rounded_percent 2 3 = 67 /\
   percent 1 8 = 13 /\ rounded_percent 1 8 = 13 /\
   percent 23 40 = 57 /\ rounded_percent 23 40 = 58 /\
   percent 29 200 = 14 /\ rounded_percent 29 200 = 15) /\
  (let day0 := recordAnswer dayNumber weekdayName 0 0 0 0 in
   let day1 := recordAnswer dayNumber weekdayName DAY_MS DAY_MS DAY_MS DAY_MS in
   dailyProgress (day1 true (day0 false getDefaultStats))
   = [{| day := "Thu"; accuracy := 0; date := "0" |};
      {| day := "Fri"; accuracy := 50; date := "1" |}] /\
   dailyProgress (day1 true (day0 true getDefaultStats))
   = [{| day := "Thu"; accuracy := 100; date := "0" |};
      {| day := "Fri"; accuracy := 100; date := "1" |}]).
Proof.
  cbn zeta.
  assert (Hacc : accuracy (bucket t_date t_day isCorrect s)
                 = avgAccuracy
                     (recordAnswer isoDate weekday t_new t_now t_date t_day
                        isCorrect s)).
  { unfold avgAccuracy, recordAnswer, bucket. cbn.
    now destruct (updateStreak_keeps t_new t_now s) as (_ & -> & ->). }
  assert (Hcorrect :
            totalCorrect
              (recordAnswer isoDate weekday t_new t_now t_date t_day
                 isCorrect s)
            = totalCorrect s + (if isCorrect then 1 else 0)).
  { unfold recordAnswer. cbn.
    now destruct (updateStreak_keeps t_new t_now s) as (_ & -> & _). }
  assert (Hattempts :
            totalAttempts
              (recordAnswer isoDate weekday t_new t_now t_date t_day
                 isCorrect s)
            = totalAttempts s + 1).
  { unfold recordAnswer. cbn.
    now destruct (updateStreak_keeps t_new t_now s) as (_ & _ & ->). }
  split; [exact Hcorrect|]. split; [exact Hattempts|].
  split; [reflexivity|]. split; [|split; [|split; [|split]]].
  - exists (bucket t_date t_day isCorrect s).
    split; [|now rewrite <- Hacc].
    rewrite recordAnswer_dailyProgress.
    destruct (findIndex _ (dailyProgress s)) as [i|] eqn:Hfind.
    + apply findIndex_Some in Hfind as (old & Hold & _).
      apply list_elem_of_lookup. exists i.
      apply list_lookup_insert_eq. now apply lookup_lt_Some in Hold.
    + apply slice_last_keeps_last. lia.
  - intros Hdup e Hin Hdate. rewrite <- Hacc.
    rewrite recordAnswer_dailyProgress in Hin.
    destruct (findIndex _ (dailyProgress s)) as [i|] eqn:Hfind.
    + apply findIndex_Some in Hfind as (old & Hold & Hold_date).
      apply String.eqb_eq in Hold_date.
      apply list_elem_of_lookup in Hin as (j & Hj).
      destruct (decide (i = j)) as [<-|Hij].
      * rewrite list_lookup_insert_eq in Hj by now apply lookup_lt_Some in Hold.
        now injection Hj as <-.
      * rewrite list_lookup_insert_ne in Hj by assumption.
        exfalso. apply Hij.
        apply (NoDup_lookup (date <$> dailyProgress s) i j (isoDate t_date));
          [assumption | |]; rewrite list_lookup_fmap.
        -- now rewrite Hold; cbn; rewrite Hold_date.
        -- now rewrite Hj; cbn; rewrite Hdate.
    + unfold slice_last in Hin.
      apply (subseteq_drop _ _ _) in Hin.
      apply elem_of_app in Hin as [Hin|Hin].
      * apply (proj1 (findIndex_None _ _) Hfind) in Hin.
        apply String.eqb_neq in Hin. contradiction.
      * apply list_elem_of_singleton in Hin. now subst e.
  - intros Hsound Hbound. unfold avgAccuracy.
    rewrite Hcorrect, Hattempts.
    replace (totalAttempts s + 1 >? 0)%Z with true
      by (symmetry; apply Z.gtb_lt; lia).
    apply percent_near_rounded; destruct isCorrect; lia.
  - vm_compute. repeat split.
  - vm_compute. now split.
Qed.

End DailyProgress.

Lemma C8_daily_progress_bounded_and_distinct_witness :
  daily_ok
    (recordAnswer dayNumber weekdayName (3 * DAY_MS) (3 * DAY_MS) (3 * DAY_MS)
       (3 * DAY_MS) true on_a_streak).
Proof.
  apply (proj1 (proj2 (C8_daily_progress_bounded_and_distinct
                         dayNumber weekdayName))).
  split; [cbn; lia | apply NoDup_singleton].
Defined.

Lemma C9_daily_accuracy_is_lifetime_accuracy_witness :
  let s' := recordAnswer dayNumber weekdayName (3 * DAY_MS) (3 * DAY_MS)
              (3 * DAY_MS) (3 * DAY_MS) true on_a_streak in
  avgAccuracy s' = 80 /\
  (forall e, e ∈ dailyProgress s' -> date e = dayNumber (3 * DAY_MS) ->
             accuracy e = avgAccuracy s') /\
  (avgAccuracy s' = rounded_percent (totalCorrect s') (totalAttempts s') \/
   (halfway (totalCorrect s') (totalAttempts s') = true /\
    avgAccuracy s'
    = rounded_percent (totalCorrect s') (totalAttempts s') - 1)).
Proof.
  split; [vm_compute; reflexivity|]. split.
  - apply (proj1 (proj2 (proj2 (proj2 (proj2
             (C9_daily_accuracy_is_lifetime_accuracy dayNumber weekdayName
                (3 * DAY_MS) (3 * DAY_MS) (3 * DAY_MS) (3 * DAY_MS) true
                on_a_streak)))))).
    apply NoDup_singleton.
  - apply (proj1 (proj2 (proj2 (proj2 (proj2 (proj2
             (C9_daily_accuracy_is_lifetime_accuracy dayNumber weekdayName
                (3 * DAY_MS) (3 * DAY_MS) (3 * DAY_MS) (3 * DAY_MS) true
                on_a_streak))))))); cbn; lia.
Defined.

(** Thirty-nine answers on day 0, twenty-two of them correct. *)
Definition thirty_nine_answers : list Action :=
  repeat (RecordAnswer 5 5 5 5 true) 22
  ++ repeat (RecordAnswer 5 5 5 5 false) 17.

(** C9 (as stated, refuted).  After those thirty-nine answers a correct
    one makes the totals 23 of 40, which is 57.5 per cent and rounds to
    58; the double [(23 / 40) * 100] is just below 57.5, and the bucket of
    the day stores 57. *)
Lemma C9_stored_accuracy_is_not_rounded_percent :
  ~ stores_rounded_percent dayNumber weekdayName.
Proof.
  intros H.
  specialize (H thirty_nine_answers 5 5 5 5 true
                {| day := "Thu"; accuracy := 57; date := "0" |}).
  vm_compute in H.
  assert (E : 57 = 58) by (apply H; [constructor | reflexivity]).
  discriminate E.
Qed.

(** The scenario of the specification: three correct answers and a wrong
    one on the same day. *)
Example three_right_one_wrong :
  let answer := recordAnswer dayNumber weekdayName 5 5 5 5 in
  let s := answer false (answer true (answer true (answer true getDefaultStats))) in
  avgAccuracy s = 75 /\
  dailyProgress s = [{| day := "Thu"; accuracy := 75; date := "0" |}].
Proof. vm_compute. now split. Qed.

(** What double arithmetic does to the percentage: 29 of 200 is 14.5 per
    cent, yet [(29 / 200) * 100] is just below 14.5 and rounds to 14. *)
Example percent_rounds_the_double : percent 29 200 = 14.
Proof. vm_compute. reflexivity. Qed.

End LearningStatsFacts.

(** * Properties of the chat session list *)

Module ChatHistoryFacts.

Import ChatHistory.

(** The clock reads of one [createSession] call: [Date.now()] and the two
    [new Date()]. *)
Definition Reads : Type := Z * Z * Z.

Definition t_id (r : Reads) : Z := fst (fst r).

Definition create (r : Reads) : Action :=
  let '(a, b, c) := r in CreateSession a b c.

Definition created (toISOString : Z -> string) (r : Reads) : ChatSession :=
  let '(a, b, c) := r in newSession toISOString a b c.

(** A clock that ticks once per call, from [from] on. *)
Definition ticks (from : nat) (n : nat) : list Reads :=
  (fun k => (Z.of_nat k, Z.of_nat k, Z.of_nat k)) <$> seq from n.

Lemma take_app_take {A} (n : nat) (l k : list A) :
  take n (l ++ take n k) = take n (l ++ k).
Proof.
  rewrite !take_app, take_take. f_equal.
  now rewrite Nat.min_l by lia.
Qed.

Section Sessions.

Variable toISOString : Z -> string.

Lemma step_length (st : State) (a : Action) :
  (length (sessions st) <= MAX_SESSIONS)%nat ->
  (length (sessions (step toISOString st a)) <= MAX_SESSIONS)%nat.
Proof.
  intros H. destruct a; cbn -[MAX_SESSIONS].
  - rewrite length_take. apply Nat.le_min_l.
  - now rewrite length_map.
  - etransitivity; [apply length_filter | assumption].
  - lia.
  - assumption.
  - etransitivity; [apply length_filter | assumption].
Qed.

Lemma run_length (actions : list Action) (st : State) :
  (length (sessions st) <= MAX_SESSIONS)%nat ->
  (length (sessions (run toISOString actions st)) <= MAX_SESSIONS)%nat.
Proof.
  revert st. induction actions as [|a actions IH]; intros st H; cbn;
    [assumption|].
  apply IH, step_length, H.
Qed.

Lemma run_cons (a : Action) (actions : list Action) (st : State) :
  run toISOString (a :: actions) st
  = run toISOString actions (step toISOString st a).
Proof. reflexivity. Qed.

(** After a run of creations the list holds the newest sessions first,
    cut at [MAX_SESSIONS]. *)
Lemma run_creations (rs : list Reads) (st : State) :
  (length (sessions st) <= MAX_SESSIONS)%nat ->
  sessions (run toISOString (create <$> rs) st)
  = take MAX_SESSIONS (rev (created toISOString <$> rs) ++ sessions st).
Proof.
  revert st. induction rs as [|[[a b] c] rs IH]; intros st Hlen.
  - cbn. now rewrite take_ge.
  - rewrite fmap_cons, run_cons, IH.
    + cbn [create step createSession snd sessions].
      rewrite take_app_take. cbn [created rev fmap list_fmap].
      now rewrite <- app_assoc.
    + now apply step_length.
Qed.

(** C7.  From the empty list every run of the hook's mutations leaves at
    most 50 sessions, and [createSession] never returns a longer list.
    After 51 [createSession] calls exactly the 50 sessions created last are
    retained, newest first; when the first call's id is not reused by a
    later call, no retained session carries it. *)
Theorem C7_session_list_capped_oldest_evicted
    (first : Reads) (rest : list Reads) :
  length rest = 50%nat ->
  let st := run toISOString (create <$> first :: rest) initial in
  (forall actions,
      (length (sessions (run toISOString actions initial)) <= 50)%nat) /\
  (forall a b c st0,
      (length (sessions (snd (createSession toISOString a b c st0))) <= 50)%nat)
  /\ sessions st = rev (created toISOString <$> rest)
  /\ length (sessions st) = 50%nat
  /\ ((forall r, r ∈ rest -> t_id r <> t_id first) ->
      forall s, s ∈ sessions st -> id s <> id (created toISOString first)).
Proof.
  intros Hlen. cbn zeta.
  assert (Hst : sessions (run toISOString (create <$> first :: rest) initial)
                = rev (created toISOString <$> rest)).
  { rewrite run_creations by (cbn; lia).
    cbn [fmap list_fmap rev initial sessions]. rewrite app_nil_r.
    apply take_app_length'.
    now rewrite length_rev, length_fmap, Hlen. }
  split; [|split; [|split; [|split]]].
  - intros actions. apply run_length. cbn. unfold MAX_SESSIONS. lia.
  - intros a b c st0. cbn. rewrite length_take. unfold MAX_SESSIONS. lia.
  - exact Hst.
  - now rewrite Hst, length_rev, length_fmap.
  - intros Hfresh s Hin. rewrite Hst in Hin.
    apply (proj1 (list_elem_of_In _ _)), (proj2 (in_rev _ _)),
      (proj2 (list_elem_of_In _ _)), list_elem_of_fmap in Hin
      as ([[a b] c] & -> & Hin).
    specialize (Hfresh _ Hin). destruct first as [[a0 b0] c0]. cbn in *.
    intros E. apply Hfresh. now apply JSFacts.number_toString_inj.
Qed.

End Sessions.

Lemma C7_session_list_capped_oldest_evicted_witness :
  let st := run JS.number_toString (create <$> ticks 0 51) initial in
  (forall actions,
      (length (sessions (run JS.number_toString actions initial)) <= 50)%nat) /\
  (forall a b c st0,
      (length (sessions (snd (createSession JS.number_toString a b c st0)))
       <= 50)%nat)
  /\ sessions st = rev (created JS.number_toString <$> ticks 1 50)
  /\ length (sessions st) = 50%nat
  /\ ((forall r, r ∈ ticks 1 50 -> t_id r <> t_id (0, 0, 0)) ->
      forall s, s ∈ sessions st ->
                id s <> id (created JS.number_toString (0, 0, 0))).
Proof.
  apply (C7_session_list_capped_oldest_evicted JS.number_toString
           (0, 0, 0) (ticks 1 50)).
  reflexivity.
Defined.

(** Sessions without a message are kept in the state but are not among the
    [sessions] the hook hands to its callers. *)
Example new_sessions_are_not_listed :
  let st := run JS.number_toString (create <$> ticks 0 51) initial in
  length (sessions st) = 50%nat /\ sessionsWithMessages st = [].
Proof. vm_compute. now split. Qed.

(** The ids left after 51 calls at the instants 0 to 50: 50 down to 1. *)
Example fifty_one_sessions :
  id <$> sessions (run JS.number_toString (create <$> ticks 0 51) initial)
  = JS.number_toString <$> ((fun k => Z.of_nat k) <$> rev (seq 1 50)).
Proof. vm_compute. reflexivity. Qed.

End ChatHistoryFacts.

(** * More on the completion client: what it sends *)

Module CompletionFacts.

Import GeminiClient GeminiClientFacts.

(** A request as [sendMessageWithFallback] builds it for a prompt. *)
Definition well_formed (message : string) (c : Call) : Prop :=
  call_model c = "gemini-1.5-flash" /\
  call_history c = [] /\
  call_config c = {| maxOutputTokens := 1000; temperature_tenths := 7 |} /\
  call_message c = message.

(** The module state only holds clients built from the keys of [env]. *)
Definition from_env (env : Process.Env) (st : State) : Prop :=
  (forall c, client1 st = Some c ->
             Process.GEMINI_API_KEY_1 env = Some (apiKey c)
             /\ JS.truthy_str (apiKey c) = true) /\
  (forall c, client2 st = Some c ->
             Process.GEMINI_API_KEY_2 env = Some (apiKey c)
             /\ JS.truthy_str (apiKey c) = true).

Definition configured (env : Process.Env) (c : Call) : Prop :=
  Process.GEMINI_API_KEY_1 env = Some (call_key c)
  \/ Process.GEMINI_API_KEY_2 env = Some (call_key c).

Ltac case_provider provider :=
  repeat (cbn;
          match goal with
          | |- context [provider ?l ?c] =>
              let E := fresh "E" in destruct (provider l c) eqn:E
          end);
  cbn.

Ltac split_state env st :=
  let k1 := fresh "k1" in
  let k2 := fresh "k2" in
  let c1 := fresh "c1" in
  let c2 := fresh "c2" in
  destruct env as [k1 k2 ?]; destruct st as [c1 c2 ? ?];
  destruct c1 as [[?]|], c2 as [[?]|];
  destruct k1 as [[|? ?]|], k2 as [[|? ?]|].

(** X1.  Whatever the environment, the module state and the provider, one
    call of [sendMessageWithFallback] appends at most two requests to those
    already sent; each carries the prompt, the model name, an empty history
    and the fixed generation configuration; and a text it returns is the
    provider's answer to the last request it sent. *)
Theorem at_most_two_well_formed_requests env provider message st :
  exists new,
    calls (snd (sendMessageWithFallback env provider message st))
    = calls st ++ new /\
    (length new <= 2)%nat /\
    Forall (well_formed message) new /\
    (forall text,
        fst (sendMessageWithFallback env provider message st) = inr text ->
        exists earlier c,
          new = earlier ++ [c] /\
          provider (calls st ++ earlier) c = inr text).
Proof.
  split_state env st; run_client; case_provider provider;
    match goal with
    | |- exists new, (?l ++ [?a]) ++ [?b] = ?l ++ new /\ _ =>
        exists [a; b]; split; [now rewrite <- app_assoc|]
    | |- exists new, ?l ++ [?a] = ?l ++ new /\ _ =>
        exists [a]; split; [reflexivity|]
    | |- exists new, ?l = ?l ++ new /\ _ =>
        exists []; split; [now rewrite app_nil_r|]
    end;
    (split; [cbn; lia|]);
    (split; [repeat constructor|]);
    intros text Htext; try discriminate; injection Htext as <-;
    first [ now eexists [], _; split; [reflexivity | rewrite app_nil_r]
          | now eexists [_], _; split; [reflexivity |] ].
Qed.

(** X2.  From a module state whose clients were built from the keys of the
    environment (the initial state is one), the state after a call is again
    such a state, and every request the call sends carries one of the two
    configured keys. *)
Theorem requests_carry_configured_keys env provider message st :
  from_env env st ->
  from_env env (snd (sendMessageWithFallback env provider message st)) /\
  exists new,
    calls (snd (sendMessageWithFallback env provider message st))
    = calls st ++ new /\
    Forall (configured env) new.
Proof.
  intros [H1 H2]. destruct env as [k1 k2 j], st as [c1 c2 cs co].
  cbn in H1, H2.
  destruct c1 as [[a1]|];
    [ destruct (H1 _ eq_refl) as [-> T1]; cbn in T1;
      destruct a1 as [|? ?]; [discriminate T1|]; clear H1 T1
    | clear H1; destruct k1 as [[|? ?]|] ];
    (destruct c2 as [[a2]|];
     [ destruct (H2 _ eq_refl) as [-> T2]; cbn in T2;
       destruct a2 as [|? ?]; [discriminate T2|]; clear H2 T2
     | clear H2; destruct k2 as [[|? ?]|] ]);
    run_client; case_provider provider;
    (split;
     [ split; intros c [= <-]; cbn; auto
     | match goal with
       | |- exists new, (?l ++ [?a]) ++ [?b] = ?l ++ new /\ _ =>
           exists [a; b]; split; [now rewrite <- app_assoc|]
       | |- exists new, ?l ++ [?a] = ?l ++ new /\ _ =>
           exists [a]; split; [reflexivity|]
       | |- exists new, ?l = ?l ++ new /\ _ =>
           exists []; split; [now rewrite app_nil_r|]
       end;
       repeat (constructor; [unfold configured; cbn; auto|]);
       constructor ]).
Qed.

Lemma requests_carry_configured_keys_witness :
  from_env both_keys
    (snd (sendMessageWithFallback both_keys rejects_each "hi" initial)) /\
  exists new,
    calls (snd (sendMessageWithFallback both_keys rejects_each "hi" initial))
    = calls initial ++ new /\
    Forall (configured both_keys) new.
Proof.
  apply (requests_carry_configured_keys both_keys rejects_each "hi" initial).
  split; intros c H; discriminate H.
Defined.

(** X3.  The clients are built once.  After a first call in an environment
    with a usable key, [client1] and [client2] are the clients of that
    environment's usable keys, and a later call leaves them as they are even
    when it runs with another environment. *)
Theorem clients_fixed_after_first_use
    env provider message env' provider' message' st :
  fresh st ->
  JS.truthy (Process.GEMINI_API_KEY_1 env)
  || JS.truthy (Process.GEMINI_API_KEY_2 env) = true ->
  let st1 := snd (sendMessageWithFallback env provider message st) in
  let st2 := snd (sendMessageWithFallback env' provider' message' st1) in
  client1 st1
  = (if JS.truthy (Process.GEMINI_API_KEY_1 env)
     then option_map Build_GoogleGenerativeAI (Process.GEMINI_API_KEY_1 env)
     else None) /\
  client2 st1
  = (if JS.truthy (Process.GEMINI_API_KEY_2 env)
     then option_map Build_GoogleGenerativeAI (Process.GEMINI_API_KEY_2 env)
     else None) /\
  client1 st2 = client1 st1 /\
  client2 st2 = client2 st1.
Proof.
  intros [H1 H2] Hkey. cbn zeta.
  destruct env as [k1 k2 j], st as [c1 c2 cs co]. cbn in H1, H2, Hkey.
  subst c1 c2.
  destruct k1 as [[|a1 k1]|], k2 as [[|a2 k2]|]; try discriminate Hkey;
    run_client; case_provider provider;
    (split; [reflexivity|]); (split; [reflexivity|]);
    destruct env' as [k1' k2' j'];
    destruct k1' as [[|? ?]|], k2' as [[|? ?]|];
    run_client; case_provider provider'; split; reflexivity.
Qed.

Lemma clients_fixed_after_first_use_witness :
  let st1 := snd (sendMessageWithFallback only_primary down "hi" initial) in
  let st2 := snd (sendMessageWithFallback both_keys recovers "again" st1) in
  client1 st1 = Some {| apiKey := "key-one" |} /\
  client2 st1 = None /\
  client1 st2 = client1 st1 /\
  client2 st2 = client2 st1.
Proof.
  apply (clients_fixed_after_first_use only_primary down "hi"
           both_keys recovers "again" initial);
    [split; reflexivity | reflexivity].
Defined.

Lemma primary_success_returned_witness :
  fst (sendMessageWithFallback both_keys
         (fun _ _ => inr "Hello!") "hi" initial) = inr "Hello!" /\
  calls (snd (sendMessageWithFallback both_keys
                (fun _ _ => inr "Hello!") "hi" initial))
  = calls initial ++ [request "key-one" "hi"].
Proof.
  apply (primary_success_returned both_keys (fun _ _ => inr "Hello!") "hi"
           initial "key-one" "Hello!");
    [split; reflexivity | reflexivity | reflexivity | reflexivity].
Defined.

(** A provider that rejects the first key and answers the second. *)
Definition answers_second : Provider :=
  fun _ c =>
    if String.eqb (call_key c) "key-one"
    then inl "quota exceeded"
    else inr "Hello from the second key".

Lemma secondary_success_returned_witness :
  fst (sendMessageWithFallback both_keys answers_second "hi" initial)
  = inr "Hello from the second key" /\
  calls (snd (sendMessageWithFallback both_keys answers_second "hi" initial))
  = calls initial ++ [request "key-one" "hi"; request "key-two" "hi"].
Proof.
  apply (secondary_success_returned both_keys answers_second "hi" initial
           "key-one" "key-two" "quota exceeded" "Hello from the second key");
    [split; reflexivity | reflexivity ..].
Defined.

End CompletionFacts.

(** * Properties of the chat route *)

Module ChatRouteFacts.

Import Http GeminiClient ChatRoute.

(** Scenario data: a driver that numbers its ids and accepts as user ids
    the strings of 24 characters. *)
Definition objectId (n : nat) : string :=
  "chat-" +:+ JS.number_toString (Z.of_nat n).

Definition parseObjectId (s : string) : option string :=
  if (String.length s =? 24)%nat then Some s else None.

Definition ana_id : string := "64b7f0c2a1d3e4f5a6b7c8d9".

Definition hello : Provider := fun _ _ => inr "Hello, Ana!".

Lemma ceil_quarter_bounds (n : Z) :
  4 * (ceil_quarter n - 1) < n <= 4 * ceil_quarter n.
Proof.
  unfold ceil_quarter.
  pose proof (Z.div_mod (- n) 4 ltac:(lia)).
  pose proof (Z.mod_pos_bound (- n) 4 ltac:(lia)).
  lia.
Qed.


Ltac route_case :=
  split; [auto|];
  split;
  [ let H := fresh in
    intros H; first [reflexivity | exfalso; apply H; reflexivity] |];
  split;
  [ let H := fresh in intros H; first [reflexivity | discriminate H] |].

Section Route.

Variable env : Process.Env.
Variable provider : Provider.

(** X6.  The chat route answers 200, 400 or 500.  It writes to the chat
    history only when it answers 200, and then at most one document; when it
    answers 400 the completion client has not been touched. *)
Theorem history_written_only_on_success
    (objectId : nat -> string) (parseObjectId : string -> option string)
    (req : string + Body) (connectDB : option string) (now : Z)
    (db : ChatDb) (client : State) :
  let out := POST env provider objectId parseObjectId req connectDB now db
               client in
  let response := fst (fst out) in
  let db' := snd (fst out) in
  (status response = 200 \/ status response = 400 \/ status response = 500) /\
  (status response <> 200 -> db' = db) /\
  (status response = 400 -> snd out = client) /\
  (exists docs, chatHistory db' = chatHistory db ++ docs
                /\ (length docs <= 1)%nat).
Proof.
  cbn zeta. unfold POST.
  assert (Hnone : exists docs : list ChatDoc,
             chatHistory db = chatHistory db ++ docs /\ (length docs <= 1)%nat)
    by (exists []; split; [now rewrite app_nil_r | cbn; lia]).
  destruct req as [error|[m u]]; cbn [message userId].
  - cbn. route_case. exact Hnone.
  - destruct (JS.truthy m); cbn [negb].
    + destruct (sendMessageWithFallback env provider _ client) as [[e|text] c'].
      * cbn. route_case. exact Hnone.
      * cbn. route_case.
        destruct u as [uid|]; [|exact Hnone].
        destruct (JS.truthy_str uid); [|exact Hnone].
        unfold saveHistory.
        destruct connectDB; [exact Hnone|].
        destruct (parseObjectId uid); [|exact Hnone].
        cbn. eexists [_]. split; [reflexivity | cbn; lia].
    + cbn. route_case. exact Hnone.
Qed.

(** X7.  The response of the chat route and the state it leaves the
    completion client in depend on the message alone: not on the user id,
    the store, the id generator, the clock, or whether saving the history
    fails. *)
Theorem response_ignores_persistence
    (objectId objectId' : nat -> string)
    (parseObjectId parseObjectId' : string -> option string)
    (m : option string) (u u' : option string)
    (connectDB connectDB' : option string) (now now' : Z)
    (db db' : ChatDb) (client : State) :
  let out := POST env provider objectId parseObjectId
               (inr {| message := m; userId := u |}) connectDB now db client in
  let out' := POST env provider objectId' parseObjectId'
                (inr {| message := m; userId := u' |}) connectDB' now' db'
                client in
  fst (fst out) = fst (fst out') /\ snd out = snd out'.
Proof.
  cbn zeta. unfold POST. cbn [message userId].
  destruct (JS.truthy m); cbn [negb]; [|now split].
  now destruct (sendMessageWithFallback env provider _ client) as [[e|text] c'].
Qed.

(** X8.  When the completion succeeds, the store can be reached and the
    user id is a valid id, the route answers with the text and appends
    exactly one document: the user, the message, the text, and token
    estimates that are the lengths divided by four, rounded up. *)
Theorem successful_turn_is_recorded
    (objectId : nat -> string) (parseObjectId : string -> option string)
    (m uid oid text : string) (now : Z) (db : ChatDb) (client client' : State) :
  JS.truthy_str m = true ->
  JS.truthy_str uid = true ->
  parseObjectId uid = Some oid ->
  sendMessageWithFallback env provider m client = (inr text, client') ->
  let out := POST env provider objectId parseObjectId
               (inr {| message := Some m; userId := Some uid |}) None now db
               client in
  fst (fst out) = json (JObj [("response", JStr text)]) /\
  (exists t_in t_out,
      chatHistory (snd (fst out))
      = chatHistory db
        ++ [{| chat_id := objectId (generated db);
               chat_userId := oid;
               chat_userMessage := m;
               chat_assistantResponse := text;
               chat_createdAt := now;
               chat_tokens_input := t_in;
               chat_tokens_output := t_out |}] /\
      4 * (t_in - 1) < length_of m <= 4 * t_in /\
      4 * (t_out - 1) < length_of text <= 4 * t_out) /\
  snd out = client'.
Proof.
  intros Hm Hu Hoid Hsend. cbn zeta. unfold POST.
  cbn [message userId JS.truthy from_option id]. rewrite Hm. cbn [negb].
  rewrite Hsend, Hu. unfold saveHistory. rewrite Hoid. cbn.
  repeat split.
  eexists _, _. split; [reflexivity|].
  split; apply ceil_quarter_bounds.
Qed.


End Route.

Lemma successful_turn_is_recorded_witness :
  let out := POST GeminiClientFacts.both_keys hello objectId parseObjectId
               (inr {| message := Some "What is a monad?";
                       userId := Some ana_id |}) None 1000 empty
               GeminiClient.initial in
  fst (fst out) = json (JObj [("response", JStr "Hello, Ana!")]) /\
  (exists t_in t_out,
      chatHistory (snd (fst out))
      = chatHistory empty
        ++ [{| chat_id := objectId 0;
               chat_userId := ana_id;
               chat_userMessage := "What is a monad?";
               chat_assistantResponse := "Hello, Ana!";
               chat_createdAt := 1000;
               chat_tokens_input := t_in;
               chat_tokens_output := t_out |}] /\
      4 * (t_in - 1) < length_of "What is a monad?" <= 4 * t_in /\
      4 * (t_out - 1) < length_of "Hello, Ana!" <= 4 * t_out) /\
  snd out
  = snd (sendMessageWithFallback GeminiClientFacts.both_keys hello
           "What is a monad?" GeminiClient.initial).
Proof.
  apply (successful_turn_is_recorded GeminiClientFacts.both_keys hello
           objectId parseObjectId "What is a monad?" ana_id ana_id
           "Hello, Ana!" 1000 empty GeminiClient.initial);
    reflexivity.
Defined.


End ChatRouteFacts.

(** * Properties of the authorization gate *)

Module AuthGateFacts.

Import Http AuthGate.

Lemma prefix_split (p s : string) :
  String.prefix p s = true -> exists r, s = p +:+ r.
Proof.
  revert s. induction p as [|c p IH]; intros s.
  - intros _. now exists s.
  - destruct s as [|d s]; [discriminate|]. simpl.
    destruct (ascii_dec c d) as [<-|]; [|discriminate].
    intros H. destruct (IH _ H) as [r ->]. now exists r.
Qed.

Lemma prefix_append (p r : string) : String.prefix p (p +:+ r) = true.
Proof.
  induction p as [|c p IH]; simpl; [now destruct r|].
  now destruct (ascii_dec c c).
Qed.

Lemma substring_all (s : string) : String.substring 0 (String.length s) s = s.
Proof. induction s as [|c s IH]; cbn; [reflexivity | now rewrite IH]. Qed.

Lemma substring_from_append (p r : string) :
  substring_from (String.length p) (p +:+ r) = r.
Proof.
  unfold substring_from.
  induction p as [|c p IH]; cbn.
  - rewrite Nat.sub_0_r. apply substring_all.
  - exact IH.
Qed.

Lemma bearer_token (t : string) :
  JS.truthy_str ("Bearer " +:+ t) = true /\
  String.prefix "Bearer " ("Bearer " +:+ t) = true /\
  substring_from 7 ("Bearer " +:+ t) = t.
Proof.
  split; [reflexivity|]. split; [apply prefix_append|].
  apply (substring_from_append "Bearer " t).
Qed.

Lemma bearer_inj (a b : string) :
  Some ("Bearer " +:+ a) = Some ("Bearer " +:+ b) -> a = b.
Proof. intros H. simpl in H. now injection H. Qed.

Lemma bearer_iff (headers : list (string * string)) (t : string) :
  getTokenFromRequest headers = Some t
  <-> headers_get "authorization" headers = Some ("Bearer " +:+ t).
Proof.
  unfold getTokenFromRequest.
  destruct (headers_get "authorization" headers) as [h|]; [|easy].
  split.
  - destruct (JS.truthy_str h); cbn [negb orb]; [|discriminate].
    destruct (String.prefix "Bearer " h) eqn:Hp; cbn [negb]; [|discriminate].
    destruct (prefix_split _ _ Hp) as [r ->]. intros [= <-].
    now rewrite (proj2 (proj2 (bearer_token r))).
  - intros [= ->]. destruct (bearer_token t) as (-> & -> & ->). reflexivity.
Qed.

(** *** Header values as a request carries them *)

Lemma strip_trailing_cons (c : ascii) (r : string) :
  RequestHeaders.strip_trailing (String c r)
  = match RequestHeaders.strip_trailing r with
    | EmptyString =>
        if RequestHeaders.is_http_whitespace c
        then EmptyString
        else String c EmptyString
    | r' => String c r'
    end.
Proof. reflexivity. Qed.

Lemma strip_trailing_idem (s : string) :
  RequestHeaders.strip_trailing (RequestHeaders.strip_trailing s)
  = RequestHeaders.strip_trailing s.
Proof.
  induction s as [|c r IH]; [reflexivity|].
  rewrite strip_trailing_cons.
  destruct (RequestHeaders.strip_trailing r) as [|d r'] eqn:E.
  - destruct (RequestHeaders.is_http_whitespace c) eqn:W; [reflexivity|].
    rewrite strip_trailing_cons. cbn [RequestHeaders.strip_trailing].
    now rewrite W.
  - rewrite strip_trailing_cons, IH. reflexivity.
Qed.

Lemma normalize_not_bearer_space (v : string) :
  RequestHeaders.normalize v <> "Bearer ".
Proof.
  unfold RequestHeaders.normalize. intros H.
  pose proof (strip_trailing_idem (RequestHeaders.strip_leading v)) as I.
  rewrite H in I. vm_compute in I. discriminate I.
Qed.

Fixpoint has_comma (s : string) : bool :=
  match s with
  | EmptyString => false
  | String c r => Ascii.eqb c "," || has_comma r
  end.

Lemma joined_has_comma (v more : string) :
  has_comma (v +:+ ", " +:+ more) = true.
Proof.
  induction v as [|c v IH]; [reflexivity|].
  change (String c v +:+ ", " +:+ more)
    with (String c (v +:+ ", " +:+ more)).
  cbn [has_comma]. rewrite IH. apply orb_true_r.
Qed.

Lemma joined_not_bearer_space (v more : string) :
  v +:+ ", " +:+ more <> "Bearer ".
Proof.
  intros H. pose proof (joined_has_comma v more) as C.
  rewrite H in C. discriminate C.
Qed.

Lemma headers_get_filled (name : string) (init : list (string * string)) :
  headers_get name
    (map (fun nv => (fst nv, RequestHeaders.normalize (snd nv))) init)
  <> Some "Bearer ".
Proof.
  induction init as [|[n v] init IH]; cbn [map headers_get fst snd];
    [discriminate|].
  destruct (String.eqb (lowercase n) (lowercase name)); [|exact IH].
  destruct (headers_get name _) as [more|]; intros [= H].
  - now apply joined_not_bearer_space in H.
  - now apply normalize_not_bearer_space in H.
Qed.

Lemma normalize_bearer (t : string) :
  RequestHeaders.normalize ("Bearer " +:+ t)
  = match RequestHeaders.strip_trailing t with
    | EmptyString => "Bearer"
    | r => "Bearer " +:+ r
    end.
Proof.
  unfold RequestHeaders.normalize.
  change (RequestHeaders.strip_leading ("Bearer " +:+ t))
    with ("Bearer " +:+ t).
  change ("Bearer " +:+ t)
    with (String "B" (String "e" (String "a" (String "r" (String "e"
            (String "r" (String " " t))))))).
  rewrite !strip_trailing_cons.
  destruct (RequestHeaders.strip_trailing t); reflexivity.
Qed.

(** The header list of the request [fetch] sends with the headers
    [getAuthHeaders] builds. *)
Lemma auth_headers_sent (localStorage : gmap string string) :
  RequestHeaders.of_init (AuthUtils.getAuthHeaders localStorage)
  = match localStorage !! "auth_token" with
    | Some t =>
        if JS.truthy_str t
        then
          if RequestHeaders.valid_value (RequestHeaders.strip_trailing t)
          then Some [("Content-Type", "application/json");
                     ("Authorization",
                      RequestHeaders.normalize ("Bearer " +:+ t))]
          else None
        else Some [("Content-Type", "application/json")]
    | None => Some [("Content-Type", "application/json")]
    end.
Proof.
  unfold AuthUtils.getAuthHeaders, AuthUtils.getAuthToken.
  destruct (localStorage !! "auth_token") as [t|]; [|reflexivity].
  cbn [JS.truthy from_option id].
  destruct (JS.truthy_str t); [|reflexivity].
  unfold RequestHeaders.of_init. cbn [map fst snd forallb].
  rewrite normalize_bearer.
  destruct (RequestHeaders.strip_trailing t) as [|c r]; [reflexivity|].
  set (valid := RequestHeaders.valid_value (String c r)).
  change (RequestHeaders.valid_value ("Bearer " +:+ String c r)) with valid.
  destruct valid; reflexivity.
Qed.

(** X10.  [getTokenFromRequest] returns a token exactly when the request's
    [authorization] header (whatever the case of its name) is ["Bearer "]
    followed by that token, and none when the header does not start with
    ["Bearer "].  On the header list of a request, whose values have no
    whitespace at either end, the token it returns is never empty. *)
Theorem token_is_what_follows_bearer (headers : list (string * string)) :
  (forall t,
      getTokenFromRequest headers = Some t
      <-> headers_get "authorization" headers = Some ("Bearer " +:+ t)) /\
  (forall init,
      RequestHeaders.of_init init = Some headers ->
      getTokenFromRequest headers <> Some "") /\
  (forall h,
      headers_get "authorization" headers = Some h ->
      String.prefix "Bearer " h = false ->
      getTokenFromRequest headers = None).
Proof.
  split; [intros t; apply bearer_iff|]. split.
  - intros init Hinit Htok. apply bearer_iff in Htok.
    unfold RequestHeaders.of_init in Hinit. cbn zeta in Hinit.
    destruct (forallb _ _); [|discriminate].
    injection Hinit as <-.
    exact (headers_get_filled _ _ Htok).
  - intros h Hh Hp. unfold getTokenFromRequest. rewrite Hh, Hp.
    now destruct (JS.truthy_str h).
Qed.

(** X11.  From the browser store to the server: when [fetch] sends the
    headers [getAuthHeaders] builds from a store that holds a non-empty
    token, the server's [getTokenFromRequest] returns that token without
    its trailing whitespace, and no token when nothing else is left of it.
    So a token that has no whitespace at its end and no NUL, line feed or
    carriage return, as every token the login route issues, is sent and
    comes back unchanged.  Without a token, or with an empty one, no
    [Authorization] header is sent and the server finds none. *)
Theorem auth_headers_round_trip (localStorage : gmap string string) :
  (forall t headers,
      localStorage !! "auth_token" = Some t ->
      JS.truthy_str t = true ->
      RequestHeaders.of_init (AuthUtils.getAuthHeaders localStorage)
      = Some headers ->
      getTokenFromRequest headers
      = (if JS.truthy_str (RequestHeaders.strip_trailing t)
         then Some (RequestHeaders.strip_trailing t)
         else None)) /\
  (forall t,
      localStorage !! "auth_token" = Some t ->
      JS.truthy_str t = true ->
      RequestHeaders.strip_trailing t = t ->
      RequestHeaders.valid_value t = true ->
      exists headers,
        RequestHeaders.of_init (AuthUtils.getAuthHeaders localStorage)
        = Some headers /\
        getTokenFromRequest headers = Some t) /\
  (JS.truthy (localStorage !! "auth_token") = false ->
   exists headers,
     RequestHeaders.of_init (AuthUtils.getAuthHeaders localStorage)
     = Some headers /\
     getTokenFromRequest headers = None).
Proof.
  assert (Hsent :
            forall t headers,
              localStorage !! "auth_token" = Some t ->
              JS.truthy_str t = true ->
              RequestHeaders.of_init (AuthUtils.getAuthHeaders localStorage)
              = Some headers ->
              getTokenFromRequest headers
              = (if JS.truthy_str (RequestHeaders.strip_trailing t)
                 then Some (RequestHeaders.strip_trailing t)
                 else None)).
  { intros t headers Ht Htruthy. rewrite auth_headers_sent, Ht, Htruthy.
    destruct (RequestHeaders.valid_value _); [|discriminate].
    intros [= <-]. rewrite normalize_bearer.
    destruct (RequestHeaders.strip_trailing t) as [|c r]; [reflexivity|].
    apply bearer_iff. reflexivity. }
  split; [exact Hsent|]. split.
  - intros t Ht Htruthy Hstrip Hvalid.
    pose proof (auth_headers_sent localStorage) as E.
    rewrite Ht, Htruthy, Hstrip, Hvalid in E.
    eexists. split; [exact E|].
    rewrite (Hsent t _ Ht Htruthy E), Hstrip, Htruthy. reflexivity.
  - intros Hnone. rewrite auth_headers_sent.
    destruct (localStorage !! "auth_token") as [t|];
      cbn [JS.truthy] in Hnone; [rewrite Hnone|];
      (eexists; split; [reflexivity|reflexivity]).
Qed.

Lemma auth_headers_round_trip_witness :
  exists headers,
    RequestHeaders.of_init
      (AuthUtils.getAuthHeaders {["auth_token" := "abc.def.ghi"]})
    = Some headers /\
    getTokenFromRequest headers = Some "abc.def.ghi".
Proof.
  apply (proj1 (proj2 (auth_headers_round_trip
                         {["auth_token" := "abc.def.ghi"]})));
    reflexivity.
Defined.

(** A stored token that ends in a space comes back without it, and one
    that is only a space does not come back at all. *)
Example padded_tokens :
  (RequestHeaders.of_init (AuthUtils.getAuthHeaders {["auth_token" := "abc "]})
   ≫= getTokenFromRequest) = Some "abc" /\
  (RequestHeaders.of_init (AuthUtils.getAuthHeaders {["auth_token" := " "]})
   ≫= getTokenFromRequest) = None.
Proof. split; reflexivity. Qed.

Section Gate.

Variable env : Process.Env.
Variable jwt : Jwt.Library.

(** X12.  [requireAuth] lets a request through exactly when its
    [authorization] header is ["Bearer "] followed by a non-empty token
    that [verifyToken] accepts, and then yields what [verifyToken] decoded.
    Every other request gets status 401: ["Unauthorized"] when there is no
    such header or the token is empty (the token is then never verified),
    ["Invalid token"] when verification fails. *)
Theorem requireAuth_accepts_exactly (headers : list (string * string))
    (now : Z) :
  (forall d,
      requireAuth env jwt headers now = inr d
      <-> exists t,
          JS.truthy_str t = true /\
          headers_get "authorization" headers = Some ("Bearer " +:+ t) /\
          AuthMiddleware.verifyToken env jwt t now = Some d) /\
  (forall r,
      requireAuth env jwt headers now = inl r ->
      status r = 401 /\
      (body r = JObj [("error", JStr "Unauthorized")]
       <-> JS.truthy (getTokenFromRequest headers) = false) /\
      (body r = JObj [("error", JStr "Invalid token")]
       <-> exists t, getTokenFromRequest headers = Some t /\
                     JS.truthy_str t = true /\
                     AuthMiddleware.verifyToken env jwt t now = None)).
Proof.
  unfold requireAuth.
  destruct (getTokenFromRequest headers) as [t|] eqn:Htok.
  - apply bearer_iff in Htok. cbn [JS.truthy from_option id].
    destruct (JS.truthy_str t) eqn:Ht; cbn [negb].
    + destruct (AuthMiddleware.verifyToken env jwt t now) as [d0|] eqn:Hv.
      * split; [|discriminate]. intros d. split.
        -- intros [= <-]. now exists t.
        -- intros (t' & _ & Hh & Hv'). rewrite Htok in Hh.
           apply bearer_inj in Hh. subst t'.
           congruence.
      * split.
        -- intros d. split; [discriminate|].
           intros (t' & _ & Hh & Hv'). rewrite Htok in Hh.
           apply bearer_inj in Hh. subst t'.
           congruence.
        -- intros r [= <-]. cbn. repeat split; try discriminate.
           ++ intros _. now exists t.
    + split.
      * intros d. split; [discriminate|].
        intros (t' & Ht' & Hh & _). rewrite Htok in Hh.
        apply bearer_inj in Hh. subst t'.
        congruence.
      * intros r [= <-]. cbn. repeat split; try discriminate.
        intros (t' & [= <-] & Ht' & _). congruence.
  - cbn. split.
    + intros d. split; [discriminate|].
      intros (t' & _ & Hh & _). apply bearer_iff in Hh. congruence.
    + intros r [= <-]. cbn. repeat split; try discriminate.
      intros (t' & ? & _). discriminate.
Qed.

End Gate.

End AuthGateFacts.

(** * Signup, login and the authorization gate together *)

Module AuthFlowFacts.

Import Http Store.

Lemma signup_stores_user
    (objectId : nat -> string) (bcrypt_hash : string -> Z -> string)
    (n e p : string) (clock : nat -> Z) (db : Db) :
  JS.truthy_str n = true ->
  JS.truthy_str e = true ->
  JS.truthy_str p = true ->
  findOne_user db e = None ->
  Signup.POST objectId bcrypt_hash
    (inr {| Signup.name := Some n; Signup.email := Some e;
            Signup.password := Some p |}) None clock db
  = (json (JObj [("success", JBool true);
                 ("user", JObj [("id", JStr (objectId (generated db)));
                                ("name", JStr n);
                                ("email", JStr e)]);
                 ("message", JStr "Account created successfully")]),
     {| users :=
          users db
          ++ [{| user_id := objectId (generated db);
                 user_name := n;
                 user_email := e;
                 user_password := Some (bcrypt_hash p 10);
                 user_role := "user";
                 user_provider := "credentials";
                 user_createdAt := clock 0%nat;
                 user_updatedAt := clock 1%nat |}];
        userStats :=
          userStats db
          ++ [{| stats_userId := objectId (generated db);
                 stats_questionsAsked := 0;
                 stats_topicsLearned := [];
                 stats_totalAccuracy := 0;
                 stats_accuracyCount := 0;
                 stats_lastActiveDate := clock 2%nat;
                 stats_streak := 0;
                 stats_coursesEnrolled := [];
                 stats_createdAt := clock 3%nat;
                 stats_updatedAt := clock 4%nat |}];
        generated := S (S (generated db)) |}).
Proof.
  intros Hn He Hp Hfree. unfold Signup.POST.
  cbn [Signup.name Signup.email Signup.password JS.truthy from_option id].
  rewrite Hn, He, Hp. cbn [negb orb]. rewrite Hfree. reflexivity.
Qed.

Lemma findOne_after_signup (db : Db) (doc : UserDoc) (stats : list UserStatsDoc)
    (g : nat) :
  findOne_user db (user_email doc) = None ->
  findOne_user {| users := users db ++ [doc]; userStats := stats;
                  generated := g |} (user_email doc)
  = Some doc.
Proof.
  intros H. unfold findOne_user in *. cbn.
  apply AuthFacts.find_app_None; [assumption | apply String.eqb_refl].
Qed.

Section Flow.

Variable env : Process.Env.
Variable jwt : Jwt.Library.
Variable objectId : nat -> string.
Variable bcrypt_hash : string -> Z -> string.
Variable bcrypt_compare : string -> option string -> string + bool.
Variable stringify : Browser.Value -> string.

(** X13.  An account created by the signup route can log in with the same
    password, and the token the login route returns, once stored by the
    auth provider and sent with [getAuthHeaders], passes [requireAuth],
    which yields the id, name and email of the account; this holds until
    the token expires, for a bcrypt that matches a password against its own
    hash and a token library that accepts what it signed. *)
Theorem signup_login_authorize
    (n e p : string) (clock : nat -> Z) (now later : Z) (db : Db) :
  JS.truthy_str n = true ->
  JS.truthy_str e = true ->
  JS.truthy_str p = true ->
  findOne_user db e = None ->
  bcrypt_compare p (Some (bcrypt_hash p 10)) = inr true ->
  Jwt.sound jwt ->
  later / 1000 < now / 1000 + Jwt.thirty_days ->
  let account :=
    {| Jwt.id := objectId (generated db); Jwt.name := n; Jwt.email := e |} in
  let token := Jwt.sign jwt account (Login.JWT_SECRET env) now in
  JS.truthy_str token = true ->
  let db1 :=
    snd (Signup.POST objectId bcrypt_hash
           (inr {| Signup.name := Some n; Signup.email := Some e;
                   Signup.password := Some p |}) None clock db) in
  let localStorage :=
    fst (AuthProvider.login stringify token
           {| Browser.id := Jwt.id account; Browser.name := n;
              Browser.email := e |} ∅ AuthProvider.initial) in
  Login.POST env jwt bcrypt_compare
    (inr {| Login.email := Some e; Login.password := Some p |}) None now db1
  = json (JObj [("success", JBool true);
                ("user", JObj [("id", JStr (Jwt.id account));
                               ("name", JStr n);
                               ("email", JStr e)]);
                ("token", JStr token)]) /\
  AuthGate.requireAuth env jwt (AuthUtils.getAuthHeaders localStorage) later
  = inr {| Jwt.user := account;
           Jwt.iat := now / 1000;
           Jwt.exp := now / 1000 + Jwt.thirty_days |}.
Proof.
  intros Hn He Hp Hfree Hcmp Hsound Hlater. cbn zeta. intros Htoken.
  rewrite (signup_stores_user objectId bcrypt_hash n e p clock db)
    by assumption.
  cbn [snd]. split.
  - unfold Login.POST.
    cbn [Login.email Login.password JS.truthy from_option id].
    rewrite He, Hp. cbn [negb orb].
    match goal with
    | |- context [findOne_user ?d e] =>
        replace (findOne_user d e)
          with (Some {| user_id := objectId (generated db);
                        user_name := n;
                        user_email := e;
                        user_password := Some (bcrypt_hash p 10);
                        user_role := "user";
                        user_provider := "credentials";
                        user_createdAt := clock 0%nat;
                        user_updatedAt := clock 1%nat |})
    end.
    + cbn [user_password user_id user_name user_email]. now rewrite Hcmp.
    + symmetry.
      apply (findOne_after_signup db
               {| user_id := objectId (generated db);
                  user_name := n;
                  user_email := e;
                  user_password := Some (bcrypt_hash p 10);
                  user_role := "user";
                  user_provider := "credentials";
                  user_createdAt := clock 0%nat;
                  user_updatedAt := clock 1%nat |}).
      exact Hfree.
  - unfold AuthGate.requireAuth.
    assert (Hget : AuthGate.getTokenFromRequest
                     (AuthUtils.getAuthHeaders
                        (fst (AuthProvider.login stringify
                                (Jwt.sign jwt
                                   {| Jwt.id := objectId (generated db);
                                      Jwt.name := n; Jwt.email := e |}
                                   (Login.JWT_SECRET env) now)
                                {| Browser.id := objectId (generated db);
                                   Browser.name := n; Browser.email := e |}
                                ∅ AuthProvider.initial)))
                   = Some (Jwt.sign jwt
                             {| Jwt.id := objectId (generated db);
                                Jwt.name := n; Jwt.email := e |}
                             (Login.JWT_SECRET env) now)).
    { apply AuthGateFacts.bearer_iff.
      unfold AuthUtils.getAuthHeaders, AuthUtils.getAuthToken,
        AuthProvider.login. cbn [fst].
      rewrite lookup_insert_ne by discriminate.
      rewrite lookup_insert_eq. cbn [JS.truthy from_option id].
      now rewrite Htoken. }
    cbn [Jwt.id] in Hget |- *. rewrite Hget.
    cbn [JS.truthy from_option id]. rewrite Htoken. cbn [negb].
    unfold AuthMiddleware.verifyToken.
    change (AuthMiddleware.JWT_SECRET env) with (Login.JWT_SECRET env).
    now rewrite (Hsound _ _ _ _ Hlater).
Qed.

End Flow.

Lemma signup_login_authorize_witness :
  let account :=
    {| Jwt.id := AuthFacts.objectId 0; Jwt.name := "Ana";
       Jwt.email := "ana@x.com" |} in
  let token :=
    PlainJwt.sign account "your-secret-key-change-in-production" 5000 in
  let localStorage :=
    fst (AuthProvider.login (fun _ => "{}") token
           {| Browser.id := AuthFacts.objectId 0; Browser.name := "Ana";
              Browser.email := "ana@x.com" |} ∅ AuthProvider.initial) in
  Login.POST AuthFacts.unset PlainJwt.library AuthFacts.bcrypt_compare
    (inr {| Login.email := Some "ana@x.com";
            Login.password := Some "secret1" |}) None 5000 AuthFacts.with_ana
  = json (JObj [("success", JBool true);
                ("user", JObj [("id", JStr (AuthFacts.objectId 0));
                               ("name", JStr "Ana");
                               ("email", JStr "ana@x.com")]);
                ("token", JStr token)]) /\
  AuthGate.requireAuth AuthFacts.unset PlainJwt.library
    (AuthUtils.getAuthHeaders localStorage) 86400000
  = inr {| Jwt.user := account;
           Jwt.iat := 5;
           Jwt.exp := 5 + Jwt.thirty_days |}.
Proof.
  apply (signup_login_authorize AuthFacts.unset PlainJwt.library
           AuthFacts.objectId AuthFacts.bcrypt_hash AuthFacts.bcrypt_compare
           (fun _ => "{}") "Ana" "ana@x.com" "secret1" AuthFacts.tick
           5000 86400000 empty);
    first [ exact PlainJwt.library_sound | reflexivity ].
Defined.

End AuthFlowFacts.

(** * Properties of the browser-side session and its storage partitions *)

Module BrowserStoreFacts.

Import Browser.

(** Scenario data: two users and a JSON codec that knows their objects. *)
Definition ana : User :=
  {| id := "u-ana"; name := "Ana"; email := "ana@x.com" |}.

Definition bob : User :=
  {| id := "u-bob"; name := "Bob"; email := "bob@x.com" |}.

Definition stringify (v : Value) : string :=
  match field "id" v with
  | Some (VStr i) => "{id:" +:+ i +:+ "}"
  | _ => "{}"
  end.

Definition parse (s : string) : option Value :=
  if String.eqb s (stringify (user_value ana)) then Some (user_value ana)
  else if String.eqb s (stringify (user_value bob)) then Some (user_value bob)
  else None.

Lemma stats_key_not_auth (rest : string) :
  "learning_stats_" +:+ rest <> "user"
  /\ "learning_stats_" +:+ rest <> "auth_token".
Proof. split; intros E; simpl in E; discriminate E. Qed.

Lemma stats_key_inj (a b : string) :
  "learning_stats_" +:+ a = "learning_stats_" +:+ b -> a = b.
Proof. intros E. simpl in E. now injection E. Qed.

Section Json.

Variable parse : string -> option Value.
Variable stringify : Value -> string.

(** A user object that survives [JSON.stringify] and [JSON.parse]. *)
Definition survives (u : User) : Prop :=
  JS.truthy_str (stringify (user_value u)) = true /\
  parse (stringify (user_value u)) = Some (user_value u).

Lemma getUserId_stored (u : User) (localStorage : gmap string string) :
  survives u ->
  localStorage !! "user" = Some (stringify (user_value u)) ->
  getUserId parse localStorage
  = if JS.truthy_str (id u) then Some (VStr (id u)) else None.
Proof.
  intros [Ht Hp] Hl. unfold getUserId. rewrite Hl, Ht, Hp. cbn.
  now destruct (JS.truthy_str (id u)).
Qed.

Lemma getUserId_absent (localStorage : gmap string string) :
  localStorage !! "user" = None -> getUserId parse localStorage = None.
Proof. intros Hl. unfold getUserId. now rewrite Hl. Qed.

(** X14.  A session survives a reload: after [login] the mount effect of a
    fresh provider restores the same token and user from [localStorage]
    and reports the session as authenticated. *)
Theorem session_survives_reload (t : string) (u : User)
    (localStorage : gmap string string) (st : AuthProvider.State) :
  JS.truthy_str t = true ->
  survives u ->
  let after := AuthProvider.login stringify t u localStorage st in
  AuthProvider.mount parse (fst after) AuthProvider.initial
  = Some {| AuthProvider.user := Some (user_value u);
            AuthProvider.token := Some t;
            AuthProvider.isLoading := false |} /\
  AuthProvider.isAuthenticated (snd after) = true /\
  AuthUtils.isAuthenticated (fst after) = true.
Proof.
  intros Ht [Hs Hp]. cbn zeta.
  unfold AuthProvider.login, AuthProvider.mount, AuthProvider.isAuthenticated,
    AuthUtils.isAuthenticated, AuthUtils.getAuthToken.
  cbn [fst snd AuthProvider.user AuthProvider.token].
  rewrite lookup_insert_eq, lookup_insert_ne by discriminate.
  rewrite lookup_insert_eq. cbn [JS.truthy from_option Datatypes.id].
  rewrite Ht, Hs, Hp. cbn. rewrite ?Ht. now repeat split.
Qed.

(** X15.  After [logout] nothing of the session is left: a fresh provider
    mounts unauthenticated whatever the store held, both auth helpers
    report no session, no [Authorization] header is built, and every other
    item of [localStorage] is as before. *)
Theorem logout_forgets_session
    (localStorage : gmap string string) (st : AuthProvider.State) :
  let after := AuthProvider.logout localStorage st in
  let storage' := fst (fst after) in
  AuthProvider.mount parse storage' AuthProvider.initial
  = Some {| AuthProvider.user := None;
            AuthProvider.token := None;
            AuthProvider.isLoading := false |} /\
  AuthProvider.isAuthenticated (snd (fst after)) = false /\
  AuthUtils.isAuthenticated storage' = false /\
  AuthUtils.getAuthHeaders storage' = [("Content-Type", "application/json")] /\
  storage' = AuthUtils.logout localStorage /\
  (forall k, k <> "user" -> k <> "auth_token" ->
             storage' !! k = localStorage !! k).
Proof.
  cbn zeta.
  unfold AuthProvider.logout, AuthProvider.mount, AuthProvider.isAuthenticated,
    AuthUtils.isAuthenticated, AuthUtils.getAuthHeaders, AuthUtils.getAuthToken,
    AuthUtils.logout.
  cbn [fst snd AuthProvider.user AuthProvider.token].
  rewrite lookup_delete_eq, lookup_delete_ne by discriminate.
  rewrite lookup_delete_eq. cbn. repeat split.
  intros k Hu Ha. now rewrite !lookup_delete_ne by congruence.
Qed.

(** X16.  The storage partitions follow the identity: once a user with a
    non-empty id has logged in, the learning stats are kept under
    ["learning_stats_" + id] and the chat sessions under
    ["chat_history_" + id]; after [logout] both hooks use their ["guest"]
    keys. *)
Theorem storage_keys_follow_identity (t : string) (u : User)
    (localStorage : gmap string string) (st : AuthProvider.State) :
  survives u ->
  JS.truthy_str (id u) = true ->
  let logged_in := fst (AuthProvider.login stringify t u localStorage st) in
  let logged_out := fst (fst (AuthProvider.logout logged_in st)) in
  StatsStorage.getStorageKey parse logged_in = "learning_stats_" +:+ id u /\
  ChatStorage.getStorageKey parse logged_in = "chat_history_" +:+ id u /\
  StatsStorage.getStorageKey parse logged_out = "learning_stats_guest" /\
  ChatStorage.getStorageKey parse logged_out = "chat_history_guest".
Proof.
  intros Hs Hid. cbn zeta.
  unfold StatsStorage.getStorageKey, ChatStorage.getStorageKey, storageKey.
  rewrite (getUserId_stored u)
    by (try assumption; unfold AuthProvider.login; cbn [fst];
        apply lookup_insert_eq).
  rewrite Hid.
  rewrite getUserId_absent
    by (unfold AuthProvider.logout; cbn [fst]; apply lookup_delete_eq).
  now repeat split.
Qed.

End Json.

Lemma ana_survives : survives parse stringify ana.
Proof. split; reflexivity. Qed.

Lemma bob_survives : survives parse stringify bob.
Proof. split; reflexivity. Qed.

Lemma session_survives_reload_witness :
  let after := AuthProvider.login stringify "abc.def.ghi" ana ∅
                 AuthProvider.initial in
  AuthProvider.mount parse (fst after) AuthProvider.initial
  = Some {| AuthProvider.user := Some (user_value ana);
            AuthProvider.token := Some "abc.def.ghi";
            AuthProvider.isLoading := false |} /\
  AuthProvider.isAuthenticated (snd after) = true /\
  AuthUtils.isAuthenticated (fst after) = true.
Proof.
  apply (session_survives_reload parse stringify "abc.def.ghi" ana ∅
           AuthProvider.initial);
    [reflexivity | exact ana_survives].
Defined.

Lemma storage_keys_follow_identity_witness :
  let logged_in :=
    fst (AuthProvider.login stringify "abc.def.ghi" ana ∅
           AuthProvider.initial) in
  let logged_out :=
    fst (fst (AuthProvider.logout logged_in AuthProvider.initial)) in
  StatsStorage.getStorageKey parse logged_in = "learning_stats_u-ana" /\
  ChatStorage.getStorageKey parse logged_in = "chat_history_u-ana" /\
  StatsStorage.getStorageKey parse logged_out = "learning_stats_guest" /\
  ChatStorage.getStorageKey parse logged_out = "chat_history_guest".
Proof.
  apply (storage_keys_follow_identity parse stringify "abc.def.ghi" ana ∅
           AuthProvider.initial);
    [exact ana_survives | reflexivity].
Defined.

Section Stats.

Variable parse : string -> option Value.
Variable stringify : Value -> string.
Variable encode : LearningStats.LearningStats -> string.
Variable decode : string -> option LearningStats.LearningStats.

Lemma stats_key_after_save (stats : LearningStats.LearningStats)
    (localStorage : gmap string string) :
  StatsStorage.getStorageKey parse
    (StatsStorage.save parse encode stats localStorage)
  = StatsStorage.getStorageKey parse localStorage.
Proof.
  unfold StatsStorage.save, StatsStorage.getStorageKey, storageKey, getUserId
    at 1.
  rewrite lookup_insert_ne.
  - reflexivity.
  - unfold storageKey. destruct (getUserId parse localStorage);
      apply stats_key_not_auth.
Qed.

Lemma load_after_save (stats : LearningStats.LearningStats)
    (localStorage : gmap string string) :
  StatsStorage.load parse decode
    (StatsStorage.save parse encode stats localStorage)
  = if JS.truthy_str (encode stats)
    then match decode (encode stats) with
         | Some parsedStats => parsedStats
         | None => LearningStats.getDefaultStats
         end
    else LearningStats.getDefaultStats.
Proof.
  unfold StatsStorage.load. rewrite stats_key_after_save.
  unfold StatsStorage.save. now rewrite lookup_insert_eq.
Qed.

(** X17.  What the hook saved is what it loads: for stats that survive
    [JSON.stringify] and [JSON.parse], loading after a save under the same
    identity returns them; and after [resetStats] the hook loads the default
    stats. *)
Theorem saved_stats_are_loaded (stats : LearningStats.LearningStats)
    (localStorage : gmap string string) :
  JS.truthy_str (encode stats) = true ->
  decode (encode stats) = Some stats ->
  decode (encode LearningStats.getDefaultStats)
  = Some LearningStats.getDefaultStats ->
  StatsStorage.load parse decode
    (StatsStorage.save parse encode stats localStorage) = stats /\
  StatsStorage.load parse decode
    (snd (StatsStorage.resetStats parse encode
            (StatsStorage.save parse encode stats localStorage)))
  = LearningStats.getDefaultStats.
Proof.
  intros Ht Hd Hdef. split.
  - now rewrite load_after_save, Ht, Hd.
  - unfold StatsStorage.resetStats. cbn [snd].
    rewrite load_after_save, Hdef.
    now destruct (JS.truthy_str (encode LearningStats.getDefaultStats)).
Qed.

(** X18.  The partitions do not leak: when one identity (a user, or the
    guest) saves its stats and then another user logs in on the same
    browser, what that user loads is what the user would have loaded had
    the first never saved. *)
Theorem stats_do_not_leak_between_users
    (statsA : LearningStats.LearningStats) (t : string) (b : User)
    (localStorage : gmap string string) (st : AuthProvider.State) :
  survives parse stringify b ->
  JS.truthy_str (id b) = true ->
  StatsStorage.getStorageKey parse localStorage
  <> "learning_stats_" +:+ id b ->
  StatsStorage.load parse decode
    (fst (AuthProvider.login stringify t b
            (StatsStorage.save parse encode statsA localStorage) st))
  = StatsStorage.load parse decode
      (fst (AuthProvider.login stringify t b localStorage st)).
Proof.
  intros Hs Hid Hother.
  assert (Hkey : forall storage,
             StatsStorage.getStorageKey parse
               (fst (AuthProvider.login stringify t b storage st))
             = "learning_stats_" +:+ id b).
  { intros storage. unfold StatsStorage.getStorageKey, storageKey.
    rewrite (getUserId_stored parse stringify b)
      by (try assumption; unfold AuthProvider.login; cbn [fst];
          apply lookup_insert_eq).
    now rewrite Hid. }
  unfold StatsStorage.load. rewrite !Hkey.
  unfold AuthProvider.login, StatsStorage.save. cbn [fst].
  destruct (stats_key_not_auth (id b)) as [Hu Ha].
  rewrite !(lookup_insert_ne _ "user") by congruence.
  rewrite !(lookup_insert_ne _ "auth_token") by congruence.
  now rewrite lookup_insert_ne by exact Hother.
Qed.

End Stats.

(** A codec for the stats of the scenarios: the default stats and those of
    a learner on a streak. *)
Definition encode (s : LearningStats.LearningStats) : string :=
  "streak:" +:+ JS.number_toString (LearningStats.streakDays s).

Definition decode (s : string) : option LearningStats.LearningStats :=
  if String.eqb s (encode LearningStats.getDefaultStats)
  then Some LearningStats.getDefaultStats
  else if String.eqb s (encode LearningStatsFacts.on_a_streak)
  then Some LearningStatsFacts.on_a_streak
  else None.

Lemma saved_stats_are_loaded_witness :
  let stored :=
    StatsStorage.save parse encode LearningStatsFacts.on_a_streak
      (fst (AuthProvider.login stringify "abc.def.ghi" ana ∅
              AuthProvider.initial)) in
  StatsStorage.load parse decode stored = LearningStatsFacts.on_a_streak /\
  StatsStorage.load parse decode
    (snd (StatsStorage.resetStats parse encode stored))
  = LearningStats.getDefaultStats.
Proof.
  apply (saved_stats_are_loaded parse encode decode
           LearningStatsFacts.on_a_streak
           (fst (AuthProvider.login stringify "abc.def.ghi" ana ∅
                   AuthProvider.initial)));
    reflexivity.
Defined.

Lemma stats_do_not_leak_between_users_witness :
  let as_ana :=
    fst (AuthProvider.login stringify "abc.def.ghi" ana ∅
           AuthProvider.initial) in
  StatsStorage.load parse decode
    (fst (AuthProvider.login stringify "jkl.mno.pqr" bob
            (StatsStorage.save parse encode LearningStatsFacts.on_a_streak
               as_ana) AuthProvider.initial))
  = StatsStorage.load parse decode
      (fst (AuthProvider.login stringify "jkl.mno.pqr" bob as_ana
              AuthProvider.initial)).
Proof.
  apply (stats_do_not_leak_between_users parse stringify encode decode
           LearningStatsFacts.on_a_streak "jkl.mno.pqr" bob
           (fst (AuthProvider.login stringify "abc.def.ghi" ana ∅
                   AuthProvider.initial)) AuthProvider.initial);
    [exact bob_survives | reflexivity | vm_compute; discriminate].
Defined.

End BrowserStoreFacts.

(** * More on the learning statistics: topics, counters and streaks *)

Module StatsInvariants.

Import LearningStats LearningStatsFacts.

(** At most twenty topics, none twice. *)
Definition topics_ok (s : LearningStats) : Prop :=
  (length (topicsLearned s) <= 20)%nat /\ NoDup (topicsLearned s).

(** The counters are sound: nothing negative, never more correct answers
    than attempts. *)
Definition counters_ok (s : LearningStats) : Prop :=
  0 <= questionsAsked s /\ 0 <= totalCorrect s <= totalAttempts s /\
  0 <= streakDays s.

Lemma includes_spec (l : list string) (x : string) :
  includes l x = true <-> x ∈ l.
Proof.
  unfold includes. rewrite existsb_exists. split.
  - intros (y & Hin & Heq). apply String.eqb_eq in Heq. subst y.
    now apply list_elem_of_In.
  - intros Hin. exists x. split; [now apply list_elem_of_In|].
    apply String.eqb_refl.
Qed.

Definition is_reset (a : Action) : bool :=
  match a with ResetStats => true | _ => false end.

Definition asked (a : Action) : Z :=
  match a with IncrementQuestions _ _ => 1 | _ => 0 end.

Definition attempted (a : Action) : Z :=
  match a with RecordAnswer _ _ _ _ _ => 1 | _ => 0 end.

Definition answered_right (a : Action) : Z :=
  match a with RecordAnswer _ _ _ _ true => 1 | _ => 0 end.

Definition total (f : Action -> Z) (actions : list Action) : Z :=
  fold_right (fun a n => f a + n) 0 actions.

Section Stats.

Variable isoDate : Z -> string.
Variable weekday : Z -> string.

Lemma updateStreak_fields (t_new t_now : Z) (s : LearningStats) :
  questionsAsked (updateStreak isoDate t_new t_now s) = questionsAsked s /\
  topicsLearned (updateStreak isoDate t_new t_now s) = topicsLearned s /\
  totalCorrect (updateStreak isoDate t_new t_now s) = totalCorrect s /\
  totalAttempts (updateStreak isoDate t_new t_now s) = totalAttempts s /\
  (0 <= streakDays s -> 0 <= streakDays (updateStreak isoDate t_new t_now s)).
Proof.
  unfold updateStreak.
  destruct (String.eqb _ (isoDate t_new)); [easy|].
  destruct (String.eqb _ _); cbn; repeat split; try lia.
  now destruct (JS.truthy_str _).
Qed.

Lemma addTopic_topics (t_new t_now : Z) (topic : string) (s : LearningStats) :
  topicsLearned (addTopic isoDate t_new t_now topic s)
  = if includes (topicsLearned s) topic
    then topicsLearned s
    else slice_last 20 (topicsLearned s ++ [topic]).
Proof.
  unfold addTopic. destruct (includes _ _); [reflexivity|]. cbn.
  now destruct (updateStreak_fields t_new t_now s) as (_ & -> & _).
Qed.

Lemma addTopic_contains (t_new t_now : Z) (topic : string) (s : LearningStats) :
  topic ∈ topicsLearned (addTopic isoDate t_new t_now topic s).
Proof.
  rewrite addTopic_topics.
  destruct (includes _ _) eqn:E; [now apply includes_spec|].
  apply slice_last_keeps_last. lia.
Qed.

Lemma step_topics_ok (s : LearningStats) (a : Action) :
  topics_ok s -> topics_ok (step isoDate weekday s a).
Proof.
  intros [Hlen Hdup]. unfold topics_ok.
  destruct a as [t1 t2|t1 t2 topic|t1 t2 t3 t4 c|]; cbn [step].
  - unfold incrementQuestions. cbn.
    now destruct (updateStreak_fields t1 t2 s) as (_ & -> & _).
  - rewrite addTopic_topics.
    destruct (includes _ _) eqn:E; [easy|].
    split; [apply slice_last_length|].
    unfold slice_last. eapply sublist_NoDup; [|apply sublist_drop].
    apply NoDup_app. repeat split; [assumption | | apply NoDup_singleton].
    intros x Hx Hin. apply list_elem_of_singleton in Hin. subst x.
    apply includes_spec in Hx. congruence.
  - unfold recordAnswer. cbn.
    now destruct (updateStreak_fields t1 t2 s) as (_ & -> & _).
  - split; [cbn; lia | constructor].
Qed.

(** X19.  In every state the hook reaches from the default stats there are
    at most 20 learned topics and none occurs twice.  Adding a topic makes
    it a learned topic, and adding it again changes nothing, whatever the
    clock reads: not even the streak is touched. *)
Theorem topics_distinct_capped_idempotent :
  (forall actions, topics_ok (run isoDate weekday actions getDefaultStats)) /\
  (forall t_new t_now topic s,
      topic ∈ topicsLearned (addTopic isoDate t_new t_now topic s)) /\
  (forall t_new t_now t_new' t_now' topic s,
      addTopic isoDate t_new' t_now' topic
        (addTopic isoDate t_new t_now topic s)
      = addTopic isoDate t_new t_now topic s).
Proof.
  split; [|split].
  - intros actions.
    assert (H : forall s, topics_ok s ->
                          topics_ok (run isoDate weekday actions s)).
    { induction actions as [|a actions IH]; intros s Hs; [assumption|].
      apply IH, step_topics_ok, Hs. }
    apply H. split; [cbn; lia | constructor].
  - apply addTopic_contains.
  - intros t_new t_now t_new' t_now' topic s.
    pose proof (addTopic_contains t_new t_now topic s) as Hin.
    apply includes_spec in Hin.
    unfold addTopic at 1. now rewrite Hin.
Qed.

Lemma step_counters_ok (s : LearningStats) (a : Action) :
  counters_ok s -> counters_ok (step isoDate weekday s a).
Proof.
  intros (Hq & Hc & Hs). unfold counters_ok.
  destruct a as [t1 t2|t1 t2 topic|t1 t2 t3 t4 c|]; cbn [step].
  - unfold incrementQuestions. cbn.
    destruct (updateStreak_fields t1 t2 s) as (-> & _ & -> & -> & H).
    specialize (H Hs). lia.
  - unfold addTopic. destruct (includes _ _); [easy|]. cbn.
    destruct (updateStreak_fields t1 t2 s) as (-> & _ & -> & -> & H).
    specialize (H Hs). lia.
  - unfold recordAnswer. cbn.
    destruct (updateStreak_fields t1 t2 s) as (-> & _ & -> & -> & H).
    specialize (H Hs). destruct c; lia.
  - cbn. lia.
Qed.

(** X20.  In every state the hook reaches from the default stats the
    counters are sound: [questionsAsked] and [streakDays] are not negative
    and [0 <= totalCorrect <= totalAttempts]. *)
Theorem counters_stay_sound (actions : list Action) :
  counters_ok (run isoDate weekday actions getDefaultStats).
Proof.
  assert (H : forall s, counters_ok s ->
                        counters_ok (run isoDate weekday actions s)).
  { induction actions as [|a actions IH]; intros s Hs; [assumption|].
    apply IH, step_counters_ok, Hs. }
  apply H. unfold counters_ok. cbn. lia.
Qed.

Lemma step_counts (s : LearningStats) (a : Action) :
  is_reset a = false ->
  questionsAsked (step isoDate weekday s a) = questionsAsked s + asked a /\
  totalAttempts (step isoDate weekday s a) = totalAttempts s + attempted a /\
  totalCorrect (step isoDate weekday s a) = totalCorrect s + answered_right a.
Proof.
  destruct a as [t1 t2|t1 t2 topic|t1 t2 t3 t4 c|]; cbn [step is_reset];
    [| | |discriminate]; intros _.
  - unfold incrementQuestions. cbn.
    destruct (updateStreak_fields t1 t2 s) as (-> & _ & -> & -> & _). lia.
  - unfold addTopic. destruct (includes _ _); [cbn; lia|]. cbn.
    destruct (updateStreak_fields t1 t2 s) as (-> & _ & -> & -> & _). lia.
  - unfold recordAnswer. cbn.
    destruct (updateStreak_fields t1 t2 s) as (-> & _ & -> & -> & _).
    destruct c; cbn; lia.
Qed.

(** X21.  Over any run of mutations without a reset, [questionsAsked] grows
    by the number of [incrementQuestions] calls, [totalAttempts] by the
    number of [recordAnswer] calls and [totalCorrect] by the number of those
    with a correct answer; adding topics changes none of them. *)
Theorem counters_count_calls (actions : list Action) (s : LearningStats) :
  forallb (fun a => negb (is_reset a)) actions = true ->
  let s' := run isoDate weekday actions s in
  questionsAsked s' = questionsAsked s + total asked actions /\
  totalAttempts s' = totalAttempts s + total attempted actions /\
  totalCorrect s' = totalCorrect s + total answered_right actions.
Proof.
  cbn zeta. revert s. induction actions as [|a actions IH]; intros s Hno.
  - cbn. lia.
  - cbn in Hno. apply andb_true_iff in Hno as [Ha Hrest].
    apply negb_true_iff in Ha.
    destruct (step_counts s a Ha) as (Hq & Ht & Hc).
    destruct (IH (step isoDate weekday s a) Hrest) as (Hq' & Ht' & Hc').
    cbn [run fold_left total fold_right] in *.
    unfold run in Hq', Ht', Hc'. rewrite Hq', Ht', Hc', Hq, Ht, Hc.
    unfold total. lia.
Qed.

End Stats.

Lemma counters_count_calls_witness :
  let actions :=
    [IncrementQuestions 5 5; AddTopic 6 6 "Algebra";
     RecordAnswer 7 7 7 7 true; IncrementQuestions 8 8;
     RecordAnswer 9 9 9 9 false] in
  let s' := run dayNumber weekdayName actions getDefaultStats in
  questionsAsked s' = questionsAsked getDefaultStats + total asked actions /\
  totalAttempts s' = totalAttempts getDefaultStats + total attempted actions /\
  totalCorrect s'
  = totalCorrect getDefaultStats + total answered_right actions.
Proof.
  apply (counters_count_calls dayNumber weekdayName
           [IncrementQuestions 5 5; AddTopic 6 6 "Algebra";
            RecordAnswer 7 7 7 7 true; IncrementQuestions 8 8;
            RecordAnswer 9 9 9 9 false] getDefaultStats).
  reflexivity.
Defined.

End StatsInvariants.

(** * The streak counts consecutive days *)

Module StreakFacts.

Import LearningStats LearningStatsFacts.

Lemma number_toString_nonempty (z : Z) : JS.number_toString z <> "".
Proof.
  intros E. pose proof (JSFacts.number_toString_parse z) as H.
  rewrite E in H. discriminate H.
Qed.



Section Streak.

Variable isoDate : Z -> string.
Variable weekday : Z -> string.
Hypothesis isoDate_days : names_utc_days isoDate.
Hypothesis isoDate_nonempty : forall t, isoDate t <> "".





End Streak.


End StreakFacts.

(** * More on the chat sessions: messages, titles, lookup and deletion *)

Module SessionFacts.

Import ChatHistory ChatQueries.

Lemma length_append (a b : string) :
  String.length (a +:+ b) = (String.length a + String.length b)%nat.
Proof. induction a as [|c a IH]; simpl; [reflexivity | now rewrite IH]. Qed.

Lemma append_empty (s : string) : s +:+ "" = s.
Proof.
  induction s as [|c s IH]; [reflexivity|].
  change (String c (s +:+ "") = String c s). now rewrite IH.
Qed.

Lemma length_substring0 (n : nat) (s : string) :
  String.length (String.substring 0 n s) = Nat.min n (String.length s).
Proof.
  revert s. induction n as [|n IH]; intros [|c s]; cbn; try reflexivity.
  now rewrite IH.
Qed.

Lemma substring0_short (n : nat) (s : string) :
  (String.length s <= n)%nat -> String.substring 0 n s = s.
Proof.
  revert s. induction n as [|n IH]; intros [|c s]; cbn; try reflexivity;
    try lia.
  intros H. rewrite IH by lia. reflexivity.
Qed.

(** X23.  A title made from a message is never longer than 53 characters: a
    message of at most 50 characters is its own title, a longer one gives
    its first 50 characters followed by ["..."]. *)
Theorem title_is_clipped_message (text : string) :
  (String.length (titleOf text) <= 53)%nat /\
  ((String.length text <= 50)%nat -> titleOf text = text) /\
  ((50 < String.length text)%nat ->
   titleOf text = String.substring 0 50 text +:+ "..."
   /\ String.length (titleOf text) = 53%nat).
Proof.
  unfold titleOf. destruct (Nat.ltb_spec 50 (String.length text)) as [H|H].
  - rewrite length_append, length_substring0. cbn [String.length].
    repeat split; try lia.
  - rewrite length_append, length_substring0. cbn [String.length].
    repeat split; try lia.
    intros _. rewrite substring0_short by assumption.
    apply append_empty.
Qed.

Section Sessions.

Variable toISOString : Z -> string.

(** The message [addMessage] builds and what it does to one session. *)
Definition message_of (t_id t_stamp : Z) (r : Role) (text : string)
  : ChatMessage :=
  {| message_id := JS.number_toString t_id;
     role := r;
     content := text;
     timestamp := toISOString t_stamp |}.

Definition with_message (t_updated : Z) (m : ChatMessage) (s : ChatSession)
  : ChatSession :=
  {| id := id s;
     title := match messages s, role m with
              | [], user => titleOf (content m)
              | _, _ => title s
              end;
     messages := messages s ++ [m];
     createdAt := createdAt s;
     updatedAt := toISOString t_updated |}.

Lemma addMessage_sessions (t_id t_stamp t_updated : Z) (sessionId : string)
    (r : Role) (text : string) (st : State) :
  sessions (snd (addMessage toISOString t_id t_stamp t_updated sessionId r
                   text st))
  = (fun s => if String.eqb (id s) sessionId
              then with_message t_updated (message_of t_id t_stamp r text) s
              else s) <$> sessions st.
Proof. reflexivity. Qed.

(** X24.  [addMessage] keeps the number, the order and the ids of the
    sessions and the current session; a session with another id is left
    as it is; a session with the given id keeps its messages and gets the
    new one at the end, and its title changes only if this is its first
    message and comes from the user.  When no session has the given id the
    message is dropped: the state is unchanged. *)
Theorem addMessage_touches_only_its_session
    (t_id t_stamp t_updated : Z) (sessionId : string) (r : Role)
    (text : string) (st : State) :
  let m := message_of t_id t_stamp r text in
  let st' := snd (addMessage toISOString t_id t_stamp t_updated sessionId r
                    text st) in
  fst (addMessage toISOString t_id t_stamp t_updated sessionId r text st) = m /\
  currentSessionId st' = currentSessionId st /\
  id <$> sessions st' = id <$> sessions st /\
  (forall i s,
      sessions st !! i = Some s ->
      exists s',
        sessions st' !! i = Some s' /\
        (id s <> sessionId -> s' = s) /\
        (id s = sessionId ->
         messages s' = messages s ++ [m] /\
         createdAt s' = createdAt s /\
         (messages s <> [] \/ r = assistant -> title s' = title s) /\
         (messages s = [] -> r = user -> title s' = titleOf text))) /\
  ((forall s, s ∈ sessions st -> id s <> sessionId) -> st' = st).
Proof.
  cbn zeta. split; [reflexivity|]. split; [reflexivity|].
  rewrite addMessage_sessions. split; [|split].
  - rewrite <- list_fmap_compose. apply list_fmap_ext.
    intros i s _. cbn. now destruct (String.eqb _ _).
  - intros i s Hs. rewrite list_lookup_fmap, Hs. cbn.
    destruct (String.eqb_spec (id s) sessionId) as [E|E].
    + eexists. split; [reflexivity|]. split; [easy|]. intros _. cbn.
      repeat split.
      * intros [H| ->]; [now destruct (messages s)|].
        now destruct (messages s).
      * now intros -> ->.
    + exists s. repeat split; easy.
  - intros Hnone. destruct st as [l c]. cbn in *. f_equal.
    induction l as [|s l IH]; [reflexivity|]. cbn.
    destruct (String.eqb_spec (id s) sessionId) as [E|E].
    + exfalso. apply (Hnone s); [apply list_elem_of_here | assumption].
    + f_equal. apply IH. intros s' Hs'. apply Hnone.
      now apply list_elem_of_further.
Qed.

(** X25.  The session [createSession] makes is the current one: it is the
    first of the list, even when the list was full, and both
    [getCurrentSession] and [getSession] with the returned id find it,
    empty and titled ["New Chat"]. *)
Theorem created_session_is_current (t_id t_created t_updated : Z) (st : State) :
  let created := newSession toISOString t_id t_created t_updated in
  let out := createSession toISOString t_id t_created t_updated st in
  fst out = JS.number_toString t_id /\
  head (sessions (snd out)) = Some created /\
  getCurrentSession (snd out) = Some created /\
  getSession (fst out) (snd out) = Some created /\
  title created = "New Chat" /\ messages created = [].
Proof.
  cbn zeta. unfold createSession, getCurrentSession, getSession.
  cbn [fst snd sessions currentSessionId MAX_SESSIONS take head List.find].
  cbn [newSession id]. rewrite String.eqb_refl.
  assert (Ht : JS.truthy_str (JS.number_toString t_id) = true).
  { destruct (JS.number_toString t_id) eqn:E; [|reflexivity].
    now apply StreakFacts.number_toString_nonempty in E. }
  rewrite Ht. now repeat split.
Qed.

Lemma find_filter_out (sessionId : string) (l : list ChatSession) :
  List.find (fun s => String.eqb (id s) sessionId)
    (filter (fun s => id s <> sessionId) l) = None.
Proof.
  induction l as [|s l IH]; [reflexivity|].
  rewrite filter_cons. destruct (decide (id s <> sessionId)) as [H|H];
    [|assumption].
  cbn. apply String.eqb_neq in H. now rewrite H.
Qed.

Lemma find_filter_other (sessionId other : string) (l : list ChatSession) :
  other <> sessionId ->
  List.find (fun s => String.eqb (id s) other)
    (filter (fun s => id s <> sessionId) l)
  = List.find (fun s => String.eqb (id s) other) l.
Proof.
  intros Hne. induction l as [|s l IH]; [reflexivity|].
  rewrite filter_cons. destruct (decide (id s <> sessionId)) as [H|H]; cbn.
  - now rewrite IH.
  - apply dec_stable in H. rewrite IH.
    destruct (String.eqb_spec (id s) other); [congruence | reflexivity].
Qed.

(** X26.  After [deleteSession] no session with that id can be found;
    looking up any other id gives what it gave before; the current session
    is cleared exactly when it was the deleted one, and is otherwise
    kept. *)
Theorem deleted_session_is_gone (sessionId : string) (st : State) :
  let st' := deleteSession sessionId st in
  getSession sessionId st' = None /\
  (forall other, other <> sessionId ->
                 getSession other st' = getSession other st) /\
  (currentSessionId st = Some sessionId ->
   currentSessionId st' = None /\ getCurrentSession st' = None) /\
  (currentSessionId st <> Some sessionId ->
   currentSessionId st' = currentSessionId st
   /\ getCurrentSession st' = getCurrentSession st) /\
  sessions st' `sublist_of` sessions st.
Proof.
  cbn zeta. unfold deleteSession, getCurrentSession, getSession.
  cbn [sessions currentSessionId]. split; [apply find_filter_out|].
  split; [intros other Hne; now apply find_filter_other|].
  split; [|split].
  - intros ->. now rewrite String.eqb_refl.
  - intros Hcur. destruct (currentSessionId st) as [c|]; [|easy].
    destruct (String.eqb_spec c sessionId) as [->|Hne]; [congruence|].
    split; [reflexivity|].
    destruct (JS.truthy_str c); [|reflexivity].
    now apply find_filter_other.
  - apply sublist_filter.
Qed.

(** X27.  A new session becomes visible with its first message: after
    [createSession] and an [addMessage] from the user with the returned
    id, the first session the hook lists is the new one, holding that
    message and titled after it. *)
Theorem first_message_lists_session
    (t_id t_created t_updated m_id m_stamp m_updated : Z) (text : string)
    (st : State) :
  let created := createSession toISOString t_id t_created t_updated st in
  let sent := addMessage toISOString m_id m_stamp m_updated (fst created)
                user text (snd created) in
  sessionsWithMessages (snd created)
  = sessionsWithMessages
      {| sessions := drop 1 (sessions (snd created));
         currentSessionId := None |} /\
  head (sessionsWithMessages (snd sent))
  = Some {| id := JS.number_toString t_id;
            title := titleOf text;
            messages := [fst sent];
            createdAt := toISOString t_created;
            updatedAt := toISOString m_updated |} /\
  currentSessionId (snd sent) = Some (JS.number_toString t_id).
Proof.
  cbn zeta. unfold sessionsWithMessages, createSession, addMessage.
  cbn [fst snd sessions currentSessionId MAX_SESSIONS take map drop].
  cbn [newSession id messages title createdAt].
  rewrite String.eqb_refl. split; [|split; [|reflexivity]].
  - rewrite filter_cons_False; [reflexivity | cbn; lia].
  - rewrite filter_cons_True; [reflexivity | cbn; lia].
Qed.

End Sessions.

Lemma addMessage_touches_only_its_session_witness :
  let st := snd (createSession JS.number_toString 10 11 12 initial) in
  snd (addMessage JS.number_toString 20 21 22 "no-such-session" user "hello"
         st) = st.
Proof.
  apply (proj2 (proj2 (proj2 (proj2
           (addMessage_touches_only_its_session JS.number_toString 20 21 22
              "no-such-session" user "hello"
              (snd (createSession JS.number_toString 10 11 12 initial))))))).
  intros s Hs. apply list_elem_of_singleton in Hs. subst s. discriminate.
Defined.

End SessionFacts.

(** * More on signup: what it writes *)

Module SignupFacts.

Import Http Store.

Lemma findOne_None (db : Db) (e : string) :
  findOne_user db e = None <-> e ∉ user_email <$> users db.
Proof.
  unfold findOne_user. induction (users db) as [|u l IH]; cbn.
  - split; [intros _ H; inversion H | reflexivity].
  - destruct (String.eqb_spec (user_email u) e) as [E|E].
    + split; [discriminate|]. intros H. exfalso. apply H. rewrite E.
      apply list_elem_of_here.
    + rewrite IH. split.
      * intros H Hin. apply elem_of_cons in Hin as [->|Hin]; [easy|].
        contradiction.
      * intros H Hin. apply H. now apply list_elem_of_further.
Qed.

Section Handler.

Variable objectId : nat -> string.
Variable bcrypt_hash : string -> Z -> string.

(** When no operation after the connection rejects, the handler with
    rejections is the handler of [Signup]. *)
Lemma POST_when_operations_resolve
    (req : string + Signup.Body) (connectDB : option string)
    (clock : nat -> Z) (db : Db) :
  SignupRoute.POST objectId bcrypt_hash req
    {| SignupRoute.connectDB := connectDB;
       SignupRoute.findOne := None;
       SignupRoute.hash := None;
       SignupRoute.insertUser := None;
       SignupRoute.insertStats := None |} clock db
  = Signup.POST objectId bcrypt_hash req connectDB clock db.
Proof.
  unfold SignupRoute.POST, Signup.POST, SignupRoute.caught.
  destruct req as [error|b]; [reflexivity|].
  destruct (negb (JS.truthy (Signup.name b)) || negb (JS.truthy (Signup.email b))
            || negb (JS.truthy (Signup.password b))); [reflexivity|].
  cbn [SignupRoute.connectDB SignupRoute.findOne SignupRoute.hash
       SignupRoute.insertUser SignupRoute.insertStats].
  destruct connectDB; [reflexivity|].
  destruct (findOne_user db _); reflexivity.
Qed.

Ltac signup_leaf :=
  cbn;
  split; [auto|];
  split; [intros H; first [discriminate H | reflexivity]|];
  split; intros H; try discriminate H;
  try (split; [reflexivity | left; reflexivity]).

(** The stats insert rejects: the handler answers 500 and the user
    document stays. *)
Lemma stats_rejection_leaves_user (n e p error : string) (clock : nat -> Z)
    (db : Db) :
  JS.truthy_str n = true -> JS.truthy_str e = true ->
  JS.truthy_str p = true ->
  findOne_user db e = None ->
  SignupRoute.POST objectId bcrypt_hash
    (inr {| Signup.name := Some n; Signup.email := Some e;
            Signup.password := Some p |})
    {| SignupRoute.connectDB := None;
       SignupRoute.findOne := None;
       SignupRoute.hash := None;
       SignupRoute.insertUser := None;
       SignupRoute.insertStats := Some error |} clock db
  = SignupRoute.caught error
      {| users :=
           users db
           ++ [{| user_id := objectId (generated db);
                  user_name := n;
                  user_email := e;
                  user_password := Some (bcrypt_hash p 10);
                  user_role := "user";
                  user_provider := "credentials";
                  user_createdAt := clock 0%nat;
                  user_updatedAt := clock 1%nat |}];
         userStats := userStats db;
         generated := S (S (generated db)) |}.
Proof.
  intros Hn He Hp Hfree. unfold SignupRoute.POST.
  cbn [Signup.name Signup.email Signup.password JS.truthy from_option id].
  rewrite Hn, He, Hp. cbn [negb orb].
  cbn [SignupRoute.connectDB SignupRoute.findOne SignupRoute.hash
       SignupRoute.insertUser SignupRoute.insertStats].
  rewrite Hfree. reflexivity.
Qed.

Lemma signup_outcomes
    (req : string + Signup.Body) (awaits : SignupRoute.Awaits)
    (clock : nat -> Z) (db : Db) :
  let out := SignupRoute.POST objectId bcrypt_hash req awaits clock db in
  (status (fst out) = 200 \/ status (fst out) = 400
   \/ status (fst out) = 500) /\
  (status (fst out) = 400 -> snd out = db) /\
  (status (fst out) = 200 ->
   exists n e p doc stats,
     req = inr {| Signup.name := Some n; Signup.email := Some e;
                  Signup.password := Some p |} /\
     users (snd out) = users db ++ [doc] /\
     userStats (snd out) = userStats db ++ [stats] /\
     user_name doc = n /\ user_email doc = e /\
     user_password doc = Some (bcrypt_hash p 10) /\
     user_role doc = "user" /\
     stats_userId stats = user_id doc /\
     stats_questionsAsked stats = 0 /\ stats_streak stats = 0 /\
     stats_topicsLearned stats = []) /\
  (status (fst out) = 500 ->
   userStats (snd out) = userStats db /\
   (users (snd out) = users db \/
    exists n e p error,
      req = inr {| Signup.name := Some n; Signup.email := Some e;
                   Signup.password := Some p |} /\
      SignupRoute.insertStats awaits = Some error /\
      findOne_user db e = None /\
      users (snd out)
      = users db
        ++ [{| user_id := objectId (generated db);
               user_name := n;
               user_email := e;
               user_password := Some (bcrypt_hash p 10);
               user_role := "user";
               user_provider := "credentials";
               user_createdAt := clock 0%nat;
               user_updatedAt := clock 1%nat |}])).
Proof.
  cbn zeta. unfold SignupRoute.POST, SignupRoute.caught.
  destruct req as [error|[n e p]]; [signup_leaf|].
  cbn [Signup.name Signup.email Signup.password].
  destruct n as [n|], e as [e|], p as [p|]; cbn [JS.truthy];
    repeat match goal with
           | |- context [JS.truthy_str ?x] => destruct (JS.truthy_str x)
           end;
    cbn [negb orb]; try solve [signup_leaf].
  cbn [from_option id].
  destruct awaits as [c f h iu ist].
  cbn [SignupRoute.connectDB SignupRoute.findOne SignupRoute.hash
       SignupRoute.insertUser SignupRoute.insertStats].
  destruct c; [signup_leaf|]. destruct f; [signup_leaf|].
  destruct (findOne_user db e) eqn:Hfree; [signup_leaf|].
  destruct h; [signup_leaf|]. destruct iu; [signup_leaf|].
  destruct ist as [error|].
  - signup_leaf. split; [reflexivity|]. right. now exists n, e, p, error.
  - signup_leaf. eexists n, e, p, _, _. repeat split.
Qed.

(** X28.  The signup route answers 200, 400 or 500.  With 400 the store is
    unchanged.  With 200 exactly one user document and one stats document
    have been appended, the user with role ["user"], the requested name
    and email and the hash of the password, the stats zeroed and tied to
    the user's id.  With 500 no stats document has been written, and the
    user collection is unchanged unless the stats insert is the operation
    that rejected: then the new user document stays in the store without
    stats, and a repeated signup with that email is answered 400
    ["User already exists"]. *)
Theorem signup_writes
    (req : string + Signup.Body) (awaits : SignupRoute.Awaits)
    (clock : nat -> Z) (db : Db) :
  let out := SignupRoute.POST objectId bcrypt_hash req awaits clock db in
  (status (fst out) = 200 \/ status (fst out) = 400
   \/ status (fst out) = 500) /\
  (status (fst out) = 400 -> snd out = db) /\
  (status (fst out) = 200 ->
   exists n e p doc stats,
     req = inr {| Signup.name := Some n; Signup.email := Some e;
                  Signup.password := Some p |} /\
     users (snd out) = users db ++ [doc] /\
     userStats (snd out) = userStats db ++ [stats] /\
     user_name doc = n /\ user_email doc = e /\
     user_password doc = Some (bcrypt_hash p 10) /\
     user_role doc = "user" /\
     stats_userId stats = user_id doc /\
     stats_questionsAsked stats = 0 /\ stats_streak stats = 0 /\
     stats_topicsLearned stats = []) /\
  (status (fst out) = 500 ->
   userStats (snd out) = userStats db /\
   (users (snd out) = users db \/
    exists n e p error,
      req = inr {| Signup.name := Some n; Signup.email := Some e;
                   Signup.password := Some p |} /\
      SignupRoute.insertStats awaits = Some error /\
      findOne_user db e = None /\
      users (snd out)
      = users db
        ++ [{| user_id := objectId (generated db);
               user_name := n;
               user_email := e;
               user_password := Some (bcrypt_hash p 10);
               user_role := "user";
               user_provider := "credentials";
               user_createdAt := clock 0%nat;
               user_updatedAt := clock 1%nat |}])) /\
  (forall n e p error,
      JS.truthy_str n = true -> JS.truthy_str e = true ->
      JS.truthy_str p = true ->
      findOne_user db e = None ->
      req = inr {| Signup.name := Some n; Signup.email := Some e;
                   Signup.password := Some p |} ->
      awaits = {| SignupRoute.connectDB := None;
                  SignupRoute.findOne := None;
                  SignupRoute.hash := None;
                  SignupRoute.insertUser := None;
                  SignupRoute.insertStats := Some error |} ->
      fst out
      = json_status (JObj [("error", JStr (message_or error "Signup failed"))])
          500 /\
      users (snd out)
      = users db
        ++ [{| user_id := objectId (generated db);
               user_name := n;
               user_email := e;
               user_password := Some (bcrypt_hash p 10);
               user_role := "user";
               user_provider := "credentials";
               user_createdAt := clock 0%nat;
               user_updatedAt := clock 1%nat |}] /\
      userStats (snd out) = userStats db /\
      forall clock',
        SignupRoute.POST objectId bcrypt_hash req SignupRoute.all_resolve
          clock' (snd out)
        = (json_status (JObj [("error", JStr "User already exists")]) 400,
           snd out)).
Proof.
  cbn zeta.
  destruct (signup_outcomes req awaits clock db) as (H1 & H2 & H3 & H4).
  repeat (split; [assumption|]).
  intros n e p error Hn He Hp Hfree -> ->.
  rewrite stats_rejection_leaves_user by assumption.
  unfold SignupRoute.caught. cbn [fst snd users userStats].
  repeat (split; [reflexivity|]).
  intros clock'. unfold SignupRoute.POST.
  cbn [Signup.name Signup.email Signup.password JS.truthy from_option id].
  rewrite Hn, He, Hp. cbn [negb orb].
  cbn [SignupRoute.connectDB SignupRoute.findOne SignupRoute.all_resolve].
  match goal with
  | |- context [findOne_user ?d e] =>
      replace (findOne_user d e)
        with (Some {| user_id := objectId (generated db);
                      user_name := n;
                      user_email := e;
                      user_password := Some (bcrypt_hash p 10);
                      user_role := "user";
                      user_provider := "credentials";
                      user_createdAt := clock 0%nat;
                      user_updatedAt := clock 1%nat |})
  end; [reflexivity|].
  symmetry.
  apply (AuthFlowFacts.findOne_after_signup db
           {| user_id := objectId (generated db);
              user_name := n;
              user_email := e;
              user_password := Some (bcrypt_hash p 10);
              user_role := "user";
              user_provider := "credentials";
              user_createdAt := clock 0%nat;
              user_updatedAt := clock 1%nat |}).
  exact Hfree.
Qed.

(** X29.  Signup keeps emails unique: if no two user documents share an
    email before a signup request, none do after it, whatever the request
    and its outcome. *)
Theorem signup_keeps_emails_unique
    (req : string + Signup.Body) (connectDB : option string)
    (clock : nat -> Z) (db : Db) :
  NoDup (user_email <$> users db) ->
  NoDup (user_email <$>
           users (snd (Signup.POST objectId bcrypt_hash req connectDB clock
                         db))).
Proof.
  intros Hdup. unfold Signup.POST.
  destruct req as [error|[n e p]];
    cbn [Signup.name Signup.email Signup.password]; [assumption|].
  destruct (negb (JS.truthy n) || negb (JS.truthy e) || negb (JS.truthy p));
    [assumption|].
  destruct connectDB as [error|]; [assumption|].
  destruct (findOne_user db (default "" e)) eqn:Hfree; [assumption|].
  cbn. rewrite fmap_app. cbn.
  apply NoDup_app. repeat split; [assumption | | apply NoDup_singleton].
  intros x Hx Hin. apply list_elem_of_singleton in Hin. subst x.
  now apply findOne_None in Hfree.
Qed.

(** X30.  An email can be registered once: after a successful signup, any
    later signup with the same email, whatever the name, the password and
    the clock, is answered 400 ["User already exists"] and leaves the
    store as it is. *)
Theorem second_signup_is_rejected
    (n e p n' p' : string) (clock clock' : nat -> Z) (db : Db) :
  JS.truthy_str n = true -> JS.truthy_str e = true ->
  JS.truthy_str p = true ->
  JS.truthy_str n' = true -> JS.truthy_str p' = true ->
  findOne_user db e = None ->
  let db1 :=
    snd (Signup.POST objectId bcrypt_hash
           (inr {| Signup.name := Some n; Signup.email := Some e;
                   Signup.password := Some p |}) None clock db) in
  Signup.POST objectId bcrypt_hash
    (inr {| Signup.name := Some n'; Signup.email := Some e;
            Signup.password := Some p' |}) None clock' db1
  = (json_status (JObj [("error", JStr "User already exists")]) 400, db1).
Proof.
  intros Hn He Hp Hn' Hp' Hfree. cbn zeta.
  rewrite (AuthFlowFacts.signup_stores_user objectId bcrypt_hash n e p clock
             db) by assumption.
  cbn [snd]. unfold Signup.POST at 1.
  cbn [Signup.name Signup.email Signup.password JS.truthy from_option id].
  rewrite Hn', He, Hp'. cbn [negb orb].
  match goal with
  | |- context [findOne_user ?d e] =>
      replace (findOne_user d e)
        with (Some {| user_id := objectId (generated db);
                      user_name := n;
                      user_email := e;
                      user_password := Some (bcrypt_hash p 10);
                      user_role := "user";
                      user_provider := "credentials";
                      user_createdAt := clock 0%nat;
                      user_updatedAt := clock 1%nat |})
  end; [reflexivity|].
  symmetry.
  apply (AuthFlowFacts.findOne_after_signup db
           {| user_id := objectId (generated db);
              user_name := n;
              user_email := e;
              user_password := Some (bcrypt_hash p 10);
              user_role := "user";
              user_provider := "credentials";
              user_createdAt := clock 0%nat;
              user_updatedAt := clock 1%nat |}).
  exact Hfree.
Qed.

End Handler.

(** Bob signs up on the store that holds Ana, and the stats insert is
    refused: the route answers 500, Bob's user document stays, and his
    next attempt is turned away. *)
Lemma signup_writes_witness :
  let bob := inr {| Signup.name := Some "Bob";
                    Signup.email := Some "bob@x.com";
                    Signup.password := Some "hunter2" |} in
  let refused :=
    {| SignupRoute.connectDB := None;
       SignupRoute.findOne := None;
       SignupRoute.hash := None;
       SignupRoute.insertUser := None;
       SignupRoute.insertStats := Some "not primary" |} in
  let out :=
    SignupRoute.POST AuthFacts.objectId AuthFacts.bcrypt_hash bob refused
      AuthFacts.tick AuthFacts.with_ana in
  fst out
  = json_status
      (JObj [("error", JStr (message_or "not primary" "Signup failed"))]) 500 /\
  users (snd out)
  = users AuthFacts.with_ana
    ++ [{| user_id := AuthFacts.objectId (generated AuthFacts.with_ana);
           user_name := "Bob";
           user_email := "bob@x.com";
           user_password := Some (AuthFacts.bcrypt_hash "hunter2" 10);
           user_role := "user";
           user_provider := "credentials";
           user_createdAt := AuthFacts.tick 0%nat;
           user_updatedAt := AuthFacts.tick 1%nat |}] /\
  userStats (snd out) = userStats AuthFacts.with_ana /\
  forall clock',
    SignupRoute.POST AuthFacts.objectId AuthFacts.bcrypt_hash bob
      SignupRoute.all_resolve clock' (snd out)
    = (json_status (JObj [("error", JStr "User already exists")]) 400,
       snd out).
Proof.
  apply (proj2 (proj2 (proj2 (proj2
           (signup_writes AuthFacts.objectId AuthFacts.bcrypt_hash
              (inr {| Signup.name := Some "Bob";
                      Signup.email := Some "bob@x.com";
                      Signup.password := Some "hunter2" |})
              {| SignupRoute.connectDB := None;
                 SignupRoute.findOne := None;
                 SignupRoute.hash := None;
                 SignupRoute.insertUser := None;
                 SignupRoute.insertStats := Some "not primary" |}
              AuthFacts.tick AuthFacts.with_ana))))
           "Bob" "bob@x.com" "hunter2" "not primary");
    reflexivity.
Defined.

Lemma signup_keeps_emails_unique_witness :
  NoDup (user_email <$>
           users (snd (Signup.POST AuthFacts.objectId AuthFacts.bcrypt_hash
                         (inr {| Signup.name := Some "Bob";
                                 Signup.email := Some "bob@x.com";
                                 Signup.password := Some "hunter2" |})
                         None AuthFacts.tick AuthFacts.with_ana))).
Proof.
  apply (signup_keeps_emails_unique AuthFacts.objectId AuthFacts.bcrypt_hash
           (inr {| Signup.name := Some "Bob";
                   Signup.email := Some "bob@x.com";
                   Signup.password := Some "hunter2" |})
           None AuthFacts.tick AuthFacts.with_ana).
  apply NoDup_singleton.
Defined.

Lemma second_signup_is_rejected_witness :
  Signup.POST AuthFacts.objectId AuthFacts.bcrypt_hash
    (inr {| Signup.name := Some "Another Ana";
            Signup.email := Some "ana@x.com";
            Signup.password := Some "different" |}) None AuthFacts.tick
    AuthFacts.with_ana
  = (json_status (JObj [("error", JStr "User already exists")]) 400,
     AuthFacts.with_ana).
Proof.
  apply (second_signup_is_rejected AuthFacts.objectId AuthFacts.bcrypt_hash
           "Ana" "ana@x.com" "secret1" "Another Ana" "different"
           AuthFacts.tick AuthFacts.tick empty);
    reflexivity.
Defined.

End SignupFacts.
